(** * Validation process orchestration: a shallow embedding

    The development follows the Python sources of the validation API:
    - [api/models.py]        : [ValidationStatus], [ValidationProcess],
                               [ValidateStudentRequest]
    - [api/exceptions.py]    : the exception classes and their messages
    - [api/repositories.py]  : the in-memory and the MongoDB process
                               repositories, the MongoDB enrollment repository
    - [api/services.py]      : [EnrollmentValidationService] and its factory
    - [api/database.py]      : [DatabaseConnection]
    - [api/main.py]          : the start-up part of [lifespan], the two
                               endpoints and the exception handler
    - [spike/document_mongodb_tools.py] : [compare_student_data] and the
                               look-up of a local certificate

    Python [str] values are represented by [string], read as the UTF-8
    encoding of the text.  A [datetime] is its number of microseconds
    with a mark for the zone; the MongoDB driver keeps milliseconds and
    gives back naive values.  Values drawn from [uuid.uuid4()] and
    [datetime.now()], and the texts that libraries render, are explicit
    inputs. *)

From Stdlib Require Import ZArith Ascii String List Bool Lia.
From stdpp Require Import base option list strings gmap.

Set Warnings "-register-all".
Local Open Scope Z_scope.

(** ** Python values *)

Module Py.

(** The JSON-like values that travel through documents and payloads.
    Floating-point numbers are left out. *)
Inductive pyval : Type :=
| PyNone
| PyBool (b : bool)
| PyInt (n : Z)
| PyStr (s : string)
| PyList (xs : list pyval)
| PyDict (kvs : list (string * pyval)).

(** A [dict] keeps insertion order; keys are unique. *)
Abbreviation dict := (list (string * pyval)).

(** [type(v).__name__] *)
Definition type_name (v : pyval) : string :=
  match v with
  | PyNone => "NoneType"
  | PyBool _ => "bool"
  | PyInt _ => "int"
  | PyStr _ => "str"
  | PyList _ => "list"
  | PyDict _ => "dict"
  end.

(** [d.get(key)], [None] standing for the absent key. *)
Fixpoint dict_lookup (key : string) (d : dict) : option pyval :=
  match d with
  | [] => None
  | (k, v) :: d' => if String.eqb k key then Some v else dict_lookup key d'
  end.

(** [d.get(key)] : a missing key reads as [None]. *)
Definition dict_get (d : dict) (key : string) : pyval :=
  match dict_lookup key d with
  | Some v => v
  | None => PyNone
  end.

(** [d.get(key, default)] : the default is used for a missing key only. *)
Definition dict_get_default (d : dict) (key : string) (default : pyval) : pyval :=
  match dict_lookup key d with
  | Some v => v
  | None => default
  end.

(** [d[key] = v] : overwrite in place, or append a new key. *)
Fixpoint dict_set (d : dict) (key : string) (v : pyval) : dict :=
  match d with
  | [] => [(key, v)]
  | (k, w) :: d' =>
      if String.eqb k key then (k, v) :: d' else (k, w) :: dict_set d' key v
  end.

(** Python's [==] on these values.  Booleans are integers ([True == 1]);
    lists compare element by element; dicts compare as maps. *)
Fixpoint py_eq (a b : pyval) {struct a} : bool :=
  match a, b with
  | PyNone, PyNone => true
  | PyBool x, PyBool y => Bool.eqb x y
  | PyBool x, PyInt n => Z.eqb (Z.b2z x) n
  | PyInt m, PyBool y => Z.eqb m (Z.b2z y)
  | PyInt m, PyInt n => Z.eqb m n
  | PyStr s, PyStr t => String.eqb s t
  | PyList xs, PyList ys =>
      (fix all2 (xs ys : list pyval) {struct xs} : bool :=
         match xs, ys with
         | [], [] => true
         | x :: xs', y :: ys' => py_eq x y && all2 xs' ys'
         | _, _ => false
         end) xs ys
  | PyDict d, PyDict e =>
      Nat.eqb (length d) (length e) &&
      (fix all_in (d : dict) {struct d} : bool :=
         match d with
         | [] => true
         | (k, v) :: d' =>
             match dict_lookup k e with
             | Some w => py_eq v w
             | None => false
             end && all_in d'
         end) d
  | _, _ => false
  end.

(** A UTF-8 continuation byte is [10xxxxxx]. *)
Definition is_continuation (c : ascii) : bool :=
  match c with
  | Ascii _ _ _ _ _ _ b6 b7 => b7 && negb b6
  end.

(** [len(s)] for a [str]: the number of code points. *)
Fixpoint str_len (s : string) : nat :=
  match s with
  | EmptyString => 0%nat
  | String c s' => if is_continuation c then str_len s' else S (str_len s')
  end.

End Py.
Export Py.

(** ** Exceptions ([api/exceptions.py] and the built-in ones that occur) *)

Inductive exn : Type :=
| TypeError (msg : string)
| AttributeError (msg : string)
| PydanticValidationError (msg : string)
| EnrollmentNotFoundError (uuid_str : string)
| InvalidUuidFormatError (uuid_str : string)
| ValidationProcessNotFoundError (process_id : string)
| ValidationServiceError (message : string)
| RuntimeError (msg : string)
| OtherException (msg : string).

(** [str(e)] : the message handed to [Exception.__init__]. *)
Definition exn_str (e : exn) : string :=
  match e with
  | TypeError m | AttributeError m | PydanticValidationError m
  | RuntimeError m | OtherException m => m
  | EnrollmentNotFoundError u => "Enrollment UUID " +:+ u +:+ " not found"
  | InvalidUuidFormatError u =>
      "Invalid UUID format: " +:+ u +:+ ". Expected standard UUID format"
  | ValidationProcessNotFoundError p => "Validation process " +:+ p +:+ " not found"
  | ValidationServiceError m => "Validation service error: " +:+ m
  end.

(** The [error_code] attribute of the API exceptions. *)
Definition error_code (e : exn) : option string :=
  match e with
  | EnrollmentNotFoundError _ => Some "ENROLLMENT_NOT_FOUND"
  | InvalidUuidFormatError _ => Some "INVALID_UUID_FORMAT"
  | ValidationProcessNotFoundError _ => Some "PROCESS_NOT_FOUND"
  | ValidationServiceError _ => Some "SERVICE_ERROR"
  | _ => None
  end.

(** A call either returns or raises. *)
Inductive result (A : Type) : Type :=
| Ok (a : A)
| Raise (e : exn).
Arguments Ok {A} a.
Arguments Raise {A} e.

(** ** The fragment of [re] used by the service *)

Module Re.

(** Pattern items: [^], [$], a literal character, and a character set
    with a fixed repetition count [[...]{n}]. *)
Inductive item : Type :=
| Bol
| Eol
| Lit (c : ascii)
| SetRep (ranges : list (ascii * ascii)) (count : nat).

Definition in_range (c : ascii) (r : ascii * ascii) : bool :=
  Ascii.leb (fst r) c && Ascii.leb c (snd r).

Definition lower (c : ascii) : ascii :=
  if Ascii.leb "A" c && Ascii.leb c "Z"
  then ascii_of_nat (nat_of_ascii c + 32) else c.

Definition upper (c : ascii) : ascii :=
  if Ascii.leb "a" c && Ascii.leb c "z"
  then ascii_of_nat (nat_of_ascii c - 32) else c.

(** Membership in a set; under [IGNORECASE] the other case of the
    character is tried as well. *)
Definition in_set (ignorecase : bool) (ranges : list (ascii * ascii)) (c : ascii) : bool :=
  existsb (in_range c) ranges
  || (ignorecase &&
      (existsb (in_range (lower c)) ranges || existsb (in_range (upper c)) ranges)).

Definition lit_eq (ignorecase : bool) (c d : ascii) : bool :=
  Ascii.eqb c d || (ignorecase && Ascii.eqb (lower c) (lower d)).

(** Consume exactly [n] characters of the set. *)
Fixpoint take_set (ignorecase : bool) (ranges : list (ascii * ascii))
         (n : nat) (s : string) : option string :=
  match n with
  | O => Some s
  | S n' =>
      match s with
      | String c s' =>
          if in_set ignorecase ranges c then take_set ignorecase ranges n' s' else None
      | EmptyString => None
      end
  end.

(** [$] without [MULTILINE]: at the end of the string, or just before a
    newline that ends the string. *)
Definition at_eol (s : string) : bool :=
  match s with
  | EmptyString => true
  | String c EmptyString => Ascii.eqb c "010"
  | _ => false
  end.

(** Match the items from position [pos], the rest of the subject being [s]. *)
Fixpoint match_here (ignorecase : bool) (p : list item) (pos : nat) (s : string) : bool :=
  match p with
  | [] => true
  | Bol :: p' => Nat.eqb pos 0 && match_here ignorecase p' pos s
  | Eol :: p' => at_eol s && match_here ignorecase p' pos s
  | Lit c :: p' =>
      match s with
      | String d s' => lit_eq ignorecase c d && match_here ignorecase p' (S pos) s'
      | EmptyString => false
      end
  | SetRep ranges n :: p' =>
      match take_set ignorecase ranges n s with
      | Some s' => match_here ignorecase p' (pos + n)%nat s'
      | None => false
      end
  end.

(** [bool(re.match(pattern, s, flags))] : the pattern must match at the
    start of [s]; nothing is required of what follows the match. *)
Definition re_match (p : list item) (s : string) (ignorecase : bool) : bool :=
  match_here ignorecase p 0 s.

End Re.

(** ** [EnrollmentValidationService._validate_uuid_format] *)

(** [[0-9a-f]] *)
Definition hex_set : list (ascii * ascii) :=
  [("0", "9"); ("a", "f")]%char.

(** [r"^[0-9a-f]{8}-[0-9a-f]{4}-[0-9a-f]{4}-[0-9a-f]{4}-[0-9a-f]{12}$"] *)
Definition uuid_pattern : list Re.item :=
  [Re.Bol; Re.SetRep hex_set 8; Re.Lit "-"; Re.SetRep hex_set 4; Re.Lit "-";
   Re.SetRep hex_set 4; Re.Lit "-"; Re.SetRep hex_set 4; Re.Lit "-";
   Re.SetRep hex_set 12; Re.Eol]%char.

(** [re.match] raises [TypeError] on anything that is not a string. *)
Definition _validate_uuid_format (uuid_str : pyval) : result bool :=
  match uuid_str with
  | PyStr s => Ok (Re.re_match uuid_pattern s true)
  | v => Raise (TypeError ("expected string or bytes-like object, got '"
                           +:+ type_name v +:+ "'"))
  end.

(** The shape the identifier is meant to have, in the words of the
    interface: five groups of 8, 4, 4, 4 and 12 hexadecimal digits of either
    case, separated by hyphens. *)
Definition is_hex_digit (c : ascii) : bool :=
  (Ascii.leb "0" c && Ascii.leb c "9")
  || (Ascii.leb "a" c && Ascii.leb c "f")
  || (Ascii.leb "A" c && Ascii.leb c "F").

Fixpoint all_hex (g : string) : bool :=
  match g with
  | EmptyString => true
  | String c g' => is_hex_digit c && all_hex g'
  end.

Definition hex_group (n : nat) (g : string) : Prop :=
  String.length g = n /\ all_hex g = true.

Definition canonical_identifier (s : string) : Prop :=
  exists g1 g2 g3 g4 g5,
    s = g1 +:+ "-" +:+ g2 +:+ "-" +:+ g3 +:+ "-" +:+ g4 +:+ "-" +:+ g5
    /\ hex_group 8 g1 /\ hex_group 4 g2 /\ hex_group 4 g3
    /\ hex_group 4 g4 /\ hex_group 12 g5.

(** The line feed, which string literals cannot spell. *)
Definition newline : string := String "010" EmptyString.

(** ** [api/models.py] *)

Module Models.

Inductive ValidationStatus : Type :=
| PENDING
| IN_PROGRESS
| COMPLETED
| FAILED.

(** [status.value] *)
Definition status_value (s : ValidationStatus) : string :=
  match s with
  | PENDING => "pending"
  | IN_PROGRESS => "in_progress"
  | COMPLETED => "completed"
  | FAILED => "failed"
  end.

(** [ValidationStatus(value)], which raises [ValueError] on other strings. *)
Definition status_of_value (v : string) : option ValidationStatus :=
  if String.eqb v "pending" then Some PENDING
  else if String.eqb v "in_progress" then Some IN_PROGRESS
  else if String.eqb v "completed" then Some COMPLETED
  else if String.eqb v "failed" then Some FAILED
  else None.

Definition is_terminal (s : ValidationStatus) : bool :=
  match s with
  | COMPLETED | FAILED => true
  | PENDING | IN_PROGRESS => false
  end.

(** A [datetime]: the microseconds since the epoch, read in UTC, and
    whether the value carries a [tzinfo]. *)
Record datetime : Type := {
  microseconds : Z;
  tz_aware : bool
}.

Definition timestamp : Type := datetime.

(** An aware UTC value, as [datetime.now(timezone.utc)] gives. *)
Definition utc (us : Z) : timestamp :=
  {| microseconds := us; tz_aware := true |}.

Record ValidationProcess : Type := {
  process_id : string;
  uuid_str : string;
  email : option string;
  status : ValidationStatus;
  created_at : timestamp;
  updated_at : option timestamp;
  error_message : option string;
  result_data : option dict
}.

End Models.
Export Models.

(** ** [api/repositories.py] *)

(** The abstract base class [ValidationProcessRepository].  The identifier
    drawn by [uuid.uuid4()] and the reading of the clock are arguments. *)
Class ValidationProcessRepository (S : Type) : Type := {
  create : S -> string -> option string -> string -> timestamp ->
           result ValidationProcess * S;
  get_by_id : S -> string -> option ValidationProcess;
  update_status : S -> string -> ValidationStatus -> option string -> option dict ->
                  timestamp -> result ValidationProcess * S
}.

Module InMemoryValidationProcessRepository.

(** [self._processes : Dict[str, ValidationProcess]] *)
Abbreviation store := (gmap string ValidationProcess).

Definition init : store := ∅.

Definition create (_processes : store) (uuid_str : string) (email : option string)
           (new_id : string) (now : timestamp) : result ValidationProcess * store :=
  let process :=
    {| process_id := new_id;
       uuid_str := uuid_str;
       email := email;
       status := PENDING;
       created_at := now;
       updated_at := None;
       error_message := None;
       result_data := None |} in
  (Ok process, <[new_id := process]> _processes).

Definition get_by_id (_processes : store) (process_id : string)
  : option ValidationProcess :=
  _processes !! process_id.

Definition update_status (_processes : store) (process_id : string)
           (status : ValidationStatus) (error_message : option string)
           (result_data : option dict) (now : timestamp)
  : result ValidationProcess * store :=
  match get_by_id _processes process_id with
  | None => (Raise (ValidationProcessNotFoundError process_id), _processes)
  | Some process =>
      let updated_process :=
        {| process_id := process.(Models.process_id);
           uuid_str := process.(uuid_str);
           email := process.(email);
           status := status;
           created_at := process.(created_at);
           updated_at := Some now;
           error_message := error_message;
           result_data := result_data |} in
      (Ok updated_process, <[process_id := updated_process]> _processes)
  end.

End InMemoryValidationProcessRepository.

#[export] Instance in_memory_repository
  : ValidationProcessRepository (gmap string ValidationProcess) := {
  create := InMemoryValidationProcessRepository.create;
  get_by_id := InMemoryValidationProcessRepository.get_by_id;
  update_status := InMemoryValidationProcessRepository.update_status
}.

Module MongoValidationProcessRepository.

(** A document of the [validation_processes] collection, with the keys
    that [create] writes; [_id] is left out. *)
Record document : Type := {
  doc_process_id : string;
  doc_uuid_str : string;
  doc_email : option string;
  doc_status : string;
  doc_created_at : timestamp;
  doc_updated_at : option timestamp;
  doc_error_message : option string;
  doc_result_data : option dict
}.

(** The collection: documents in insertion order.  No unique index is
    declared on [process_id]. *)
Abbreviation collection := (list document).

Definition init : collection := [].

(** What the driver keeps of a [datetime]: BSON holds the milliseconds in
    UTC, and the client, built without [tz_aware], decodes them to a naive
    value. *)
Definition bson_datetime (t : timestamp) : timestamp :=
  {| microseconds := (t.(microseconds) / 1000) * 1000; tz_aware := false |}.

(** A document as the collection holds it once written. *)
Definition bson_document (d : document) : document :=
  {| doc_process_id := d.(doc_process_id);
     doc_uuid_str := d.(doc_uuid_str);
     doc_email := d.(doc_email);
     doc_status := d.(doc_status);
     doc_created_at := bson_datetime d.(doc_created_at);
     doc_updated_at := bson_datetime <$> d.(doc_updated_at);
     doc_error_message := d.(doc_error_message);
     doc_result_data := d.(doc_result_data) |}.

(** [collection.find_one({"process_id": process_id})] *)
Fixpoint find_one (process_id : string) (c : collection) : option document :=
  match c with
  | [] => None
  | d :: c' =>
      if String.eqb d.(doc_process_id) process_id then Some d
      else find_one process_id c'
  end.

(** [collection.insert_one(doc)] *)
Definition insert_one (doc : document) (c : collection) : collection :=
  c ++ [bson_document doc].

(** [collection.update_one({"process_id": process_id}, {"$set": ...})] :
    the first matching document is rewritten. *)
Fixpoint update_one (process_id : string) (set : document -> document)
         (c : collection) : collection :=
  match c with
  | [] => []
  | d :: c' =>
      if String.eqb d.(doc_process_id) process_id then set d :: c'
      else d :: update_one process_id set c'
  end.

(** The [update_data] of [update_status] as a [$set]: the status and the
    update time always, the message and the payload only when given.  The
    time is written through the driver. *)
Definition update_data (status : ValidationStatus) (now : timestamp)
           (error_message : option string) (result_data : option dict)
           (d : document) : document :=
  {| doc_process_id := d.(doc_process_id);
     doc_uuid_str := d.(doc_uuid_str);
     doc_email := d.(doc_email);
     doc_status := status_value status;
     doc_created_at := d.(doc_created_at);
     doc_updated_at := Some (bson_datetime now);
     doc_error_message :=
       match error_message with
       | Some m => Some m
       | None => d.(doc_error_message)
       end;
     doc_result_data :=
       match result_data with
       | Some r => Some r
       | None => d.(doc_result_data)
       end |}.

(** Reading a document back into a [ValidationProcess]; the status value
    may fail to parse. *)
Definition process_of_document (doc : document) : option ValidationProcess :=
  match status_of_value doc.(doc_status) with
  | Some st =>
      Some {| process_id := doc.(doc_process_id);
              uuid_str := doc.(doc_uuid_str);
              email := doc.(doc_email);
              status := st;
              created_at := doc.(doc_created_at);
              updated_at := doc.(doc_updated_at);
              error_message := doc.(doc_error_message);
              result_data := doc.(doc_result_data) |}
  | None => None
  end.

Definition create (c : collection) (uuid_str : string) (email : option string)
           (new_id : string) (now : timestamp) : result ValidationProcess * collection :=
  let process :=
    {| process_id := new_id;
       uuid_str := uuid_str;
       email := email;
       status := PENDING;
       created_at := now;
       updated_at := None;
       error_message := None;
       result_data := None |} in
  let process_dict :=
    {| doc_process_id := process.(process_id);
       doc_uuid_str := process.(Models.uuid_str);
       doc_email := process.(Models.email);
       doc_status := status_value process.(status);
       doc_created_at := process.(created_at);
       doc_updated_at := process.(updated_at);
       doc_error_message := process.(error_message);
       doc_result_data := process.(result_data) |} in
  (Ok process, insert_one process_dict c).

(** Any error while reading is logged and answered by [None]. *)
Definition get_by_id (c : collection) (process_id : string)
  : option ValidationProcess :=
  match find_one process_id c with
  | None => None
  | Some doc => process_of_document doc
  end.

Definition update_status (c : collection) (process_id : string)
           (status : ValidationStatus) (error_message : option string)
           (result_data : option dict) (now : timestamp)
  : result ValidationProcess * collection :=
  match find_one process_id c with
  | None => (Raise (ValidationProcessNotFoundError process_id), c)
  | Some existing_doc =>
      let c' := update_one process_id
                  (update_data status now error_message result_data) c in
      match find_one process_id c' with
      | None => (Raise (TypeError "'NoneType' object is not subscriptable"), c')
      | Some updated_doc =>
          match process_of_document updated_doc with
          | Some p => (Ok p, c')
          | None =>
              (Raise (OtherException
                        ("'" +:+ updated_doc.(doc_status)
                         +:+ "' is not a valid ValidationStatus")), c')
          end
      end
  end.

End MongoValidationProcessRepository.

#[export] Instance mongo_repository
  : ValidationProcessRepository (list MongoValidationProcessRepository.document) := {
  create := MongoValidationProcessRepository.create;
  get_by_id := MongoValidationProcessRepository.get_by_id;
  update_status := MongoValidationProcessRepository.update_status
}.

(** ** State and exceptions: the monad of the service code *)

(** A computation over a state [St] that returns or raises; what was done
    to the state before an exception stays done. *)
Definition SE (St A : Type) : Type := St -> result A * St.

#[export] Instance se_ret {St : Type} : MRet (SE St) :=
  fun A (a : A) (w : St) => (Ok a, w).

#[export] Instance se_bind {St : Type} : MBind (SE St) :=
  fun A B (k : A -> SE St B) (m : SE St A) (w : St) =>
    match m w with
    | (Ok a, w') => k a w'
    | (Raise e, w') => (Raise e, w')
    end.

Definition raise {St A : Type} (e : exn) : SE St A :=
  fun w => (Raise e, w).

(** [try: body  except Exception as e: handler(e)] *)
Definition try_except {St A : Type} (body : SE St A) (handler : exn -> SE St A)
  : SE St A :=
  fun w =>
    match body w with
    | (Ok a, w') => (Ok a, w')
    | (Raise e, w') => handler e w'
    end.

Definition lift {St A : Type} (r : result A) : SE St A :=
  fun w => (r, w).

(** ** Built-ins used by the background step *)

(** [len(v)] *)
Definition py_len (v : pyval) : result Z :=
  match v with
  | PyStr s => Ok (Z.of_nat (str_len s))
  | PyList xs => Ok (Z.of_nat (length xs))
  | PyDict kvs => Ok (Z.of_nat (length kvs))
  | _ => Raise (TypeError ("object of type '" +:+ type_name v +:+ "' has no len()"))
  end.

(** [v.get(key, default)] on an arbitrary value: only a [dict] has [get]. *)
Definition py_get (v : pyval) (key : string) (default : pyval) : result pyval :=
  match v with
  | PyDict d => Ok (dict_get_default d key default)
  | _ => Raise (AttributeError
                  ("'" +:+ type_name v +:+ "' object has no attribute 'get'"))
  end.

(** The field [email: Optional[str]] of the pydantic model.  For a value
    that is refused, [str_error] is [str] of the
    [ValidationError] raised: a text of several lines that names the
    model, the field, the type expected and the input. *)
Definition email_field (str_error : pyval -> string) (v : pyval)
  : result (option string) :=
  match v with
  | PyNone => Ok None
  | PyStr s => Ok (Some s)
  | _ => Raise (PydanticValidationError (str_error v))
  end.

(** ** [api/services.py] *)

(** The abstract base class [EnrollmentRepository], as far as the service
    uses it.  Reading never raises: the MongoDB implementation answers
    [None] on any error. *)
Record EnrollmentRepository : Type := {
  get_by_uuid : string -> option dict
}.

(** What the repositories and the event loop are asked to do, in order. *)
Inductive Event : Type :=
| EnrollmentGetByUuid (uuid_str : string)
| ProcessCreate (uuid_str : string) (email : pyval)
| ProcessGetById (process_id : string)
| ProcessUpdateStatus (process_id : string) (status : ValidationStatus)
    (error_message : option string) (result_data : option dict)
    (outcome : result ValidationProcess)
| CreateTask (process_id : string).

Section EnrollmentValidationService.

Context {S : Type} {process_repository : ValidationProcessRepository S}.
Variable enrollment_repository : EnrollmentRepository.

(** The successive values of [uuid.uuid4()] and [datetime.now(timezone.utc)],
    [datetime.isoformat], and [str] of the [ValidationError] that the
    process model raises for an e-mail value it refuses. *)
Variable uuid4 : nat -> string.
Variable utcnow : nat -> timestamp.
Variable isoformat : timestamp -> string.
Variable str_error : pyval -> string.

(** The state the service runs in: the process repository, the calls made
    so far, and how many identifiers and clock readings were drawn. *)
Record Sys : Type := {
  processes : S;
  calls : list Event;
  drawn : nat;
  ticks : nat
}.

Abbreviation M := (SE Sys).

Definition record_call (ev : Event) : M unit :=
  fun w => (Ok tt, {| processes := w.(processes); calls := w.(calls) ++ [ev];
                      drawn := w.(drawn); ticks := w.(ticks) |}).

Definition datetime_now : M timestamp :=
  fun w => (Ok (utcnow w.(ticks)),
            {| processes := w.(processes); calls := w.(calls);
               drawn := w.(drawn); ticks := Datatypes.S w.(ticks) |}).

Definition uuid_uuid4 : M string :=
  fun w => (Ok (uuid4 w.(drawn)),
            {| processes := w.(processes); calls := w.(calls);
               drawn := Datatypes.S w.(drawn); ticks := w.(ticks) |}).

(** A call into the process repository. *)
Definition on_repository {A : Type} (f : S -> result A * S) : M A :=
  fun w =>
    let '(r, s') := f w.(processes) in
    (r, {| processes := s'; calls := w.(calls);
           drawn := w.(drawn); ticks := w.(ticks) |}).

(** [self.enrollment_repository.get_by_uuid(uuid_str)] *)
Definition enrollment_get_by_uuid (uuid_str : string) : M (option dict) :=
  _ ← record_call (EnrollmentGetByUuid uuid_str);
  mret (enrollment_repository.(get_by_uuid) uuid_str).

(** [self.process_repository.create(uuid_str, email)] : the model object
    is built, and its fields checked, before anything is stored. *)
Definition process_create (uuid_str : string) (email : pyval) : M ValidationProcess :=
  _ ← record_call (ProcessCreate uuid_str email);
  new_id ← uuid_uuid4;
  now ← datetime_now;
  email ← lift (email_field str_error email);
  on_repository (fun s => create s uuid_str email new_id now).

(** [self.process_repository.get_by_id(process_id)] *)
Definition process_get_by_id (process_id : string) : M (option ValidationProcess) :=
  _ ← record_call (ProcessGetById process_id);
  on_repository (fun s => (Ok (get_by_id s process_id), s)).

(** [self.process_repository.update_status(process_id, status, ...)] : the
    repository reads the clock once it has found the process, so that a
    call that raises has not read it; the outcome of the call is kept with
    it. *)
Definition process_update_status (process_id : string) (status : ValidationStatus)
           (error_message : option string) (result_data : option dict)
  : M ValidationProcess :=
  fun w =>
    let '(r, s') := update_status w.(processes) process_id status
                      error_message result_data (utcnow w.(ticks)) in
    (r, {| processes := s';
           calls := w.(calls) ++ [ProcessUpdateStatus process_id status
                                    error_message result_data r];
           drawn := w.(drawn);
           ticks := match r with
                    | Ok _ => Datatypes.S w.(ticks)
                    | Raise _ => w.(ticks)
                    end |}).

(** [if not enrollment_data] : [None] and the empty dict are both false. *)
Definition truthy (enrollment_data : option dict) : option dict :=
  match enrollment_data with
  | Some (kv :: d) => Some (kv :: d)
  | _ => None
  end.

(** The payload assembled by the background step. *)
Definition make_result_data (process : ValidationProcess) (enrollment_data : dict)
           (students_count : Z) (verification_status : pyval) (now : timestamp) : dict :=
  [("enrollment_validated", PyBool true);
   ("enrollment_uuid", PyStr process.(uuid_str));
   ("email", dict_get enrollment_data "email");
   ("phone", dict_get enrollment_data "phone");
   ("students_count", PyInt students_count);
   ("verification_status", verification_status);
   ("validation_timestamp", PyStr (isoformat now));
   ("validation_notes", PyStr "Basic enrollment record validation completed")].

(** [_perform_validation] : the background step.  [asyncio.sleep] has no
    effect on the state; the step is run without interleaving. *)
Definition _perform_validation (process_id : string) : M unit :=
  try_except
    (_ ← process_update_status process_id IN_PROGRESS None None;
     process ← process_get_by_id process_id;
     match process with
     | None => mret tt
     | Some process =>
         enrollment_data ← enrollment_get_by_uuid process.(uuid_str);
         match truthy enrollment_data with
         | None =>
             _ ← process_update_status process_id FAILED
                   (Some "Enrollment not found during validation") None;
             mret tt
         | Some enrollment_data =>
             let students_info :=
               dict_get_default enrollment_data "students_info" (PyList []) in
             students_count ← lift (py_len students_info);
             verification_status ←
               lift (py_get (dict_get_default enrollment_data "verification" (PyDict []))
                            "verified" (PyBool false));
             now ← datetime_now;
             let result_data :=
               make_result_data process enrollment_data students_count
                                verification_status now in
             _ ← process_update_status process_id COMPLETED None (Some result_data);
             mret tt
         end
     end)
    (fun e =>
       _ ← process_update_status process_id FAILED (Some (exn_str e)) None;
       mret tt).

(** [initiate_validation] *)
Definition initiate_validation (uuid_str : pyval) : M ValidationProcess :=
  valid ← lift (_validate_uuid_format uuid_str);
  match uuid_str, valid with
  | PyStr s, true =>
      enrollment_data ← enrollment_get_by_uuid s;
      match truthy enrollment_data with
      | None => raise (EnrollmentNotFoundError s)
      | Some enrollment_data =>
          try_except
            (let email := dict_get enrollment_data "email" in
             process ← process_create s email;
             _ ← record_call (CreateTask process.(process_id));
             mret process)
            (fun e =>
               raise (ValidationServiceError
                        ("Failed to initiate validation: " +:+ exn_str e)))
      end
  | PyStr s, false => raise (InvalidUuidFormatError s)
  | v, _ => raise (TypeError ("expected string or bytes-like object, got '"
                              +:+ type_name v +:+ "'"))
  end.

(** [get_validation_status] *)
Definition get_validation_status (process_id : string)
  : M (option ValidationProcess) :=
  process_get_by_id process_id.

End EnrollmentValidationService.

Arguments processes {S} _.
Arguments calls {S} _.
Arguments drawn {S} _.
Arguments ticks {S} _.

(** ** [ValidationServiceFactory] and the start-up of [api/main.py] *)

(** [DatabaseConnection] holds the configuration read from the environment. *)
Record DatabaseConnection : Type := {
  mongodb_uri : option string;
  db_name : option string
}.

(** The repositories a service can be wired to. *)
Inductive EnrollmentBackend : Type :=
| MongoEnrollmentRepository (db_connection : DatabaseConnection).

Inductive ProcessBackend : Type :=
| InMemoryProcessRepository (_processes : gmap string ValidationProcess)
| MongoProcessRepository (db_connection : DatabaseConnection) (collection_name : string).

(** [EnrollmentValidationService(enrollment_repository, process_repository)] *)
Record EnrollmentValidationService : Type := {
  service_enrollment_repository : EnrollmentBackend;
  service_process_repository : ProcessBackend
}.


Section ValidationServiceFactory.

(** The surroundings of the process (environment, singleton attributes),
    and [DatabaseConnection.get_instance()], which may raise. *)
Variable W : Type.
Variable get_instance : SE W DatabaseConnection.

(** [MongoEnrollmentRepository.__init__] *)
Definition new_MongoEnrollmentRepository : SE W EnrollmentBackend :=
  db_connection ← get_instance;
  mret (MongoEnrollmentRepository db_connection).

(** [MongoValidationProcessRepository.__init__] *)
Definition new_MongoValidationProcessRepository : SE W ProcessBackend :=
  db_connection ← get_instance;
  mret (MongoProcessRepository db_connection "validation_processes").

(** [InMemoryValidationProcessRepository.__init__] *)
Definition new_InMemoryValidationProcessRepository : SE W ProcessBackend :=
  mret (InMemoryProcessRepository InMemoryValidationProcessRepository.init).

Definition create_mongo_service : SE W EnrollmentValidationService :=
  enrollment_repo ← new_MongoEnrollmentRepository;
  process_repo ← new_MongoValidationProcessRepository;
  mret {| service_enrollment_repository := enrollment_repo;
          service_process_repository := process_repo |}.

Definition create_default_service : SE W EnrollmentValidationService :=
  create_mongo_service.

Definition create_hybrid_service : SE W EnrollmentValidationService :=
  enrollment_repo ← new_MongoEnrollmentRepository;
  process_repo ← new_InMemoryValidationProcessRepository;
  mret {| service_enrollment_repository := enrollment_repo;
          service_process_repository := process_repo |}.

(** The start-up half of [lifespan] : the value given to the global
    [validation_service], or the [RuntimeError] that stops the application. *)
Definition lifespan_startup : SE W EnrollmentValidationService :=
  try_except create_mongo_service
    (fun e =>
       try_except create_hybrid_service
         (fun fallback_error =>
            raise (RuntimeError "Unable to initialize any validation service backend"))).

End ValidationServiceFactory.

(** ** [spike/document_mongodb_tools.py] : [compare_student_data] *)

(** An entry of [anomalies]; its ["type"] is always ["mismatch"]. *)
Record Anomaly : Type := {
  anomaly_field : string;
  mongodb_value : pyval;
  certificate_value : pyval
}.

(** An entry of [matches]. *)
Record Match : Type := {
  match_field : string;
  match_value : pyval
}.

(** The dictionary returned on success. *)
Record Comparison : Type := {
  mongodb_record : dict;
  certificate_data : dict;
  matches : list Match;
  anomalies : list Anomaly;
  additional_info : dict;
  total_anomalies : nat
}.

(** ["status": "error"] with its message, or ["status": "success"]. *)
Inductive CompareResult : Type :=
| CompareError (message : string)
| CompareSuccess (c : Comparison).

Section Comparator.

(** [get_student_by_id] reads the enrollment collection; [str.strip] and
    [str.lower] are Python's. *)
Variable get_student_by_id : string -> option dict.
Variable str_strip : string -> string.
Variable str_lower : string -> string.

(** [cert_val_norm != db_val_norm] *)
Definition values_differ (cert_value db_value : pyval) : bool :=
  match cert_value, db_value with
  | PyStr c, PyStr d =>
      negb (String.eqb (str_lower (str_strip c)) (str_lower (str_strip d)))
  | _, _ => negb (py_eq cert_value db_value)
  end.

(** The three accumulators of the loop. *)
Record Acc : Type := {
  acc_anomalies : list Anomaly;
  acc_matches : list Match;
  acc_additional_info : dict
}.

(** One turn of [for key, cert_value in extracted_data.items()]. *)
Definition compare_field (mongodb_record : dict) (acc : Acc)
           (item : string * pyval) : Acc :=
  let '(key, cert_value) := item in
  match dict_get mongodb_record key with
  | PyNone =>
      {| acc_anomalies := acc.(acc_anomalies);
         acc_matches := acc.(acc_matches);
         acc_additional_info := dict_set acc.(acc_additional_info) key cert_value |}
  | db_value =>
      if values_differ cert_value db_value then
        {| acc_anomalies :=
             acc.(acc_anomalies) ++ [{| anomaly_field := key;
                                        mongodb_value := db_value;
                                        certificate_value := cert_value |}];
           acc_matches := acc.(acc_matches);
           acc_additional_info := acc.(acc_additional_info) |}
      else
        {| acc_anomalies := acc.(acc_anomalies);
           acc_matches :=
             acc.(acc_matches) ++ [{| match_field := key; match_value := db_value |}];
           acc_additional_info := acc.(acc_additional_info) |}
  end.

Definition compare_student_data (student_id : string) (extracted_data : dict)
  : CompareResult :=
  match get_student_by_id student_id with
  | None =>
      CompareError ("Student ID " +:+ student_id +:+ " not found in MongoDB")
  | Some mongodb_record =>
      let acc :=
        fold_left (compare_field mongodb_record) extracted_data
                  {| acc_anomalies := []; acc_matches := [];
                     acc_additional_info := [] |} in
      CompareSuccess
        {| mongodb_record := mongodb_record;
           certificate_data := extracted_data;
           matches := acc.(acc_matches);
           anomalies := acc.(acc_anomalies);
           additional_info := acc.(acc_additional_info);
           total_anomalies := length acc.(acc_anomalies) |}
  end.

End Comparator.

(** [str.strip] and [str.lower] on ASCII text, for running the comparator. *)
Definition is_space (c : ascii) : bool :=
  (Ascii.leb "009" c && Ascii.leb c "013")
  || (Ascii.leb "028" c && Ascii.leb c " ").

Fixpoint lstrip (s : string) : string :=
  match s with
  | String c s' => if is_space c then lstrip s' else s
  | EmptyString => EmptyString
  end.

Fixpoint rstrip (s : string) : string :=
  match s with
  | String c s' =>
      match rstrip s' with
      | EmptyString => if is_space c then EmptyString else String c EmptyString
      | r => String c r
      end
  | EmptyString => EmptyString
  end.

Definition ascii_strip (s : string) : string := rstrip (lstrip s).

Fixpoint ascii_lower (s : string) : string :=
  match s with
  | String c s' => String (Re.lower c) (ascii_lower s')
  | EmptyString => EmptyString
  end.

(** ** Driving a process repository by a sequence of calls *)

Inductive RepoCall : Type :=
| CallCreate (uuid_str : string) (email : option string)
    (new_id : string) (now : timestamp)
| CallGetById (process_id : string)
| CallUpdateStatus (process_id : string) (status : ValidationStatus)
    (error_message : option string) (result_data : option dict) (now : timestamp).

(** What the caller gets back: a process or an exception, or the optional
    process of [get_by_id]. *)
Inductive RepoAnswer : Type :=
| Returned (r : result ValidationProcess)
| Looked (o : option ValidationProcess).

Definition run_call {S : Type} `{ValidationProcessRepository S}
           (s : S) (c : RepoCall) : RepoAnswer * S :=
  match c with
  | CallCreate uuid_str email new_id now =>
      let '(r, s') := create s uuid_str email new_id now in (Returned r, s')
  | CallGetById process_id => (Looked (get_by_id s process_id), s)
  | CallUpdateStatus process_id status error_message result_data now =>
      let '(r, s') := update_status s process_id status error_message result_data now in
      (Returned r, s')
  end.

Fixpoint run_calls {S : Type} `{ValidationProcessRepository S}
         (s : S) (cs : list RepoCall) : list RepoAnswer * S :=
  match cs with
  | [] => ([], s)
  | c :: cs' =>
      let '(a, s') := run_call s c in
      let '(answers, s'') := run_calls s' cs' in
      (a :: answers, s'')
  end.

(** ** The vocabulary of the properties *)

Definition is_some {A : Type} (o : option A) : bool :=
  match o with
  | Some _ => true
  | None => false
  end.

(** A call that the two backends treat alike: [create] draws an
    identifier not yet stored, and [update_status] leaves out the message
    (the payload) only where none is stored. *)
Definition alike (st : gmap string ValidationProcess) (c : RepoCall) : bool :=
  match c with
  | CallCreate _ _ new_id _ => negb (is_some (st !! new_id))
  | CallGetById _ => true
  | CallUpdateStatus process_id _ error_message result_data _ =>
      match st !! process_id with
      | Some p =>
          (is_some error_message || negb (is_some p.(Models.error_message)))
          && (is_some result_data || negb (is_some p.(Models.result_data)))
      | None => true
      end
  end.

Fixpoint all_alike (st : gmap string ValidationProcess) (cs : list RepoCall) : bool :=
  match cs with
  | [] => true
  | c :: cs' => alike st c && all_alike (snd (run_call st c)) cs'
  end.

(** The document [create] writes for a process. *)
Definition document_of_process (p : ValidationProcess)
  : MongoValidationProcessRepository.document :=
  {| MongoValidationProcessRepository.doc_process_id := p.(process_id);
     MongoValidationProcessRepository.doc_uuid_str := p.(uuid_str);
     MongoValidationProcessRepository.doc_email := p.(email);
     MongoValidationProcessRepository.doc_status := status_value p.(status);
     MongoValidationProcessRepository.doc_created_at := p.(created_at);
     MongoValidationProcessRepository.doc_updated_at := p.(updated_at);
     MongoValidationProcessRepository.doc_error_message := p.(error_message);
     MongoValidationProcessRepository.doc_result_data := p.(result_data) |}.

(** A process as the MongoDB repository reads it back: its datetimes as
    the driver keeps them, everything else as it is. *)
Definition read_back (p : ValidationProcess) : ValidationProcess :=
  {| process_id := p.(process_id);
     uuid_str := p.(uuid_str);
     email := p.(email);
     status := p.(status);
     created_at := MongoValidationProcessRepository.bson_datetime p.(created_at);
     updated_at := MongoValidationProcessRepository.bson_datetime <$> p.(updated_at);
     error_message := p.(error_message);
     result_data := p.(result_data) |}.

(** The answer of the MongoDB repository that corresponds to an answer of
    the in-memory one: [create] returns the object it built, while
    [get_by_id] and [update_status] return what they read back. *)
Definition answer_read_back (c : RepoCall) (a : RepoAnswer) : RepoAnswer :=
  match c, a with
  | CallCreate _ _ _ _, _ => a
  | _, Returned (Ok p) => Returned (Ok (read_back p))
  | _, Returned (Raise e) => Returned (Raise e)
  | _, Looked o => Looked (read_back <$> o)
  end.

Fixpoint answers_read_back (cs : list RepoCall) (answers : list RepoAnswer)
  : list RepoAnswer :=
  match cs, answers with
  | c :: cs', a :: answers' => answer_read_back c a :: answers_read_back cs' answers'
  | _, _ => []
  end.

(** The collection holds, for each identifier, the document of the process
    the in-memory map holds for it, with the datetimes as the driver keeps
    them. *)
Definition mirrors (c : list MongoValidationProcessRepository.document)
           (st : gmap string ValidationProcess) : Prop :=
  forall pid : string,
    MongoValidationProcessRepository.find_one pid c
    = (fun p => document_of_process (read_back p)) <$> (st !! pid).

(** The order of states the interface describes:
    Pending, then InProgress, then Completed or Failed. *)
Definition forward_transition (from to : ValidationStatus) : bool :=
  match from, to with
  | PENDING, IN_PROGRESS => true
  | IN_PROGRESS, COMPLETED => true
  | IN_PROGRESS, FAILED => true
  | _, _ => false
  end.

(** The invariant of a snapshot: in a terminal state exactly one of the
    message and the payload is set; before that, neither. *)
Definition snapshot_ok (p : ValidationProcess) : bool :=
  if is_terminal p.(status)
  then xorb (is_some p.(error_message)) (is_some p.(result_data))
  else negb (is_some p.(error_message)) && negb (is_some p.(result_data)).

(** Every stored snapshot satisfies the invariant. *)
Definition store_ok (st : gmap string ValidationProcess) : Prop :=
  map_Forall (fun (_ : string) (p : ValidationProcess) => snapshot_ok p = true) st.

(** The successive stores when the snapshots [ps] are written, in order,
    under the identifier [pid]. *)
Fixpoint stores_after (st : gmap string ValidationProcess) (pid : string)
         (ps : list ValidationProcess) : list (gmap string ValidationProcess) :=
  match ps with
  | [] => []
  | p :: ps' => <[pid := p]> st :: stores_after (<[pid := p]> st) pid ps'
  end.

(** The snapshots written by the successful [update_status] calls. *)
Fixpoint transitions (evs : list Event) : list ValidationProcess :=
  match evs with
  | [] => []
  | ProcessUpdateStatus _ _ _ _ (Ok p) :: evs' => p :: transitions evs'
  | _ :: evs' => transitions evs'
  end.

Definition is_create_call (ev : Event) : bool :=
  match ev with
  | ProcessCreate _ _ => true
  | _ => false
  end.

(** The snapshot [update_status] of the in-memory repository builds from
    a stored process. *)
Definition updated (p : ValidationProcess) (new_status : ValidationStatus)
           (now : timestamp) (err : option string) (res : option dict)
  : ValidationProcess :=
  {| process_id := p.(process_id);
     uuid_str := p.(uuid_str);
     email := p.(email);
     status := new_status;
     created_at := p.(created_at);
     updated_at := Some now;
     error_message := err;
     result_data := res |}.

(** How the body of the background step ends once the process is in
    progress: by the missing record, by an exception, or by a payload. *)
Inductive StepEnd : Type :=
| EndMissingRecord
| EndException (e : exn)
| EndPayload (payload : dict).

(** The last snapshot the step writes, for each of these ends. *)
Definition final_snapshot (p1 : ValidationProcess) (now : timestamp) (e : StepEnd)
  : ValidationProcess :=
  match e with
  | EndMissingRecord =>
      updated p1 FAILED now (Some "Enrollment not found during validation") None
  | EndException e => updated p1 FAILED now (Some (exn_str e)) None
  | EndPayload payload => updated p1 COMPLETED now None (Some payload)
  end.

(** ** The comparison rule, field by field *)

(** What becomes of an extracted field. *)
Inductive FieldClass : Type :=
| AdditionalInfo
| IsMatch (db_value : pyval)
| IsAnomaly (db_value : pyval).

Section Classification.

Variable str_strip : string -> string.
Variable str_lower : string -> string.

(** Two strings are compared trimmed and lower-cased; any other pair of
    values by Python's [==]. *)
Definition equal_values (cert_value db_value : pyval) : bool :=
  match cert_value, db_value with
  | PyStr c, PyStr d => String.eqb (str_lower (str_strip c)) (str_lower (str_strip d))
  | _, _ => py_eq cert_value db_value
  end.

(** A key whose canonical value is missing or null is additional
    information; otherwise the two values are compared. *)
Definition classify (record : dict) (key : string) (cert_value : pyval) : FieldClass :=
  match dict_lookup key record with
  | None | Some PyNone => AdditionalInfo
  | Some db_value =>
      if equal_values cert_value db_value then IsMatch db_value else IsAnomaly db_value
  end.

Fixpoint matches_of (record extracted : dict) : list Match :=
  match extracted with
  | [] => []
  | (key, cert_value) :: rest =>
      match classify record key cert_value with
      | IsMatch db_value =>
          {| match_field := key; match_value := db_value |} :: matches_of record rest
      | _ => matches_of record rest
      end
  end.

Fixpoint anomalies_of (record extracted : dict) : list Anomaly :=
  match extracted with
  | [] => []
  | (key, cert_value) :: rest =>
      match classify record key cert_value with
      | IsAnomaly db_value =>
          {| anomaly_field := key; mongodb_value := db_value;
             certificate_value := cert_value |} :: anomalies_of record rest
      | _ => anomalies_of record rest
      end
  end.

(** The additional fields, entered one after the other into [info]. *)
Fixpoint additional_of (record extracted info : dict) : dict :=
  match extracted with
  | [] => info
  | (key, cert_value) :: rest =>
      match classify record key cert_value with
      | AdditionalInfo => additional_of record rest (dict_set info key cert_value)
      | _ => additional_of record rest info
      end
  end.

End Classification.

(** ** Sample inputs *)

(** A canonical identifier followed by a line feed: 37 characters. *)
Definition newline_identifier : string :=
  "12345678-1234-5678-9012-123456789abc" +:+ newline.

(** A sequence that a caller of the interface may issue: a process is
    created, fails, and is then updated without a message. *)
Definition omitting_calls : list RepoCall :=
  [CallCreate "12345678-1234-5678-9012-123456789abc" None "p1" (utc 1);
   CallUpdateStatus "p1" FAILED (Some "boom") None (utc 2);
   CallUpdateStatus "p1" IN_PROGRESS None None (utc 3);
   CallGetById "p1"].

(** The sequence the orchestrator issues for one successful validation. *)
Definition orchestrated_calls : list RepoCall :=
  [CallCreate "12345678-1234-5678-9012-123456789abc" (Some "a@b.c") "p1" (utc 1);
   CallUpdateStatus "p1" IN_PROGRESS None None (utc 2);
   CallGetById "p1";
   CallUpdateStatus "p1" COMPLETED None (Some [("enrollment_validated", PyBool true)]) (utc 3);
   CallGetById "p1"].

(** A pending process, as [create] leaves it. *)
Definition pending_process : ValidationProcess :=
  {| process_id := "p1";
     uuid_str := "12345678-1234-5678-9012-123456789abc";
     email := Some "a@b.c";
     status := PENDING;
     created_at := utc 1;
     updated_at := None;
     error_message := None;
     result_data := None |}.

(** A process that failed earlier, with its message. *)
Definition failed_process : ValidationProcess :=
  {| process_id := "p1";
     uuid_str := "12345678-1234-5678-9012-123456789abc";
     email := Some "a@b.c";
     status := FAILED;
     created_at := utc 1;
     updated_at := Some (utc 2);
     error_message := Some "boom";
     result_data := None |}.

(** The document the collection holds for it. *)
Definition stored_failed_process : MongoValidationProcessRepository.document :=
  MongoValidationProcessRepository.bson_document (document_of_process failed_process).

(** A process that completed earlier, with its payload. *)
Definition completed_process : ValidationProcess :=
  {| process_id := "p1";
     uuid_str := "12345678-1234-5678-9012-123456789abc";
     email := Some "a@b.c";
     status := COMPLETED;
     created_at := utc 1;
     updated_at := Some (utc 2);
     error_message := None;
     result_data := Some [("enrollment_validated", PyBool true)] |}.

(** An enrollment repository with a single record. *)
Definition one_enrollment (uuid_str : string) (d : dict) : EnrollmentRepository :=
  {| get_by_uuid := fun u => if String.eqb u uuid_str then Some d else None |}.

(** An enrollment repository without records. *)
Definition no_enrollment : EnrollmentRepository :=
  {| get_by_uuid := fun _ => None |}.

(** An enrollment document with one student. *)
Definition sample_enrollment : dict :=
  [("uuid_str", PyStr "12345678-1234-5678-9012-123456789abc");
   ("email", PyStr "a@b.c");
   ("phone", PyStr "555-0100");
   ("students_info", PyList [PyDict [("first_name", PyStr "Jane")]]);
   ("verification", PyDict [("verified", PyBool true)])].

(** The service state around a given in-memory store. *)
Definition sys_of (st : gmap string ValidationProcess)
  : Sys (S := gmap string ValidationProcess) :=
  {| processes := st; calls := []; drawn := 0; ticks := 0 |}.

(** A rendering of the error of the process model for a refused e-mail. *)
Definition sample_str_error (v : pyval) : string :=
  "1 validation error for ValidationProcess (email, input_type=" +:+ type_name v +:+ ")".

(** A clock that counts, and a rendering of its readings. *)
Definition sample_clock (n : nat) : timestamp := utc (Z.of_nat n + 10).

Definition sample_isoformat (t : timestamp) : string :=
  if Z.eqb t.(microseconds) 11
  then "1970-01-01T00:00:00.000011+00:00"
  else "1970-01-01T00:00:00+00:00".

(** The surroundings of the start-up in the examples: the number of times
    the connection was asked for, the first [failures] of which raise. *)
Definition flaky_instance (failures : nat) : SE nat DatabaseConnection :=
  fun asked =>
    (if Nat.ltb asked failures
     then Raise (OtherException "connection settings unavailable")
     else Ok {| mongodb_uri := Some "mongodb://localhost"; db_name := Some "school" |},
     Datatypes.S asked).

(** The comparator on the ASCII versions of [strip] and [lower], over a
    collection with the single student record [record]. *)
Definition compare_with (record : dict) (extracted : dict) : CompareResult :=
  compare_student_data (fun _ => Some record) ascii_strip ascii_lower
                       "12345678-1234-5678-9012-123456789abc" extracted.

(** ** Further vocabulary: sequences of repository calls *)

(** The call is a [create] that draws the identifier [pid]. *)
Definition creates (pid : string) (c : RepoCall) : bool :=
  match c with
  | CallCreate _ _ new_id _ => String.eqb new_id pid
  | _ => false
  end.

(** No call of the sequence is a [create] that draws [pid]. *)
Definition never_creates (pid : string) (cs : list RepoCall) : bool :=
  forallb (fun c => negb (creates pid c)) cs.

(** Every process is stored under its own identifier. *)
Definition keyed (st : gmap string ValidationProcess) : Prop :=
  map_Forall (fun (k : string) (p : ValidationProcess) => process_id p = k) st.

(** The fields of a process that are fixed at creation. *)
Definition same_identity (p q : ValidationProcess) : Prop :=
  process_id p = process_id q
  /\ uuid_str p = uuid_str q
  /\ email p = email q
  /\ created_at p = created_at q.

(** The same, for the documents of the MongoDB collection. *)
Definition same_document_identity
           (d e : MongoValidationProcessRepository.document) : Prop :=
  MongoValidationProcessRepository.doc_process_id d
  = MongoValidationProcessRepository.doc_process_id e
  /\ MongoValidationProcessRepository.doc_uuid_str d
     = MongoValidationProcessRepository.doc_uuid_str e
  /\ MongoValidationProcessRepository.doc_email d
     = MongoValidationProcessRepository.doc_email e
  /\ MongoValidationProcessRepository.doc_created_at d
     = MongoValidationProcessRepository.doc_created_at e.

(** A document whose status is none of the four values. *)
Definition stray_document : MongoValidationProcessRepository.document :=
  {| MongoValidationProcessRepository.doc_process_id := "p1";
     MongoValidationProcessRepository.doc_uuid_str :=
       "12345678-1234-5678-9012-123456789abc";
     MongoValidationProcessRepository.doc_email := None;
     MongoValidationProcessRepository.doc_status := "archived";
     MongoValidationProcessRepository.doc_created_at :=
       MongoValidationProcessRepository.bson_datetime (utc 1);
     MongoValidationProcessRepository.doc_updated_at := None;
     MongoValidationProcessRepository.doc_error_message := None;
     MongoValidationProcessRepository.doc_result_data := None |}.

(** Calls on the process "p1", after it was created, and on others. *)
Definition later_calls : list RepoCall :=
  [CallUpdateStatus "p1" IN_PROGRESS None None (utc 2);
   CallCreate "87654321-4321-8765-2109-cba987654321" None "p2" (utc 3);
   CallUpdateStatus "p1" FAILED (Some "boom") None (utc 4);
   CallGetById "p2";
   CallUpdateStatus "p3" COMPLETED None None (utc 5)].

(** ** Further vocabulary: the service *)

(** The exceptions [initiate_validation] lets out for a string argument. *)
Definition is_initiation_error (s : string) (e : exn) : Prop :=
  e = InvalidUuidFormatError s
  \/ e = EnrollmentNotFoundError s
  \/ exists m : string, e = ValidationServiceError ("Failed to initiate validation: " +:+ m).

(** The event is the scheduling of a background task. *)
Definition is_create_task (ev : Event) : bool :=
  match ev with
  | CreateTask _ => true
  | _ => false
  end.

(** An enrollment document whose e-mail is a number. *)
Definition numeric_email_enrollment : dict :=
  [("uuid_str", PyStr "12345678-1234-5678-9012-123456789abc");
   ("email", PyInt 42)].

(** An enrollment document whose list of students is null. *)
Definition null_students_enrollment : dict :=
  [("uuid_str", PyStr "12345678-1234-5678-9012-123456789abc");
   ("email", PyStr "a@b.c");
   ("students_info", PyNone)].

(** An enrollment document whose verification is a plain flag. *)
Definition flag_verification_enrollment : dict :=
  [("uuid_str", PyStr "12345678-1234-5678-9012-123456789abc");
   ("students_info", PyList []);
   ("verification", PyBool true)].

(** An enrollment document with the subject only. *)
Definition bare_enrollment : dict :=
  [("uuid_str", PyStr "12345678-1234-5678-9012-123456789abc")].

(** ** [api/exceptions.py] : the attributes the handlers read *)

(** The subclasses of [ValidationAPIException]. *)
Definition is_api_exception (e : exn) : bool :=
  match e with
  | EnrollmentNotFoundError _ | InvalidUuidFormatError _
  | ValidationProcessNotFoundError _ | ValidationServiceError _ => true
  | _ => false
  end.

(** [exc.status_code]; 500 is the default of the base class. *)
Definition status_code (e : exn) : Z :=
  match e with
  | EnrollmentNotFoundError _ => 404
  | InvalidUuidFormatError _ => 400
  | ValidationProcessNotFoundError _ => 404
  | _ => 500
  end.

(** ** [api/main.py] : the two endpoints and the exception handlers *)

(** [ValidationProcessResponse] of [api/models.py]. *)
Record ValidationProcessResponse : Type := {
  response_process_id : string;
  response_uuid_str : string;
  response_email : option string;
  response_status : ValidationStatus;
  response_created_at : timestamp;
  response_message : string
}.

(** How an endpoint function ends: it returns the response model, raises
    [HTTPException], or lets a [ValidationAPIException] through. *)
Inductive EndpointOutcome : Type :=
| Respond (r : ValidationProcessResponse)
| RaiseHTTP (http_status : Z) (detail : string)
| RaiseAPI (e : exn).

(** What the client receives.  The list of errors that the framework
    writes for a request it refuses is not spelled out. *)
Inductive HttpBody : Type :=
| BodyProcess (r : ValidationProcessResponse)
| BodyJson (content : dict)
| BodyRequestErrors.

Record HttpResponse : Type := {
  http_status_code : Z;
  http_body : HttpBody
}.

(** [validation_exception_handler] *)
Definition validation_exception_handler (exc : exn) : HttpResponse :=
  {| http_status_code := status_code exc;
     http_body :=
       BodyJson [("error", PyStr (exn_str exc));
                 ("code", match error_code exc with
                          | Some c => PyStr c
                          | None => PyNone
                          end);
                 ("detail", PyNone)] |}.

(** The application around an endpoint: a returned model is sent with
    status 200, an [HTTPException] as its status and detail, and a
    [ValidationAPIException] goes through [validation_exception_handler]. *)
Definition send (o : EndpointOutcome) : HttpResponse :=
  match o with
  | Respond r => {| http_status_code := 200; http_body := BodyProcess r |}
  | RaiseHTTP sc detail =>
      {| http_status_code := sc; http_body := BodyJson [("detail", PyStr detail)] |}
  | RaiseAPI e => validation_exception_handler e
  end.

(** [process.error_message or 'Unknown error'] *)
Definition message_or_unknown (error_message : option string) : string :=
  match error_message with
  | None | Some EmptyString => "Unknown error"
  | Some m => m
  end.

(** [status_messages.get(process.status, "Unknown status")] *)
Definition status_message (process : ValidationProcess) : string :=
  match process.(status) with
  | PENDING => "Validation process is pending"
  | IN_PROGRESS => "Validation process is in progress"
  | COMPLETED => "Validation process completed successfully"
  | FAILED =>
      "Validation process failed: " +:+ message_or_unknown process.(error_message)
  end.

(** [ValidateStudentRequest] of [api/models.py] : the constraints on
    [uuid_str], namely [min_length=36], [max_length=36] and the pattern,
    which is the one of the service but matched without [IGNORECASE].
    With exactly 36 characters asked for, a [$] that also matches before
    a final newline and one that matches at the very end only accept the
    same strings. *)
Definition request_uuid_ok (uuid_str : string) : bool :=
  Nat.leb 36 (str_len uuid_str) && Nat.leb (str_len uuid_str) 36
  && Re.re_match uuid_pattern uuid_str false.

(** A request that passed the constraints. *)
Record ValidateStudentRequest : Type := {
  request_uuid_str : string;
  request_valid : request_uuid_ok request_uuid_str = true
}.

(** Building the model from the [uuid_str] of a JSON body. *)
Definition parse_request (uuid_str : string) : option ValidateStudentRequest :=
  match bool_dec (request_uuid_ok uuid_str) true with
  | left valid => Some {| request_uuid_str := uuid_str; request_valid := valid |}
  | right _ => None
  end.

Section Endpoints.

Context {S : Type} {process_repository : ValidationProcessRepository S}.
Variable enrollment_repository : EnrollmentRepository.
Variable uuid4 : nat -> string.
Variable utcnow : nat -> timestamp.
Variable str_error : pyval -> string.

(** [validate_enrollment] : [available] says whether the global
    [validation_service] is set. *)
Definition validate_enrollment (available : bool) (request : ValidateStudentRequest)
  : Sys (S := S) -> EndpointOutcome * Sys (S := S) :=
  fun w =>
    if negb available
    then (RaiseHTTP 503 "Validation service not available", w)
    else
      match initiate_validation enrollment_repository uuid4 utcnow
              str_error (PyStr request.(request_uuid_str)) w with
      | (Ok process, w') =>
          (Respond {| response_process_id := process.(process_id);
                      response_uuid_str := process.(Models.uuid_str);
                      response_email := process.(email);
                      response_status := process.(status);
                      response_created_at := process.(created_at);
                      response_message := "Validation process initiated successfully" |},
           w')
      | (Raise e, w') =>
          if is_api_exception e then (RaiseAPI e, w')
          else (RaiseHTTP 500 "Failed to initiate validation process", w')
      end.

(** [POST /api/validate] with a JSON body whose [uuid_str] is a string:
    the framework builds the request model first and answers 422 when the
    model refuses the body; only then is [validate_enrollment] called. *)
Definition post_api_validate (available : bool) (uuid_str : string)
  : Sys (S := S) -> HttpResponse * Sys (S := S) :=
  fun w =>
    match parse_request uuid_str with
    | None => ({| http_status_code := 422; http_body := BodyRequestErrors |}, w)
    | Some request =>
        let '(outcome, w') := validate_enrollment available request w in
        (send outcome, w')
    end.

(** The endpoint [get_validation_status] of [api/main.py]. *)
Definition get_validation_status_endpoint (available : bool) (process_id : string)
  : Sys (S := S) -> EndpointOutcome * Sys (S := S) :=
  fun w =>
    if negb available
    then (RaiseHTTP 503 "Validation service not available", w)
    else
      match get_validation_status process_id w with
      | (Ok None, w') =>
          (RaiseHTTP 404 ("Validation process " +:+ process_id +:+ " not found"), w')
      | (Ok (Some process), w') =>
          (Respond {| response_process_id := process.(Models.process_id);
                      response_uuid_str := process.(uuid_str);
                      response_email := process.(email);
                      response_status := process.(status);
                      response_created_at := process.(created_at);
                      response_message := status_message process |},
           w')
      | (Raise e, w') => (RaiseHTTP 500 "Failed to get validation status", w')
      end.

End Endpoints.

(** ** [api/repositories.py] : [MongoEnrollmentRepository] *)

Module MongoEnrollmentRepository.

(** The [enrollmentForm] collection: its documents in natural order, each
    a dictionary that carries an [_id]. *)
Abbreviation collection := (list dict).

(** The query [{"uuid_str": uuid_str}] on one value of the field: the
    string itself, or an array that holds it. *)
Definition field_matches (v : pyval) (uuid_str : string) : bool :=
  match v with
  | PyStr s => String.eqb s uuid_str
  | PyList xs =>
      existsb (fun x => match x with
                        | PyStr s => String.eqb s uuid_str
                        | _ => false
                        end) xs
  | _ => false
  end.

Definition document_matches (doc : dict) (uuid_str : string) : bool :=
  match dict_lookup "uuid_str" doc with
  | Some v => field_matches v uuid_str
  | None => false
  end.

(** [enrollment_collection.find_one({"uuid_str": uuid_str})] *)
Fixpoint find_one (uuid_str : string) (c : collection) : option dict :=
  match c with
  | [] => None
  | doc :: c' => if document_matches doc uuid_str then Some doc else find_one uuid_str c'
  end.

(** [del d[key]], for a key that may be missing. *)
Fixpoint dict_del (d : dict) (key : string) : dict :=
  match d with
  | [] => []
  | (k, v) :: d' =>
      if String.eqb k key then dict_del d' key else (k, v) :: dict_del d' key
  end.

(** [get_by_uuid] : [c] is what reaching the collection gives, a
    collection or an exception; any exception is logged and answered by
    [None]. *)
Definition get_by_uuid (c : result collection) (uuid_str : string) : option dict :=
  match c with
  | Raise _ => None
  | Ok enrollment_collection =>
      match find_one uuid_str enrollment_collection with
      | Some (kv :: enrollment) => Some (dict_del (kv :: enrollment) "_id")
      | _ => None
      end
  end.

(** [exists] *)
Definition exists_ (c : result collection) (uuid_str : string) : bool :=
  match get_by_uuid c uuid_str with
  | Some _ => true
  | None => false
  end.

(** [get_all_uuids] : the values of [uuid_str], document by document;
    [[]] on any exception. *)
Definition get_all_uuids (c : result collection) : list pyval :=
  match c with
  | Raise _ => []
  | Ok enrollment_collection =>
      flat_map (fun doc => match dict_lookup "uuid_str" doc with
                           | Some v => [v]
                           | None => []
                           end) enrollment_collection
  end.

End MongoEnrollmentRepository.

(** The repository as the service sees it. *)
Definition mongo_enrollment_repository
           (c : result MongoEnrollmentRepository.collection) : EnrollmentRepository :=
  {| get_by_uuid := MongoEnrollmentRepository.get_by_uuid c |}.

(** Two enrollment documents, as stored. *)
Definition sample_enrollments : MongoEnrollmentRepository.collection :=
  [[("_id", PyStr "66a0c1d2e3f4a5b6c7d8e9f0");
    ("uuid_str", PyStr "12345678-1234-5678-9012-123456789abc");
    ("email", PyStr "a@b.c")];
   [("_id", PyStr "66a0c1d2e3f4a5b6c7d8e9f1");
    ("uuid_str", PyStr "87654321-4321-8765-2109-cba987654321");
    ("phone", PyStr "555-0100")]].

(** ** Further vocabulary: values and the comparator *)

(** The two inner loops of [py_eq], on their own. *)
Fixpoint list_all2 (eq : pyval -> pyval -> bool) (xs ys : list pyval) : bool :=
  match xs, ys with
  | [], [] => true
  | x :: xs', y :: ys' => eq x y && list_all2 eq xs' ys'
  | _, _ => false
  end.

Fixpoint dict_all_in (eq : pyval -> pyval -> bool) (e d : dict) : bool :=
  match d with
  | [] => true
  | (k, v) :: d' =>
      match dict_lookup k e with
      | Some w => eq v w
      | None => false
      end && dict_all_in eq e d'
  end.

(** The keys of every dictionary inside the value are distinct, as they
    are in a Python [dict]. *)
Fixpoint unique_keys (v : pyval) : bool :=
  match v with
  | PyList xs =>
      (fix all (xs : list pyval) : bool :=
         match xs with
         | [] => true
         | x :: xs' => unique_keys x && all xs'
         end) xs
  | PyDict kvs =>
      (fix all (kvs : dict) : bool :=
         match kvs with
         | [] => true
         | (k, x) :: kvs' =>
             negb (is_some (dict_lookup k kvs')) && unique_keys x && all kvs'
         end) kvs
  | _ => true
  end.

(** A student record with values of several kinds. *)
Definition sample_student : dict :=
  [("student_id", PyStr "12345678-1234-5678-9012-123456789abc");
   ("name", PyStr "Jane Doe");
   ("birthdate", PyNone);
   ("address", PyDict [("city", PyStr "Springfield"); ("zip", PyInt 12345)]);
   ("documents", PyDict [])].

(** ** [api/database.py] : [DatabaseConnection] *)

Module Database.

(** A [MongoClient], known by the URI it was built from. *)
Record MongoClient : Type := {
  client_uri : option string
}.

(** The attributes [_instance] and [_client], and the number of pings
    sent so far. *)
Record State : Type := {
  _instance : option DatabaseConnection;
  _client : option MongoClient;
  pings : nat
}.

Section WithServer.

(** What [__init__] reads from the environment, what building a
    [MongoClient] gives, and how the server answers the successive pings. *)
Variable environment : DatabaseConnection.
Variable new_client : option string -> result MongoClient.
Variable ping : nat -> result unit.

(** [get_instance] : the instance is built on first use only. *)
Definition get_instance : SE State DatabaseConnection :=
  fun st =>
    match st.(_instance) with
    | Some instance => (Ok instance, st)
    | None =>
        (Ok environment,
         {| _instance := Some environment; _client := st.(_client);
            pings := st.(pings) |})
    end.

(** [self._client.admin.command('ping')] *)
Definition send_ping : SE State unit :=
  fun st =>
    (ping st.(pings),
     {| _instance := st.(_instance); _client := st.(_client);
        pings := Datatypes.S st.(pings) |}).

(** [connect] : the client is assigned before it is pinged; the two
    exceptions that are caught are logged and raised again. *)
Definition connect (self : DatabaseConnection) : SE State MongoClient :=
  fun st =>
    match st.(_client) with
    | Some client => (Ok client, st)
    | None =>
        match new_client self.(mongodb_uri) with
        | Raise e => (Raise e, st)
        | Ok client =>
            let st1 := {| _instance := st.(_instance); _client := Some client;
                          pings := st.(pings) |} in
            match send_ping st1 with
            | (Ok _, st2) => (Ok client, st2)
            | (Raise e, st2) => (Raise e, st2)
            end
        end
    end.

(** [close_connection] *)
Definition close_connection : SE State unit :=
  fun st =>
    match st.(_client) with
    | Some _ =>
        (Ok tt, {| _instance := st.(_instance); _client := None;
                   pings := st.(pings) |})
    | None => (Ok tt, st)
    end.

(** [is_connected] : any exception of the ping is swallowed. *)
Definition is_connected : SE State bool :=
  fun st =>
    match st.(_client) with
    | Some _ =>
        match send_ping st with
        | (Ok _, st') => (Ok true, st')
        | (Raise _, st') => (Ok false, st')
        end
    | None => (Ok false, st)
    end.

End WithServer.

End Database.

(** A server that refuses the first [n] pings. *)
Definition refusing_pings (n : nat) (k : nat) : result unit :=
  if Nat.ltb k n then Raise (OtherException "ServerSelectionTimeoutError") else Ok tt.

(** The state before anything was connected. *)
Definition fresh_database : Database.State :=
  {| Database._instance := None; Database._client := None; Database.pings := 0 |}.

Definition sample_connection : DatabaseConnection :=
  {| mongodb_uri := Some "mongodb://localhost"; db_name := Some "school" |}.

(** ** [spike/document_mongodb_tools.py] : the local certificate *)




Section LocalCertificate.

(** The directory of the module, [os.path.exists] and [os.path.abspath]. *)
Variable module_dir : string.
Variable path_exists : string -> bool.
Variable abspath : string -> string.





End LocalCertificate.


(** ** Further vocabulary: the service on the two backends *)

(** The service state over each of the two repositories. *)
Abbreviation SysC := (Sys (S := list MongoValidationProcessRepository.document)).
Abbreviation SysM := (Sys (S := gmap string ValidationProcess)).

(** A recorded call as it reads on the MongoDB repository: the process
    that [update_status] returned is the one read back. *)
Definition event_read_back (ev : Event) : Event :=
  match ev with
  | ProcessUpdateStatus process_id status error_message result_data (Ok p) =>
      ProcessUpdateStatus process_id status error_message result_data
                          (Ok (read_back p))
  | _ => ev
  end.

(** The service state over the MongoDB repository mirrors the one over
    the in-memory repository: mirrored stores, the same calls so far up to
    the processes read back, the same numbers of identifiers drawn and of
    clock readings. *)
Definition sys_mirrors
           (wc : Sys (S := list MongoValidationProcessRepository.document))
           (wm : Sys (S := gmap string ValidationProcess)) : Prop :=
  mirrors (processes wc) (processes wm)
  /\ calls wc = map event_read_back (calls wm)
  /\ drawn wc = drawn wm
  /\ ticks wc = ticks wm.

(** The process stored under [pid], if any, has neither message nor
    payload, as after [create]. *)
Definition clean (st : gmap string ValidationProcess) (pid : string) : Prop :=
  match st !! pid with
  | Some p => error_message p = None /\ result_data p = None
  | None => True
  end.

(** The service state around a given collection. *)
Definition sys_of_collection (c : list MongoValidationProcessRepository.document)
  : Sys (S := list MongoValidationProcessRepository.document) :=
  {| processes := c; calls := []; drawn := 0; ticks := 0 |}.

Section StepInParts.

Context {S : Type} {process_repository : ValidationProcessRepository S}.
Variable utcnow : nat -> timestamp.

(** An [update_status] whose returned process is not used. *)
Definition finish_with (pid : string) (s : ValidationStatus)
           (err : option string) (res : option dict)
  : Sys (S := S) -> result unit * Sys (S := S) :=
  fun w =>
    match process_update_status utcnow pid s err res w with
    | (Ok _, w') => (Ok tt, w')
    | (Raise e, w') => (Raise e, w')
    end.

(** The [except] clause of the background step, applied to how its body
    ended. *)
Definition handled (pid : string) (r : result unit * Sys (S := S))
  : result unit * Sys (S := S) :=
  match r with
  | (Ok a, w') => (Ok a, w')
  | (Raise e, w') => finish_with pid FAILED (Some (exn_str e)) None w'
  end.

(** The state after a call was recorded, and after the clock was read. *)
Definition recorded (ev : Event) (w : Sys (S := S)) : Sys (S := S) :=
  {| processes := processes w; calls := calls w ++ [ev];
     drawn := drawn w; ticks := ticks w |}.

Definition ticked (w : Sys (S := S)) : Sys (S := S) :=
  {| processes := processes w; calls := calls w;
     drawn := drawn w; ticks := Datatypes.S (ticks w) |}.

End StepInParts.

(** * Properties *)

(** ** The identifier predicate *)

(** *** Tests of [tests/test_uuid_validation.py] *)

Example validate_lower :
  _validate_uuid_format (PyStr "12345678-1234-5678-9012-123456789abc") = Ok true.
Proof. reflexivity. Qed.

Example validate_upper :
  _validate_uuid_format (PyStr "12345678-1234-5678-9012-123456789ABC") = Ok true.
Proof. reflexivity. Qed.

Example validate_extra :
  _validate_uuid_format (PyStr "12345678-1234-5678-9012-123456789abc-extra") = Ok false.
Proof. reflexivity. Qed.

Example validate_underscores :
  _validate_uuid_format (PyStr "12345678_1234_5678_9012_123456789abc") = Ok false.
Proof. reflexivity. Qed.

Example validate_xyz :
  _validate_uuid_format (PyStr "12345678-1234-5678-9012-123456789xyz") = Ok false.
Proof. reflexivity. Qed.

Example validate_empty : _validate_uuid_format (PyStr "") = Ok false.
Proof. reflexivity. Qed.

(** *** What the pattern accepts *)

Lemma in_set_hex (c : ascii) : Re.in_set true hex_set c = is_hex_digit c.
Proof. destruct c as [[] [] [] [] [] [] [] []]; reflexivity. Qed.

Lemma take_set_hex (n : nat) (s s' : string) :
  Re.take_set true hex_set n s = Some s' <->
  exists g, s = g +:+ s' /\ hex_group n g.
Proof.
  revert s; induction n as [|n IH]; intros s; simpl.
  - split.
    + intros [= ->]. exists EmptyString. repeat split.
    + intros (g & -> & Hlen & _). destruct g; [reflexivity | discriminate].
  - destruct s as [|c s].
    { split; [discriminate|]. intros (g & Hs & Hlen & _).
      destruct g; simpl in *; discriminate. }
    rewrite in_set_hex. destruct (is_hex_digit c) eqn:Hc.
    + rewrite IH. split.
      * intros (g & -> & Hlen & Hall). exists (String c g).
        repeat split; simpl; [congruence | now rewrite Hc].
      * intros (g & Hs & Hlen & Hall). destruct g as [|d g]; [discriminate|].
        simpl in Hs, Hlen, Hall. injection Hs as -> ->.
        apply andb_prop in Hall as [_ Hall]. exists g. repeat split; congruence.
    + split; [discriminate|]. intros (g & Hs & Hlen & Hall).
      destruct g as [|d g]; [discriminate|]. simpl in Hs, Hall.
      injection Hs as -> ->. rewrite Hc in Hall. discriminate.
Qed.

Lemma set_rep_hex (n : nat) (s : string) (k : string -> bool) :
  match Re.take_set true hex_set n s with
  | Some s' => k s'
  | None => false
  end = true <-> exists g s', s = g +:+ s' /\ hex_group n g /\ k s' = true.
Proof.
  destruct (Re.take_set true hex_set n s) as [s1|] eqn:E.
  - apply take_set_hex in E as (g & -> & G). split.
    + intros Hk. now exists g, s1.
    + intros (g' & s' & Hs & G' & Hk).
      assert (E : Re.take_set true hex_set n (g +:+ s1) = Some s')
        by (rewrite Hs; apply take_set_hex; now exists g').
      assert (E' : Re.take_set true hex_set n (g +:+ s1) = Some s1)
        by (apply take_set_hex; now exists g).
      congruence.
  - split; [discriminate|]. intros (g & s' & -> & G & _).
    assert (E' : Re.take_set true hex_set n (g +:+ s') = Some s')
      by (apply take_set_hex; now exists g).
    congruence.
Qed.

Lemma match_here_set (ic : bool) r n p pos s :
  Re.match_here ic (Re.SetRep r n :: p) pos s =
  match Re.take_set ic r n s with
  | Some s' => Re.match_here ic p (pos + n)%nat s'
  | None => false
  end.
Proof. reflexivity. Qed.

Lemma match_here_lit (ic : bool) c p pos s :
  Re.match_here ic (Re.Lit c :: p) pos s =
  match s with
  | String d s' => Re.lit_eq ic c d && Re.match_here ic p (S pos) s'
  | EmptyString => false
  end.
Proof. reflexivity. Qed.

Lemma match_here_eol (ic : bool) pos s :
  Re.match_here ic [Re.Eol] pos s = Re.at_eol s.
Proof. cbn [Re.match_here]. apply andb_true_r. Qed.

Lemma match_here_bol (ic : bool) p s :
  Re.match_here ic (Re.Bol :: p) 0 s = Re.match_here ic p 0 s.
Proof. reflexivity. Qed.

Lemma lit_hyphen (s : string) (k : string -> bool) :
  match s with
  | String d s' => Re.lit_eq true "-" d && k s'
  | EmptyString => false
  end = true <-> exists s', s = "-" +:+ s' /\ k s' = true.
Proof.
  destruct s as [|d s'].
  - split; [discriminate | intros (? & [=] & _)].
  - split.
    + intros H. apply andb_prop in H as [Hd Hk]. exists s'. split; [|exact Hk].
      destruct d as [[] [] [] [] [] [] [] []]; try discriminate Hd. reflexivity.
    + intros (t & [= -> ->] & Hk). cbn. exact Hk.
Qed.

Lemma at_eol_spec (s : string) :
  Re.at_eol s = true <-> s = "" \/ s = newline.
Proof.
  destruct s as [|c [|d s]]; simpl.
  - split; [now left | reflexivity].
  - split.
    + intros H. right. apply Ascii.eqb_eq in H. now subst.
    + intros [|[= ->]]; [discriminate | reflexivity].
  - split; [discriminate | intros [|]; discriminate].
Qed.

Lemma append_nil_l (b : string) : "" +:+ b = b.
Proof. reflexivity. Qed.

Lemma append_cons (x : ascii) (a b : string) : String x a +:+ b = String x (a +:+ b).
Proof. reflexivity. Qed.

Lemma append_assoc (a b c : string) : (a +:+ b) +:+ c = a +:+ (b +:+ c).
Proof.
  induction a as [|x a IH]; [reflexivity|].
  now rewrite !append_cons, IH.
Qed.

Lemma append_empty_r (a : string) : a +:+ "" = a.
Proof.
  induction a as [|x a IH]; [reflexivity|].
  now rewrite append_cons, IH.
Qed.

(** The predicate answers [True] on the canonical identifiers, and also on
    a canonical identifier followed by one line feed. *)
Lemma validate_uuid_format_accepts (s : string) :
  _validate_uuid_format (PyStr s) = Ok true <->
  canonical_identifier s \/ exists u, canonical_identifier u /\ s = u +:+ newline.
Proof.
  assert (Hm : _validate_uuid_format (PyStr s) = Ok true <->
               Re.match_here true uuid_pattern 0 s = true).
  { unfold _validate_uuid_format, Re.re_match. split; congruence. }
  rewrite Hm. clear Hm. unfold uuid_pattern.
  split.
  - intros H. rewrite match_here_bol, match_here_set in H.
    apply set_rep_hex in H as (g1 & s1 & -> & G1 & H).
    rewrite match_here_lit in H. apply lit_hyphen in H as (s2 & -> & H).
    rewrite match_here_set in H. apply set_rep_hex in H as (g2 & s3 & -> & G2 & H).
    rewrite match_here_lit in H. apply lit_hyphen in H as (s4 & -> & H).
    rewrite match_here_set in H. apply set_rep_hex in H as (g3 & s5 & -> & G3 & H).
    rewrite match_here_lit in H. apply lit_hyphen in H as (s6 & -> & H).
    rewrite match_here_set in H. apply set_rep_hex in H as (g4 & s7 & -> & G4 & H).
    rewrite match_here_lit in H. apply lit_hyphen in H as (s8 & -> & H).
    rewrite match_here_set in H. apply set_rep_hex in H as (g5 & s9 & -> & G5 & H).
    rewrite match_here_eol in H. apply at_eol_spec in H as [-> | ->].
    + left. exists g1, g2, g3, g4, g5. rewrite append_empty_r. tauto.
    + right. exists (g1 +:+ "-" +:+ g2 +:+ "-" +:+ g3 +:+ "-" +:+ g4 +:+ "-" +:+ g5).
      split; [exists g1, g2, g3, g4, g5; tauto|].
      now rewrite !append_assoc.
  - intros H.
    assert (exists g1 g2 g3 g4 g5 t,
               s = g1 +:+ "-" +:+ g2 +:+ "-" +:+ g3 +:+ "-" +:+ g4 +:+ "-" +:+ g5 +:+ t
               /\ hex_group 8 g1 /\ hex_group 4 g2 /\ hex_group 4 g3
               /\ hex_group 4 g4 /\ hex_group 12 g5 /\ Re.at_eol t = true)
      as (g1 & g2 & g3 & g4 & g5 & t & -> & G1 & G2 & G3 & G4 & G5 & Ht).
    { destruct H as [(g1 & g2 & g3 & g4 & g5 & -> & G)
                    | (u & (g1 & g2 & g3 & g4 & g5 & -> & G) & ->)].
      - destruct G as (G1 & G2 & G3 & G4 & G5).
        exists g1, g2, g3, g4, g5, "". rewrite append_empty_r.
        split; [reflexivity|]. do 5 (split; [assumption|]). reflexivity.
      - destruct G as (G1 & G2 & G3 & G4 & G5).
        exists g1, g2, g3, g4, g5, newline. rewrite !append_assoc.
        split; [reflexivity|]. do 5 (split; [assumption|]). reflexivity. }
    rewrite match_here_bol.
    assert (T : forall n g r, hex_group n g ->
                Re.take_set true hex_set n (g +:+ r) = Some r).
    { intros n g r G. apply take_set_hex. now exists g. }
    assert (L : forall p pos r,
                Re.match_here true (Re.Lit "-" :: p) pos ("-" +:+ r)
                = Re.match_here true p (S pos) r) by reflexivity.
    rewrite match_here_set, (T _ _ _ G1), L.
    rewrite match_here_set, (T _ _ _ G2), L.
    rewrite match_here_set, (T _ _ _ G3), L.
    rewrite match_here_set, (T _ _ _ G4), L.
    rewrite match_here_set, (T _ _ _ G5), match_here_eol. exact Ht.
Qed.

(** Anything that is not a string is refused by a [TypeError], not by the
    answer [False]. *)
Lemma validate_uuid_format_none :
  _validate_uuid_format PyNone
  = Raise (TypeError "expected string or bytes-like object, got 'NoneType'").
Proof. reflexivity. Qed.

Lemma validate_uuid_format_str_total (s : string) :
  exists b, _validate_uuid_format (PyStr s) = Ok b.
Proof. eexists. reflexivity. Qed.

(** C1 (the code departs from the claim): a canonical identifier followed
    by a line feed has 37 characters, yet the predicate accepts it, since
    [$] also matches just before a final newline. *)
Theorem validate_uuid_format_trailing_newline :
  _validate_uuid_format
    (PyStr ("12345678-1234-5678-9012-123456789abc" +:+ newline)) = Ok true
  /\ String.length ("12345678-1234-5678-9012-123456789abc" +:+ newline) = 37%nat
  /\ canonical_identifier "12345678-1234-5678-9012-123456789abc".
Proof.
  split; [reflexivity|]. split; [reflexivity|].
  exists "12345678", "1234", "5678", "9012", "123456789abc".
  repeat split; reflexivity.
Qed.

(** ** The process repositories *)

Lemma status_of_value_value (s : ValidationStatus) :
  status_of_value (status_value s) = Some s.
Proof. destruct s; reflexivity. Qed.

Lemma process_of_document_of_process (p : ValidationProcess) :
  MongoValidationProcessRepository.process_of_document (document_of_process p) = Some p.
Proof.
  unfold MongoValidationProcessRepository.process_of_document, document_of_process.
  cbn. rewrite status_of_value_value. now destruct p.
Qed.

Section MongoCollection.

Import MongoValidationProcessRepository.

Lemma find_one_id (pid : string) (c : collection) (d : document) :
  find_one pid c = Some d -> doc_process_id d = pid.
Proof.
  induction c as [|x c IH]; cbn; [discriminate|].
  destruct (String.eqb (doc_process_id x) pid) eqn:E; [|exact IH].
  intros [= <-]. now apply String.eqb_eq.
Qed.

Lemma find_one_insert_one (pid : string) (c : collection) (d : document) :
  find_one pid (insert_one d c) =
  match find_one pid c with
  | Some x => Some x
  | None => if String.eqb (doc_process_id d) pid then Some (bson_document d) else None
  end.
Proof.
  unfold insert_one. induction c as [|x c IH]; cbn; [reflexivity|].
  destruct (String.eqb (doc_process_id x) pid); [reflexivity | exact IH].
Qed.

Lemma bson_datetime_idem (t : timestamp) :
  bson_datetime (bson_datetime t) = bson_datetime t.
Proof.
  unfold bson_datetime. cbn. f_equal. rewrite Z.div_mul by lia. reflexivity.
Qed.

Lemma find_one_update_one (pid pid' : string) (f : document -> document)
      (c : collection) :
  (forall d, doc_process_id (f d) = doc_process_id d) ->
  find_one pid' (update_one pid f c) =
  if String.eqb pid pid' then f <$> find_one pid' c else find_one pid' c.
Proof.
  intros Hf. induction c as [|x c IH]; cbn.
  - now destruct (String.eqb pid pid').
  - destruct (String.eqb (doc_process_id x) pid) eqn:E; cbn.
    + apply String.eqb_eq in E. subst pid. rewrite Hf.
      destruct (String.eqb (doc_process_id x) pid') eqn:E'; reflexivity.
    + destruct (String.eqb (doc_process_id x) pid') eqn:E'; [|exact IH].
      destruct (String.eqb pid pid') eqn:E''; [|reflexivity].
      apply String.eqb_eq in E', E''. subst.
      rewrite String.eqb_refl in E. discriminate.
Qed.

Lemma update_data_id status now err res (d : document) :
  doc_process_id (update_data status now err res d) = doc_process_id d.
Proof. reflexivity. Qed.

End MongoCollection.

Lemma read_back_idem (p : ValidationProcess) :
  read_back (read_back p) = read_back p.
Proof.
  unfold read_back. cbn.
  rewrite bson_datetime_idem.
  destruct (updated_at p) as [t|]; cbn;
    [rewrite bson_datetime_idem|]; reflexivity.
Qed.

Lemma mirrors_init :
  mirrors MongoValidationProcessRepository.init InMemoryValidationProcessRepository.init.
Proof.
  intros pid. unfold InMemoryValidationProcessRepository.init.
  rewrite lookup_empty. reflexivity.
Qed.

(** Reading through the MongoDB backend gives, on mirrored states, what
    the in-memory backend gives, read back. *)
Lemma mirrors_get_by_id c (st : gmap string ValidationProcess) (pid : string) :
  mirrors c st ->
  MongoValidationProcessRepository.get_by_id c pid
  = read_back <$> InMemoryValidationProcessRepository.get_by_id st pid.
Proof.
  intros Hm. unfold MongoValidationProcessRepository.get_by_id,
    InMemoryValidationProcessRepository.get_by_id.
  rewrite (Hm pid). destruct (st !! pid) as [p|]; cbn; [|reflexivity].
  apply process_of_document_of_process.
Qed.

Lemma mirrors_create c (st : gmap string ValidationProcess) u e id now :
  mirrors c st -> st !! id = None ->
  fst (MongoValidationProcessRepository.create c u e id now)
  = fst (InMemoryValidationProcessRepository.create st u e id now)
  /\ mirrors (snd (MongoValidationProcessRepository.create c u e id now))
             (snd (InMemoryValidationProcessRepository.create st u e id now)).
Proof.
  intros Hm Hfresh. split; [reflexivity|]. cbn. intros pid.
  rewrite find_one_insert_one, (Hm pid). cbn.
  destruct (String.eqb id pid) eqn:E.
  - apply String.eqb_eq in E. subst pid.
    rewrite Hfresh, lookup_insert_eq. reflexivity.
  - assert (id <> pid) by (intros ->; rewrite String.eqb_refl in E; discriminate).
    rewrite lookup_insert_ne by assumption.
    now destruct (st !! pid).
Qed.

Lemma mirrors_update_status c (st : gmap string ValidationProcess)
      pid status err res now :
  mirrors c st ->
  alike st (CallUpdateStatus pid status err res now) = true ->
  fst (MongoValidationProcessRepository.update_status c pid status err res now)
  = match fst (InMemoryValidationProcessRepository.update_status
                 st pid status err res now) with
    | Ok p => Ok (read_back p)
    | Raise e => Raise e
    end
  /\ mirrors (snd (MongoValidationProcessRepository.update_status c pid status err res now))
             (snd (InMemoryValidationProcessRepository.update_status st pid status err res now)).
Proof.
  intros Hm Ha.
  unfold MongoValidationProcessRepository.update_status,
    InMemoryValidationProcessRepository.update_status,
    InMemoryValidationProcessRepository.get_by_id.
  cbn in Ha. pose proof (Hm pid) as Hpid.
  destruct (st !! pid) as [p|] eqn:Hp; cbn in Hpid; rewrite Hpid; [|now split].
  set (upd := MongoValidationProcessRepository.update_data status now err res).
  set (p' := {| process_id := process_id p; uuid_str := uuid_str p;
                email := email p; status := status; created_at := created_at p;
                updated_at := Some now; error_message := err;
                result_data := res |}).
  assert (Hdoc : upd (document_of_process (read_back p))
                 = document_of_process (read_back p')).
  { apply andb_prop in Ha as [He Hr]. unfold upd, p', document_of_process, read_back,
      MongoValidationProcessRepository.update_data. cbn.
    destruct err, res, (error_message p), (result_data p);
      try discriminate He; try discriminate Hr; reflexivity. }
  assert (Hfind : forall q,
             MongoValidationProcessRepository.find_one q
               (MongoValidationProcessRepository.update_one pid upd c)
             = (fun x => document_of_process (read_back x)) <$> (<[pid := p']> st !! q)).
  { intros q. rewrite find_one_update_one by (intros; apply update_data_id).
    destruct (String.eqb pid q) eqn:E.
    - apply String.eqb_eq in E. subst q.
      rewrite Hpid, lookup_insert_eq. cbn. now rewrite Hdoc.
    - assert (pid <> q) by (intros ->; rewrite String.eqb_refl in E; discriminate).
      rewrite lookup_insert_ne by assumption. apply Hm. }
  rewrite (Hfind pid), lookup_insert_eq. cbn.
  rewrite process_of_document_of_process. cbn. split; [reflexivity | exact Hfind].
Qed.

Lemma mirrors_run_call c (st : gmap string ValidationProcess) (call : RepoCall) :
  mirrors c st -> alike st call = true ->
  fst (run_call c call) = answer_read_back call (fst (run_call st call))
  /\ mirrors (snd (run_call c call)) (snd (run_call st call)).
Proof.
  intros Hm Ha. destruct call as [u e id now | pid | pid status err res now].
  - cbn in Ha. destruct (st !! id) eqn:Hid; [discriminate|].
    destruct (mirrors_create c st u e id now Hm Hid) as [Hr Hs].
    cbn in *. split; [reflexivity | exact Hs].
  - cbn. split; [|exact Hm]. f_equal. now apply mirrors_get_by_id.
  - destruct (mirrors_update_status c st pid status err res now Hm Ha) as [Hr Hs].
    unfold run_call. cbn [update_status mongo_repository in_memory_repository].
    destruct (MongoValidationProcessRepository.update_status c pid status err res now),
      (InMemoryValidationProcessRepository.update_status st pid status err res now).
    cbn in *. subst. split; [|exact Hs]. now destruct r0.
Qed.

Lemma run_calls_cons {S : Type} `{ValidationProcessRepository S}
      (s : S) (c : RepoCall) (cs : list RepoCall) :
  run_calls s (c :: cs)
  = (fst (run_call s c) :: fst (run_calls (snd (run_call s c)) cs),
     snd (run_calls (snd (run_call s c)) cs)).
Proof.
  cbn [run_calls]. destruct (run_call s c) as [a s']. cbn.
  now destruct (run_calls s' cs).
Qed.

(** C9 (the code departs from the claim): on [omitting_calls], in which a
    process is created, fails with a message and is then updated without
    one, the in-memory backend clears the stored message while the MongoDB
    backend keeps it: the answers differ, and so do the stored snapshots. *)
Theorem backends_differ_on_omitted_message :
  all_alike InMemoryValidationProcessRepository.init omitting_calls = false
  /\ fst (run_calls MongoValidationProcessRepository.init omitting_calls)
     <> fst (run_calls InMemoryValidationProcessRepository.init omitting_calls)
  /\ (error_message <$> MongoValidationProcessRepository.get_by_id
        (snd (run_calls MongoValidationProcessRepository.init omitting_calls)) "p1")
     = Some (Some "boom")
  /\ (error_message <$> InMemoryValidationProcessRepository.get_by_id
        (snd (run_calls InMemoryValidationProcessRepository.init omitting_calls)) "p1")
     = Some None.
Proof.
  split; [vm_compute; reflexivity|].
  split; [vm_compute; intros H; discriminate H|].
  split; vm_compute; reflexivity.
Qed.

(** What the MongoDB backend reads back also differs in the datetimes: the
    creation time comes back cut to the millisecond and without zone. *)
Lemma backends_differ_on_read_back :
  created_at <$> MongoValidationProcessRepository.get_by_id
    (snd (run_calls MongoValidationProcessRepository.init orchestrated_calls)) "p1"
  = Some {| microseconds := 0; tz_aware := false |}
  /\ created_at <$> InMemoryValidationProcessRepository.get_by_id
       (snd (run_calls InMemoryValidationProcessRepository.init orchestrated_calls)) "p1"
     = Some (utc 1).
Proof. split; vm_compute; reflexivity. Qed.

(** Apart from these two points the backends agree.  Started from mirrored
    states, on every sequence of calls in which each [create] draws a fresh
    identifier and each [update_status] omits the message (the payload)
    only where none is stored, the MongoDB backend answers what the
    in-memory backend answers, read back, and the states stay mirrored. *)
Lemma backends_agree_up_to_read_back
      (c : list MongoValidationProcessRepository.document)
      (st : gmap string ValidationProcess) (cs : list RepoCall) :
  mirrors c st ->
  all_alike st cs = true ->
  fst (run_calls c cs) = answers_read_back cs (fst (run_calls st cs))
  /\ mirrors (snd (run_calls c cs)) (snd (run_calls st cs))
  /\ forall pid : string,
      MongoValidationProcessRepository.get_by_id (snd (run_calls c cs)) pid
      = read_back <$> InMemoryValidationProcessRepository.get_by_id
                        (snd (run_calls st cs)) pid.
Proof.
  intros Hm Ha.
  assert (H : fst (run_calls c cs) = answers_read_back cs (fst (run_calls st cs))
              /\ mirrors (snd (run_calls c cs)) (snd (run_calls st cs))).
  { revert c st Hm Ha. induction cs as [|call cs IH]; intros c st Hm Ha.
    - split; [reflexivity | exact Hm].
    - cbn [all_alike] in Ha. apply andb_prop in Ha as [Hcall Hrest].
      destruct (mirrors_run_call c st call Hm Hcall) as [Hans Hm'].
      destruct (IH _ _ Hm' Hrest) as [Hanss Hm''].
      rewrite !run_calls_cons. cbn [fst snd answers_read_back].
      split; [congruence | exact Hm'']. }
  destruct H as [Hans Hfin]. split; [exact Hans|]. split; [exact Hfin|].
  intros pid. now apply mirrors_get_by_id.
Qed.

(** C10: [update_status] of the in-memory repository keeps the identity
    fields and the creation time of the stored snapshot, and replaces the
    message and the payload by the arguments of the call, [None] included;
    the snapshot returned is the one stored. *)
Theorem in_memory_update_status_frame
        (st : gmap string ValidationProcess) (pid : string) (p : ValidationProcess)
        (new_status : ValidationStatus) (err : option string) (res : option dict)
        (now : timestamp) :
  st !! pid = Some p ->
  exists p' : ValidationProcess,
    InMemoryValidationProcessRepository.update_status st pid new_status err res now
    = (Ok p', <[pid := p']> st)
    /\ InMemoryValidationProcessRepository.get_by_id (<[pid := p']> st) pid = Some p'
    /\ process_id p' = process_id p
    /\ uuid_str p' = uuid_str p
    /\ email p' = email p
    /\ created_at p' = created_at p
    /\ status p' = new_status
    /\ updated_at p' = Some now
    /\ error_message p' = err
    /\ result_data p' = res.
Proof.
  intros Hp.
  unfold InMemoryValidationProcessRepository.update_status,
    InMemoryValidationProcessRepository.get_by_id.
  rewrite Hp. eexists. split; [reflexivity|].
  split; [apply lookup_insert_eq|]. cbn. repeat split.
Qed.

Lemma in_memory_update_status_frame_witness :
  exists p' : ValidationProcess,
    InMemoryValidationProcessRepository.update_status
      {["p1" := failed_process]} "p1" COMPLETED None
      (Some [("enrollment_validated", PyBool true)]) (utc 3)
    = (Ok p', <["p1" := p']> {["p1" := failed_process]})
    /\ InMemoryValidationProcessRepository.get_by_id
         (<["p1" := p']> {["p1" := failed_process]}) "p1" = Some p'
    /\ process_id p' = process_id failed_process
    /\ uuid_str p' = uuid_str failed_process
    /\ email p' = email failed_process
    /\ created_at p' = created_at failed_process
    /\ status p' = COMPLETED
    /\ updated_at p' = Some (utc 3)
    /\ error_message p' = None
    /\ result_data p' = Some [("enrollment_validated", PyBool true)].
Proof.
  apply (in_memory_update_status_frame {["p1" := failed_process]} "p1" failed_process).
  vm_compute. reflexivity.
Defined.

(** An earlier message does not survive an update that leaves it out. *)
Lemma in_memory_update_status_forgets
      (st : gmap string ValidationProcess) (pid : string) (p : ValidationProcess)
      (s1 s2 : ValidationStatus) (m : string) (res : option dict) (t1 t2 : timestamp) :
  st !! pid = Some p ->
  let st1 := snd (InMemoryValidationProcessRepository.update_status
                    st pid s1 (Some m) None t1) in
  let st2 := snd (InMemoryValidationProcessRepository.update_status
                    st1 pid s2 None res t2) in
  error_message <$> (st1 !! pid) = Some (Some m)
  /\ error_message <$> (st2 !! pid) = Some None.
Proof.
  intros Hp.
  unfold InMemoryValidationProcessRepository.update_status,
    InMemoryValidationProcessRepository.get_by_id.
  rewrite Hp. cbn. rewrite lookup_insert_eq. cbn. rewrite !lookup_insert_eq.
  split; reflexivity.
Qed.

(** C3, counterexample: the repository takes a Completed process back to
    Pending; the transition is not one of the forward ones. *)
Lemma update_status_leaves_terminal_state :
  ~ (forall (st : gmap string ValidationProcess) (pid : string)
            (p p' : ValidationProcess) (new_status : ValidationStatus)
            (err : option string) (res : option dict) (now : timestamp),
        st !! pid = Some p ->
        fst (InMemoryValidationProcessRepository.update_status
               st pid new_status err res now) = Ok p' ->
        forward_transition (status p) (status p') = true).
Proof.
  intros H.
  specialize (H {["p1" := completed_process]} "p1" completed_process
                {| process_id := "p1";
                   uuid_str := "12345678-1234-5678-9012-123456789abc";
                   email := Some "a@b.c"; status := PENDING; created_at := utc 1;
                   updated_at := Some (utc 3); error_message := None;
                   result_data := None |}
                PENDING None None (utc 3)).
  assert (forward_transition COMPLETED PENDING = true) as Hbad.
  { apply H; vm_compute; reflexivity. }
  discriminate Hbad.
Qed.

(** C3, amended: neither backend checks the transition.  On a stored
    identifier [update_status] applies whatever status is asked for,
    whatever the current one, and persists the snapshot it returns; on an
    unknown identifier it raises [ValidationProcessNotFoundError] and leaves
    the store as it was. *)
Theorem update_status_applies_any_status
        (pid : string) (new_status : ValidationStatus)
        (err : option string) (res : option dict) (now : timestamp) :
  (forall st : gmap string ValidationProcess,
      match InMemoryValidationProcessRepository.get_by_id st pid with
      | Some p =>
          exists (p' : ValidationProcess) (st' : gmap string ValidationProcess),
            InMemoryValidationProcessRepository.update_status
              st pid new_status err res now = (Ok p', st')
            /\ status p' = new_status
            /\ InMemoryValidationProcessRepository.get_by_id st' pid = Some p'
      | None =>
          InMemoryValidationProcessRepository.update_status
            st pid new_status err res now
          = (Raise (ValidationProcessNotFoundError pid), st)
      end)
  /\ (forall c : list MongoValidationProcessRepository.document,
         match MongoValidationProcessRepository.find_one pid c with
         | Some d =>
             exists (p' : ValidationProcess)
                    (c' : list MongoValidationProcessRepository.document),
               MongoValidationProcessRepository.update_status
                 c pid new_status err res now = (Ok p', c')
               /\ status p' = new_status
               /\ MongoValidationProcessRepository.get_by_id c' pid = Some p'
         | None =>
             MongoValidationProcessRepository.update_status
               c pid new_status err res now
             = (Raise (ValidationProcessNotFoundError pid), c)
         end).
Proof.
  split.
  - intros st.
    unfold InMemoryValidationProcessRepository.update_status.
    destruct (InMemoryValidationProcessRepository.get_by_id st pid) as [p|] eqn:Hp;
      [|reflexivity].
    eexists _, _. split; [reflexivity|]. split; [reflexivity|].
    apply lookup_insert_eq.
  - intros c.
    unfold MongoValidationProcessRepository.update_status,
      MongoValidationProcessRepository.get_by_id.
    destruct (MongoValidationProcessRepository.find_one pid c) as [d|] eqn:Hd;
      [|reflexivity].
    rewrite find_one_update_one by (intros; apply update_data_id).
    rewrite String.eqb_refl, Hd. cbn.
    unfold MongoValidationProcessRepository.process_of_document. cbn.
    rewrite status_of_value_value.
    eexists _, _. split; [reflexivity|]. split; [reflexivity|].
    rewrite find_one_update_one by (intros; apply update_data_id).
    rewrite String.eqb_refl, Hd. cbn. now rewrite status_of_value_value.
Qed.

(** ** The background step on the in-memory repository *)

Section InMemoryStep.

Variable enrollment_repository : EnrollmentRepository.
Variable utcnow : nat -> timestamp.
Variable isoformat : timestamp -> string.

Abbreviation step :=
  (_perform_validation (S := gmap string ValidationProcess)
                       enrollment_repository utcnow isoformat).

Lemma app_one_two {A : Type} (l : list A) (a b : A) :
  (l ++ [a]) ++ [b] = l ++ [a; b].
Proof. now rewrite <- app_assoc. Qed.

(** An identifier that is not stored: the first update raises, the handler
    tries to record the failure, and its own update raises in turn. *)
Lemma step_unknown (w : Sys (S := gmap string ValidationProcess)) (pid : string) :
  processes w !! pid = None ->
  exists evs : list Event,
    fst (step pid w) = Raise (ValidationProcessNotFoundError pid)
    /\ processes (snd (step pid w)) = processes w
    /\ calls (snd (step pid w)) = calls w ++ evs
    /\ transitions evs = [].
Proof.
  intros Hp.
  unfold _perform_validation, try_except, process_update_status, datetime_now.
  unfold mbind, se_bind, mret, se_ret. cbn.
  unfold InMemoryValidationProcessRepository.update_status,
    InMemoryValidationProcessRepository.get_by_id.
  rewrite Hp. cbn. rewrite Hp. cbn.
  eexists. split; [reflexivity|]. split; [reflexivity|].
  split; [apply app_one_two | reflexivity].
Qed.

(** A stored identifier: the step returns normally after two transitions,
    the first to IN_PROGRESS, the second to FAILED or COMPLETED according
    to how the body ends. *)
Lemma step_known (w : Sys (S := gmap string ValidationProcess))
      (pid : string) (p : ValidationProcess) :
  processes w !! pid = Some p ->
  exists (t1 t2 : timestamp) (e : StepEnd) (evs : list Event),
    let p1 := updated p IN_PROGRESS t1 None None in
    let p2 := final_snapshot p1 t2 e in
    step pid w = (Ok tt, snd (step pid w))
    /\ processes (snd (step pid w)) = <[pid := p2]> (<[pid := p1]> (processes w))
    /\ calls (snd (step pid w)) = calls w ++ evs
    /\ transitions evs = [p1; p2]
    /\ match e with
       | EndMissingRecord =>
           truthy (enrollment_repository.(get_by_uuid) p.(uuid_str)) = None
       | EndException e =>
           exists d, truthy (enrollment_repository.(get_by_uuid) p.(uuid_str)) = Some d
             /\ (py_len (dict_get_default d "students_info" (PyList [])) = Raise e
                 \/ (exists n, py_len (dict_get_default d "students_info" (PyList [])) = Ok n)
                    /\ py_get (dict_get_default d "verification" (PyDict []))
                              "verified" (PyBool false) = Raise e)
       | EndPayload payload =>
           exists d n v t,
             truthy (enrollment_repository.(get_by_uuid) p.(uuid_str)) = Some d
             /\ py_len (dict_get_default d "students_info" (PyList [])) = Ok n
             /\ py_get (dict_get_default d "verification" (PyDict []))
                       "verified" (PyBool false) = Ok v
             /\ payload = make_result_data isoformat p1 d n v t
       end.
Proof.
  intros Hp.
  unfold _perform_validation, try_except, process_update_status, process_get_by_id,
    enrollment_get_by_uuid, record_call, on_repository, datetime_now, lift.
  unfold mbind, se_bind, mret, se_ret. cbn.
  unfold InMemoryValidationProcessRepository.update_status,
    InMemoryValidationProcessRepository.get_by_id.
  rewrite Hp. cbn. rewrite lookup_insert_eq. cbn.
  destruct (truthy (get_by_uuid enrollment_repository (uuid_str p))) as [d|] eqn:Hd.
  - destruct (py_len (dict_get_default d "students_info" (PyList []))) as [n|e] eqn:Hn.
    + destruct (py_get (dict_get_default d "verification" (PyDict []))
                       "verified" (PyBool false)) as [v|e] eqn:Hv.
      * cbn. rewrite lookup_insert_eq. cbn.
        eexists _, _, (EndPayload _), _. cbn.
        split; [reflexivity|]. split; [reflexivity|].
        split; [rewrite <- !app_assoc; reflexivity|].
        split; [reflexivity|].
        exists d, n, v. eexists. repeat split; first [assumption | reflexivity].
      * cbn. rewrite lookup_insert_eq. cbn.
        eexists _, _, (EndException e), _. cbn.
        split; [reflexivity|]. split; [reflexivity|].
        split; [rewrite <- !app_assoc; reflexivity|].
        split; [reflexivity|].
        exists d. split; [first [exact Hd | reflexivity]|]. right. split; [exists n; first [exact Hn | reflexivity] | first [exact Hv | reflexivity]].
    + cbn. rewrite lookup_insert_eq. cbn.
      eexists _, _, (EndException e), _. cbn.
      split; [reflexivity|]. split; [reflexivity|].
      split; [rewrite <- !app_assoc; reflexivity|].
      split; [reflexivity|].
      exists d. split; [first [exact Hd | reflexivity]|]. left; first [exact Hn | reflexivity].
  - cbn. rewrite lookup_insert_eq. cbn.
    eexists _, _, EndMissingRecord, _. cbn.
    split; [reflexivity|]. split; [reflexivity|].
    split; [rewrite <- !app_assoc; reflexivity|].
    split; [reflexivity | first [exact Hd | reflexivity]].
Qed.

End InMemoryStep.

(** A stored identifier: the step ends normally, and the process is then
    Completed with a payload and no message, or Failed with a message and
    no payload; the message is the fixed one when the record is missing and
    the text of the exception when one was raised. *)
Lemma perform_validation_sets_terminal_status
      (er : EnrollmentRepository) (utcnow : nat -> timestamp)
      (isoformat : timestamp -> string)
      (w : Sys (S := gmap string ValidationProcess)) (pid : string)
      (p : ValidationProcess) :
  processes w !! pid = Some p ->
  fst (_perform_validation er utcnow isoformat pid w) = Ok tt
  /\ exists (p' : ValidationProcess) (e : StepEnd),
      processes (snd (_perform_validation er utcnow isoformat pid w)) !! pid = Some p'
      /\ uuid_str p' = uuid_str p
      /\ match e with
         | EndMissingRecord =>
             truthy (er.(get_by_uuid) p.(uuid_str)) = None
             /\ status p' = FAILED
             /\ error_message p' = Some "Enrollment not found during validation"
             /\ result_data p' = None
         | EndException e =>
             status p' = FAILED
             /\ error_message p' = Some (exn_str e)
             /\ result_data p' = None
         | EndPayload payload =>
             status p' = COMPLETED
             /\ error_message p' = None
             /\ result_data p' = Some payload
         end.
Proof.
  intros Hp.
  destruct (step_known er utcnow isoformat w pid p Hp)
    as (t1 & t2 & e & evs & Hrun & Hst & _ & _ & He).
  split; [now rewrite Hrun|].
  eexists _, e. rewrite Hst, lookup_insert_eq.
  split; [reflexivity|].
  destruct e; cbn; repeat split; try reflexivity. exact He.
Qed.

(** C2 (the code departs from the claim): for an identifier that is not
    stored, both updates raise, the second one inside the handler, so the
    step ends by [ValidationProcessNotFoundError] and not silently; the
    store is left as it was. *)
Theorem perform_validation_unknown_process_escapes :
  fst (_perform_validation no_enrollment sample_clock sample_isoformat "p1"
         (sys_of InMemoryValidationProcessRepository.init))
  = Raise (ValidationProcessNotFoundError "p1")
  /\ processes (snd (_perform_validation no_enrollment sample_clock sample_isoformat
                       "p1" (sys_of InMemoryValidationProcessRepository.init)))
     = InMemoryValidationProcessRepository.init
  /\ calls (snd (_perform_validation no_enrollment sample_clock sample_isoformat
                   "p1" (sys_of InMemoryValidationProcessRepository.init)))
     = [ProcessUpdateStatus "p1" IN_PROGRESS None None
          (Raise (ValidationProcessNotFoundError "p1"));
        ProcessUpdateStatus "p1" FAILED (Some "Validation process p1 not found") None
          (Raise (ValidationProcessNotFoundError "p1"))].
Proof. repeat split; vm_compute; reflexivity. Qed.

(** ** The snapshot invariant *)

Lemma store_ok_insert (st : gmap string ValidationProcess) (pid : string)
      (p : ValidationProcess) :
  store_ok st -> snapshot_ok p = true -> store_ok (<[pid := p]> st).
Proof. intros Hst Hp. now apply map_Forall_insert_2. Qed.

Lemma updated_in_progress_ok (p : ValidationProcess) (t : timestamp) :
  snapshot_ok (updated p IN_PROGRESS t None None) = true.
Proof. reflexivity. Qed.

Lemma final_snapshot_ok (p1 : ValidationProcess) (t : timestamp) (e : StepEnd) :
  snapshot_ok (final_snapshot p1 t e) = true.
Proof. destruct e; reflexivity. Qed.

(** [create] stores a Pending snapshot without message or payload. *)
Lemma create_keeps_store_ok (st : gmap string ValidationProcess)
      (u : string) (e : option string) (id : string) (now : timestamp) :
  store_ok st ->
  store_ok (snd (InMemoryValidationProcessRepository.create st u e id now))
  /\ exists p, fst (InMemoryValidationProcessRepository.create st u e id now) = Ok p
               /\ status p = PENDING /\ snapshot_ok p = true.
Proof.
  intros Hst. split.
  - apply store_ok_insert; [exact Hst | reflexivity].
  - eexists. repeat split.
Qed.

(** C5: the background step writes only snapshots that satisfy the
    invariant (no message and no payload before a terminal state, exactly
    one of them in a terminal state), so that a store in which every
    process satisfies it still does after each transition of the step and
    when the step ends. *)
Theorem background_step_keeps_snapshot_invariant
        (er : EnrollmentRepository) (utcnow : nat -> timestamp)
        (isoformat : timestamp -> string)
        (w : Sys (S := gmap string ValidationProcess)) (pid : string) :
  store_ok (processes w) ->
  exists evs : list Event,
    calls (snd (_perform_validation er utcnow isoformat pid w)) = calls w ++ evs
    /\ Forall (fun p => snapshot_ok p = true) (transitions evs)
    /\ Forall store_ok (stores_after (processes w) pid (transitions evs))
    /\ processes (snd (_perform_validation er utcnow isoformat pid w))
       = List.last (stores_after (processes w) pid (transitions evs)) (processes w)
    /\ store_ok (processes (snd (_perform_validation er utcnow isoformat pid w))).
Proof.
  intros Hst. destruct (processes w !! pid) as [p|] eqn:Hp.
  - destruct (step_known er utcnow isoformat w pid p Hp)
      as (t1 & t2 & e & evs & _ & Hfin & Hcalls & Htr & _).
    cbn zeta in Hfin, Htr.
    pose proof (updated_in_progress_ok p t1) as H1.
    pose proof (final_snapshot_ok (updated p IN_PROGRESS t1 None None) t2 e) as H2.
    pose proof (store_ok_insert _ pid _ Hst H1) as Hst1.
    pose proof (store_ok_insert _ pid _ Hst1 H2) as Hst2.
    exists evs. rewrite Htr, Hfin. cbn [stores_after List.last].
    split; [exact Hcalls|].
    split; [repeat constructor; assumption|].
    split; [repeat constructor; assumption|].
    split; [reflexivity | exact Hst2].
  - destruct (step_unknown er utcnow isoformat w pid Hp)
      as (evs & _ & Hfin & Hcalls & Htr).
    exists evs. rewrite Htr, Hfin. cbn [stores_after List.last].
    split; [exact Hcalls|]. split; [constructor|]. split; [constructor|].
    split; [reflexivity | exact Hst].
Qed.

Lemma background_step_keeps_snapshot_invariant_witness :
  exists evs : list Event,
    calls (snd (_perform_validation
                  (one_enrollment "12345678-1234-5678-9012-123456789abc" sample_enrollment)
                  sample_clock sample_isoformat "p1"
                  (sys_of {["p1" := pending_process]})))
    = calls (sys_of {["p1" := pending_process]}) ++ evs
    /\ Forall (fun p => snapshot_ok p = true) (transitions evs)
    /\ Forall store_ok
         (stores_after (processes (sys_of {["p1" := pending_process]})) "p1"
                       (transitions evs))
    /\ processes (snd (_perform_validation
                         (one_enrollment "12345678-1234-5678-9012-123456789abc"
                                         sample_enrollment)
                         sample_clock sample_isoformat "p1"
                         (sys_of {["p1" := pending_process]})))
       = List.last (stores_after (processes (sys_of {["p1" := pending_process]})) "p1"
                                 (transitions evs))
                   (processes (sys_of {["p1" := pending_process]}))
    /\ store_ok (processes (snd (_perform_validation
                                   (one_enrollment "12345678-1234-5678-9012-123456789abc"
                                                   sample_enrollment)
                                   sample_clock sample_isoformat "p1"
                                   (sys_of {["p1" := pending_process]})))).
Proof.
  apply (background_step_keeps_snapshot_invariant
           (one_enrollment "12345678-1234-5678-9012-123456789abc" sample_enrollment)
           sample_clock sample_isoformat (sys_of {["p1" := pending_process]}) "p1").
  apply map_Forall_singleton. reflexivity.
Defined.

(** From a Pending process, the statuses the step asks for follow the
    forward order of the state machine. *)
Lemma background_step_transitions_forward
      (er : EnrollmentRepository) (utcnow : nat -> timestamp)
      (isoformat : timestamp -> string)
      (w : Sys (S := gmap string ValidationProcess)) (pid : string)
      (p : ValidationProcess) :
  processes w !! pid = Some p -> status p = PENDING ->
  exists (evs : list Event) (p1 p2 : ValidationProcess),
    calls (snd (_perform_validation er utcnow isoformat pid w)) = calls w ++ evs
    /\ transitions evs = [p1; p2]
    /\ forward_transition (status p) (status p1) = true
    /\ forward_transition (status p1) (status p2) = true
    /\ is_terminal (status p2) = true.
Proof.
  intros Hp Hs.
  destruct (step_known er utcnow isoformat w pid p Hp)
    as (t1 & t2 & e & evs & _ & _ & Hcalls & Htr & _).
  exists evs. eexists _, _. split; [exact Hcalls|]. split; [exact Htr|].
  rewrite Hs. destruct e; repeat split.
Qed.

(** ** [initiate_validation] *)

Lemma string_length_append (a b : string) :
  String.length (a +:+ b) = (String.length a + String.length b)%nat.
Proof.
  induction a as [|x a IH]; [reflexivity|].
  rewrite append_cons. cbn. now rewrite IH.
Qed.

Lemma canonical_identifier_length (s : string) :
  canonical_identifier s -> String.length s = 36%nat.
Proof.
  intros (g1 & g2 & g3 & g4 & g5 & -> & [L1 _] & [L2 _] & [L3 _] & [L4 _] & [L5 _]).
  rewrite !string_length_append, L1, L2, L3, L4, L5. reflexivity.
Qed.

Section InitiateValidation.

Context {S : Type} {process_repository : ValidationProcessRepository S}.
Variable enrollment_repository : EnrollmentRepository.
Variable uuid4 : nat -> string.
Variable utcnow : nat -> timestamp.
Variable str_error : pyval -> string.

Abbreviation initiate :=
  (initiate_validation (S := S) enrollment_repository uuid4 utcnow
                       str_error).

(** A string the predicate refuses goes no further: the exception is
    raised with the state, and so the list of calls, untouched. *)
Lemma initiate_validation_refused (s : string) (w : Sys (S := S)) :
  _validate_uuid_format (PyStr s) = Ok false ->
  initiate (PyStr s) w = (Raise (InvalidUuidFormatError s), w).
Proof.
  intros Hv. unfold initiate_validation, lift, mbind, se_bind.
  rewrite Hv. reflexivity.
Qed.

(** A string that is neither a canonical identifier nor one followed by a
    line feed is refused in this way. *)
Lemma initiate_validation_malformed (s : string) (w : Sys (S := S)) :
  ~ canonical_identifier s ->
  (forall u, canonical_identifier u -> s <> u +:+ newline) ->
  initiate (PyStr s) w = (Raise (InvalidUuidFormatError s), w).
Proof.
  intros Hs Hn. apply initiate_validation_refused.
  destruct (validate_uuid_format_str_total s) as [[|] Hb]; [|exact Hb].
  apply validate_uuid_format_accepts in Hb as [Hc | (u & Hu & ->)].
  - contradiction.
  - now destruct (Hn u Hu).
Qed.

(** A value that is not a string: the [TypeError] of the predicate comes
    out as it is, before any call. *)
Lemma initiate_validation_none (w : Sys (S := S)) :
  initiate PyNone w
  = (Raise (TypeError "expected string or bytes-like object, got 'NoneType'"), w).
Proof. reflexivity. Qed.

End InitiateValidation.

(** C6: for a canonical identifier that the enrollment repository does not
    know, [initiate_validation] raises [EnrollmentNotFoundError]; the only
    call made is the look-up of the record, [create] is not called, and the
    process repository is left as it was.  This holds for every
    implementation of the process repository. *)
Theorem initiate_validation_missing_subject
        {S : Type} {process_repository : ValidationProcessRepository S}
        (er : EnrollmentRepository) (uuid4 : nat -> string)
        (utcnow : nat -> timestamp)
        (str_error : pyval -> string) (s : string) (w : Sys (S := S)) :
  canonical_identifier s ->
  er.(get_by_uuid) s = None ->
  fst (initiate_validation er uuid4 utcnow str_error (PyStr s) w)
  = Raise (EnrollmentNotFoundError s)
  /\ processes (snd (initiate_validation er uuid4 utcnow str_error (PyStr s) w)) = processes w
  /\ calls (snd (initiate_validation er uuid4 utcnow str_error (PyStr s) w))
     = calls w ++ [EnrollmentGetByUuid s]
  /\ existsb is_create_call [EnrollmentGetByUuid s] = false.
Proof.
  intros Hs Hnone.
  assert (Hv : _validate_uuid_format (PyStr s) = Ok true)
    by (apply validate_uuid_format_accepts; now left).
  unfold initiate_validation, lift, enrollment_get_by_uuid, record_call,
    mbind, se_bind, mret, se_ret.
  rewrite Hv. cbn. rewrite Hnone. cbn. repeat split.
Qed.

Lemma initiate_validation_missing_subject_witness :
  fst (initiate_validation no_enrollment (fun _ => "p1") sample_clock sample_str_error
         (PyStr "12345678-1234-5678-9012-123456789abc")
         (sys_of InMemoryValidationProcessRepository.init))
  = Raise (EnrollmentNotFoundError "12345678-1234-5678-9012-123456789abc")
  /\ processes (snd (initiate_validation no_enrollment (fun _ => "p1") sample_clock sample_str_error
                       (PyStr "12345678-1234-5678-9012-123456789abc")
                       (sys_of InMemoryValidationProcessRepository.init)))
     = processes (sys_of InMemoryValidationProcessRepository.init)
  /\ calls (snd (initiate_validation no_enrollment (fun _ => "p1") sample_clock sample_str_error
                   (PyStr "12345678-1234-5678-9012-123456789abc")
                   (sys_of InMemoryValidationProcessRepository.init)))
     = calls (sys_of InMemoryValidationProcessRepository.init)
       ++ [EnrollmentGetByUuid "12345678-1234-5678-9012-123456789abc"]
  /\ existsb is_create_call
       [EnrollmentGetByUuid "12345678-1234-5678-9012-123456789abc"] = false.
Proof.
  apply (initiate_validation_missing_subject
           no_enrollment (fun _ => "p1") sample_clock sample_str_error
           "12345678-1234-5678-9012-123456789abc"
           (sys_of InMemoryValidationProcessRepository.init)).
  - exists "12345678", "1234", "5678", "9012", "123456789abc".
    repeat split; reflexivity.
  - reflexivity.
Defined.

(** C7 (the code departs from the claim): [newline_identifier] has 37
    characters and is no canonical identifier, yet it passes the predicate:
    the enrollment repository is asked for it, and the exception is
    [EnrollmentNotFoundError], not [InvalidUuidFormatError]. *)
Theorem initiate_validation_newline_reaches_repository :
  ~ canonical_identifier newline_identifier
  /\ fst (initiate_validation no_enrollment (fun _ => "p1") sample_clock sample_str_error
            (PyStr newline_identifier)
            (sys_of InMemoryValidationProcessRepository.init))
     = Raise (EnrollmentNotFoundError newline_identifier)
  /\ calls (snd (initiate_validation no_enrollment (fun _ => "p1") sample_clock sample_str_error
                   (PyStr newline_identifier)
                   (sys_of InMemoryValidationProcessRepository.init)))
     = [EnrollmentGetByUuid newline_identifier].
Proof.
  split.
  - intros H. apply canonical_identifier_length in H. discriminate H.
  - split; vm_compute; reflexivity.
Qed.

(** ** The choice of the backend at start-up *)


(** The three outcomes, on surroundings in which the connection fails a
    given number of times. *)
Example startup_durable :
  exists db, fst (lifespan_startup nat (flaky_instance 0) 0%nat)
  = Ok {| service_enrollment_repository := MongoEnrollmentRepository db;
          service_process_repository :=
            MongoProcessRepository db "validation_processes" |}.
Proof. eexists. reflexivity. Qed.

Example startup_fallback :
  exists db, fst (lifespan_startup nat (flaky_instance 1) 0%nat)
  = Ok {| service_enrollment_repository := MongoEnrollmentRepository db;
          service_process_repository :=
            InMemoryProcessRepository InMemoryValidationProcessRepository.init |}.
Proof. eexists. reflexivity. Qed.

Example startup_fatal :
  fst (lifespan_startup nat (flaky_instance 2) 0%nat)
  = Raise (RuntimeError "Unable to initialize any validation service backend").
Proof. reflexivity. Qed.

(** ** The comparator *)

Section ComparatorProperties.

Variable get_student_by_id : string -> option dict.
Variable str_strip : string -> string.
Variable str_lower : string -> string.

Lemma values_differ_equal_values (cert_value db_value : pyval) :
  values_differ str_strip str_lower cert_value db_value
  = negb (equal_values str_strip str_lower cert_value db_value).
Proof. destruct cert_value, db_value; reflexivity. Qed.

(** One turn of the loop, by the class of the field. *)
Lemma compare_field_classify (record : dict) (acc : Acc) (key : string)
      (cert_value : pyval) :
  compare_field str_strip str_lower record acc (key, cert_value) =
  match classify str_strip str_lower record key cert_value with
  | AdditionalInfo =>
      {| acc_anomalies := acc.(acc_anomalies);
         acc_matches := acc.(acc_matches);
         acc_additional_info := dict_set acc.(acc_additional_info) key cert_value |}
  | IsMatch db_value =>
      {| acc_anomalies := acc.(acc_anomalies);
         acc_matches :=
           acc.(acc_matches) ++ [{| match_field := key; match_value := db_value |}];
         acc_additional_info := acc.(acc_additional_info) |}
  | IsAnomaly db_value =>
      {| acc_anomalies :=
           acc.(acc_anomalies) ++ [{| anomaly_field := key;
                                      mongodb_value := db_value;
                                      certificate_value := cert_value |}];
         acc_matches := acc.(acc_matches);
         acc_additional_info := acc.(acc_additional_info) |}
  end.
Proof.
  unfold compare_field, classify, dict_get.
  destruct (dict_lookup key record) as [db|]; [|reflexivity].
  destruct db; try reflexivity;
    rewrite values_differ_equal_values;
    destruct (equal_values str_strip str_lower cert_value _); reflexivity.
Qed.

(** The loop, from any value of the accumulators. *)
Lemma compare_loop (record extracted : dict) (acc : Acc) :
  fold_left (compare_field str_strip str_lower record) extracted acc =
  {| acc_anomalies :=
       acc.(acc_anomalies) ++ anomalies_of str_strip str_lower record extracted;
     acc_matches :=
       acc.(acc_matches) ++ matches_of str_strip str_lower record extracted;
     acc_additional_info :=
       additional_of str_strip str_lower record extracted acc.(acc_additional_info) |}.
Proof.
  revert acc. induction extracted as [|[key cert_value] rest IH]; intros acc.
  - cbn. rewrite !app_nil_r. now destruct acc.
  - cbn [fold_left anomalies_of matches_of additional_of].
    rewrite IH, compare_field_classify.
    destruct (classify str_strip str_lower record key cert_value); cbn;
      rewrite <- ?app_assoc; reflexivity.
Qed.

End ComparatorProperties.

Lemma dict_lookup_set_eq (d : dict) (k : string) (v : pyval) :
  dict_lookup k (dict_set d k v) = Some v.
Proof.
  induction d as [|[k' w] d IH]; cbn.
  - now rewrite String.eqb_refl.
  - destruct (String.eqb k' k) eqn:E; cbn; rewrite E; [reflexivity | exact IH].
Qed.

Lemma dict_lookup_set_ne (d : dict) (k k' : string) (v : pyval) :
  k' <> k -> dict_lookup k (dict_set d k' v) = dict_lookup k d.
Proof.
  intros Hne. induction d as [|[k'' w] d IH]; cbn.
  - destruct (String.eqb k' k) eqn:E; [|reflexivity].
    apply String.eqb_eq in E. contradiction.
  - destruct (String.eqb k'' k') eqn:E; cbn.
    + apply String.eqb_eq in E. subst k''.
      destruct (String.eqb k' k) eqn:E'; [|reflexivity].
      apply String.eqb_eq in E'. contradiction.
    + destruct (String.eqb k'' k); [reflexivity | exact IH].
Qed.

Section ComparatorMembership.

Variable str_strip : string -> string.
Variable str_lower : string -> string.
Variable record : dict.

Abbreviation class_of := (classify str_strip str_lower record).

Lemma matches_of_In (extracted : dict) (m : Match) :
  In m (matches_of str_strip str_lower record extracted) <->
  exists v, In (match_field m, v) extracted
            /\ class_of (match_field m) v = IsMatch (match_value m).
Proof.
  induction extracted as [|[k v] rest IH]; cbn.
  - split; [contradiction | intros (? & [] & _)].
  - destruct (class_of k v) as [|db|db] eqn:E; cbn; rewrite IH; split.
    + intros (x & Hx & Hc). exists x. auto.
    + intros (x & [[= <- <-] | Hx] & Hc); [congruence | eauto].
    + intros [<- | (x & Hx & Hc)]; [exists v; cbn; auto | exists x; auto].
    + intros (x & [[= Hk <-] | Hx] & Hc); [|right; eauto].
      left. destruct m as [f val]. cbn in *. subst f. congruence.
    + intros (x & Hx & Hc). exists x. auto.
    + intros (x & [[= <- <-] | Hx] & Hc); [congruence | eauto].
Qed.

Lemma anomalies_of_In (extracted : dict) (a : Anomaly) :
  In a (anomalies_of str_strip str_lower record extracted) <->
  In (anomaly_field a, certificate_value a) extracted
  /\ class_of (anomaly_field a) (certificate_value a) = IsAnomaly (mongodb_value a).
Proof.
  induction extracted as [|[k v] rest IH]; cbn.
  - split; [contradiction | intros [[] _]].
  - destruct (class_of k v) as [|db|db] eqn:E; cbn; rewrite IH; split.
    + intros [Hx Hc]. auto.
    + intros [[[= <- <-] | Hx] Hc]; [congruence | auto].
    + intros [Hx Hc]. auto.
    + intros [[[= <- <-] | Hx] Hc]; [congruence | auto].
    + intros [<- | [Hx Hc]]; cbn; auto.
    + intros [[[= Hk Hv] | Hx] Hc]; [|right; auto].
      left. destruct a as [f dbv cv]. cbn in *. subst. congruence.
Qed.

Lemma additional_of_other (extracted info : dict) (k : string) :
  ~ In k (map fst extracted) ->
  dict_lookup k (additional_of str_strip str_lower record extracted info)
  = dict_lookup k info.
Proof.
  revert info. induction extracted as [|[k' v'] rest IH]; intros info Hk; cbn.
  - reflexivity.
  - cbn in Hk. assert (k' <> k) by tauto. assert (~ In k (map fst rest)) by tauto.
    destruct (class_of k' v'); rewrite IH by assumption;
      [now apply dict_lookup_set_ne | reflexivity | reflexivity].
Qed.

Lemma additional_of_In (extracted info : dict) (k : string) (v : pyval) :
  List.NoDup (map fst extracted) ->
  In (k, v) extracted -> class_of k v = AdditionalInfo ->
  dict_lookup k (additional_of str_strip str_lower record extracted info) = Some v.
Proof.
  revert info. induction extracted as [|[k' v'] rest IH]; intros info Hnd Hin Hc.
  - destruct Hin.
  - cbn in Hnd. apply NoDup_cons_iff in Hnd as [Hk' Hnd]. cbn.
    destruct Hin as [[= -> ->] | Hin].
    + rewrite Hc, additional_of_other by assumption. apply dict_lookup_set_eq.
    + destruct (class_of k' v'); now apply IH.
Qed.

Lemma additional_of_lookup (extracted info : dict) (k : string) (v : pyval) :
  dict_lookup k (additional_of str_strip str_lower record extracted info) = Some v ->
  dict_lookup k info = Some v
  \/ (In (k, v) extracted /\ class_of k v = AdditionalInfo).
Proof.
  revert info. induction extracted as [|[k' v'] rest IH]; intros info H; cbn in *.
  - now left.
  - destruct (class_of k' v') eqn:E.
    + apply IH in H as [H | [Hin Hc]]; [|right; auto].
      destruct (String.eqb k' k) eqn:Ek.
      * apply String.eqb_eq in Ek. subst k'.
        rewrite dict_lookup_set_eq in H. injection H as ->. right. auto.
      * assert (k' <> k) by (intros ->; rewrite String.eqb_refl in Ek; discriminate).
        rewrite dict_lookup_set_ne in H by assumption. now left.
    + apply IH in H as [H | [Hin Hc]]; [now left | right; auto].
    + apply IH in H as [H | [Hin Hc]]; [now left | right; auto].
Qed.

End ComparatorMembership.

(** The dictionary returned when the student record is found. *)
Lemma compare_student_data_success
      (get_student_by_id : string -> option dict)
      (str_strip str_lower : string -> string)
      (student_id : string) (record extracted : dict) :
  get_student_by_id student_id = Some record ->
  compare_student_data get_student_by_id str_strip str_lower student_id extracted
  = CompareSuccess
      {| mongodb_record := record;
         certificate_data := extracted;
         matches := matches_of str_strip str_lower record extracted;
         anomalies := anomalies_of str_strip str_lower record extracted;
         additional_info := additional_of str_strip str_lower record extracted [];
         total_anomalies :=
           length (anomalies_of str_strip str_lower record extracted) |}.
Proof.
  intros Hrec. unfold compare_student_data. rewrite Hrec, compare_loop. reflexivity.
Qed.

(** A student that is not found is reported in the result, not raised. *)
Lemma compare_student_data_not_found
      (get_student_by_id : string -> option dict)
      (str_strip str_lower : string -> string)
      (student_id : string) (extracted : dict) :
  get_student_by_id student_id = None ->
  compare_student_data get_student_by_id str_strip str_lower student_id extracted
  = CompareError ("Student ID " +:+ student_id +:+ " not found in MongoDB").
Proof. intros Hrec. unfold compare_student_data. now rewrite Hrec. Qed.

(** The examples of the interface description. *)
Example compare_case_insensitive :
  compare_with [("name", PyStr "Jane Doe")] [("name", PyStr "jane doe")]
  = CompareSuccess
      {| mongodb_record := [("name", PyStr "Jane Doe")];
         certificate_data := [("name", PyStr "jane doe")];
         matches := [{| match_field := "name"; match_value := PyStr "Jane Doe" |}];
         anomalies := [];
         additional_info := [];
         total_anomalies := 0 |}.
Proof. reflexivity. Qed.

Example compare_mismatch :
  compare_with [("name", PyStr "Jane Doe")] [("name", PyStr "John Doe")]
  = CompareSuccess
      {| mongodb_record := [("name", PyStr "Jane Doe")];
         certificate_data := [("name", PyStr "John Doe")];
         matches := [];
         anomalies := [{| anomaly_field := "name";
                          mongodb_value := PyStr "Jane Doe";
                          certificate_value := PyStr "John Doe" |}];
         additional_info := [];
         total_anomalies := 1 |}.
Proof. reflexivity. Qed.

Example compare_additional :
  compare_with [("name", PyStr "Jane")]
               [("name", PyStr " Jane "); ("middle_name", PyStr "Ann")]
  = CompareSuccess
      {| mongodb_record := [("name", PyStr "Jane")];
         certificate_data := [("name", PyStr " Jane "); ("middle_name", PyStr "Ann")];
         matches := [{| match_field := "name"; match_value := PyStr "Jane" |}];
         anomalies := [];
         additional_info := [("middle_name", PyStr "Ann")];
         total_anomalies := 0 |}.
Proof. reflexivity. Qed.

(** C4, counterexample: the canonical value is the integer 1 and the
    extracted one the boolean True.  The two values are different, but
    Python's [==] holds of them, and the field is reported as a match. *)
Lemma compare_true_matches_one :
  PyBool true <> PyInt 1
  /\ compare_with [("enrolled", PyInt 1)] [("enrolled", PyBool true)]
     = CompareSuccess
         {| mongodb_record := [("enrolled", PyInt 1)];
            certificate_data := [("enrolled", PyBool true)];
            matches := [{| match_field := "enrolled"; match_value := PyInt 1 |}];
            anomalies := [];
            additional_info := [];
            total_anomalies := 0 |}.
Proof. split; [discriminate | reflexivity]. Qed.

(** C4, amended: every extracted field is classified by [classify]: a
    field whose canonical value is missing or null is entered in the
    additional information; otherwise the two values are compared, two
    strings after trimming and lower-casing and any other pair by Python's
    [==], and the field is reported among the matches when they are equal
    and among the anomalies, with both original values, when they are not.
    Nothing else is reported. *)
Theorem compare_student_data_classifies
        (get_student_by_id : string -> option dict)
        (str_strip str_lower : string -> string)
        (student_id : string) (record extracted : dict) :
  get_student_by_id student_id = Some record ->
  List.NoDup (map fst extracted) ->
  exists c : Comparison,
    compare_student_data get_student_by_id str_strip str_lower student_id extracted
    = CompareSuccess c
    /\ (forall (key : string) (cert_value : pyval),
           In (key, cert_value) extracted ->
           match classify str_strip str_lower record key cert_value with
           | AdditionalInfo => dict_lookup key c.(additional_info) = Some cert_value
           | IsMatch db_value =>
               In {| match_field := key; match_value := db_value |} c.(matches)
           | IsAnomaly db_value =>
               In {| anomaly_field := key; mongodb_value := db_value;
                     certificate_value := cert_value |} c.(anomalies)
           end)
    /\ (forall m : Match,
           In m c.(matches) ->
           exists cert_value,
             In (match_field m, cert_value) extracted
             /\ classify str_strip str_lower record (match_field m) cert_value
                = IsMatch (match_value m))
    /\ (forall a : Anomaly,
           In a c.(anomalies) ->
           In (anomaly_field a, certificate_value a) extracted
           /\ classify str_strip str_lower record (anomaly_field a) (certificate_value a)
              = IsAnomaly (mongodb_value a))
    /\ (forall (key : string) (cert_value : pyval),
           dict_lookup key c.(additional_info) = Some cert_value ->
           In (key, cert_value) extracted
           /\ classify str_strip str_lower record key cert_value = AdditionalInfo)
    /\ c.(total_anomalies) = length c.(anomalies).
Proof.
  intros Hrec Hnd.
  rewrite (compare_student_data_success _ str_strip str_lower _ _ extracted Hrec).
  eexists. split; [reflexivity|].
  cbn. split; [|split; [|split; [|split]]].
  - intros key cert_value Hin.
    destruct (classify str_strip str_lower record key cert_value) as [|db|db] eqn:E.
    + now apply additional_of_In.
    + apply matches_of_In. exists cert_value. auto.
    + apply anomalies_of_In. auto.
  - intros m Hm. now apply matches_of_In.
  - intros a Ha. now apply anomalies_of_In.
  - intros key cert_value Hl.
    apply additional_of_lookup in Hl as [Hl | Hl]; [discriminate Hl | exact Hl].
  - reflexivity.
Qed.

Lemma compare_student_data_classifies_witness :
  exists c : Comparison,
    compare_with [("name", PyStr "Jane"); ("grade", PyInt 3)]
                 [("name", PyStr " jane "); ("grade", PyInt 4);
                  ("middle_name", PyStr "Ann")]
    = CompareSuccess c
    /\ (forall (key : string) (cert_value : pyval),
           In (key, cert_value)
              [("name", PyStr " jane "); ("grade", PyInt 4);
               ("middle_name", PyStr "Ann")] ->
           match classify ascii_strip ascii_lower
                          [("name", PyStr "Jane"); ("grade", PyInt 3)]
                          key cert_value with
           | AdditionalInfo => dict_lookup key c.(additional_info) = Some cert_value
           | IsMatch db_value =>
               In {| match_field := key; match_value := db_value |} c.(matches)
           | IsAnomaly db_value =>
               In {| anomaly_field := key; mongodb_value := db_value;
                     certificate_value := cert_value |} c.(anomalies)
           end)
    /\ (forall m : Match,
           In m c.(matches) ->
           exists cert_value,
             In (match_field m, cert_value)
                [("name", PyStr " jane "); ("grade", PyInt 4);
                 ("middle_name", PyStr "Ann")]
             /\ classify ascii_strip ascii_lower
                         [("name", PyStr "Jane"); ("grade", PyInt 3)]
                         (match_field m) cert_value
                = IsMatch (match_value m))
    /\ (forall a : Anomaly,
           In a c.(anomalies) ->
           In (anomaly_field a, certificate_value a)
              [("name", PyStr " jane "); ("grade", PyInt 4);
               ("middle_name", PyStr "Ann")]
           /\ classify ascii_strip ascii_lower
                       [("name", PyStr "Jane"); ("grade", PyInt 3)]
                       (anomaly_field a) (certificate_value a)
              = IsAnomaly (mongodb_value a))
    /\ (forall (key : string) (cert_value : pyval),
           dict_lookup key c.(additional_info) = Some cert_value ->
           In (key, cert_value)
              [("name", PyStr " jane "); ("grade", PyInt 4);
               ("middle_name", PyStr "Ann")]
           /\ classify ascii_strip ascii_lower
                       [("name", PyStr "Jane"); ("grade", PyInt 3)]
                       key cert_value = AdditionalInfo)
    /\ c.(total_anomalies) = length c.(anomalies).
Proof.
  apply (compare_student_data_classifies
           (fun _ => Some [("name", PyStr "Jane"); ("grade", PyInt 3)])
           ascii_strip ascii_lower "12345678-1234-5678-9012-123456789abc"
           [("name", PyStr "Jane"); ("grade", PyInt 3)]
           [("name", PyStr " jane "); ("grade", PyInt 4);
            ("middle_name", PyStr "Ann")]).
  - reflexivity.
  - repeat constructor; cbn; intuition discriminate.
Defined.

Example compare_witness_run :
  compare_with [("name", PyStr "Jane"); ("grade", PyInt 3)]
               [("name", PyStr " jane "); ("grade", PyInt 4);
                ("middle_name", PyStr "Ann")]
  = CompareSuccess
      {| mongodb_record := [("name", PyStr "Jane"); ("grade", PyInt 3)];
         certificate_data := [("name", PyStr " jane "); ("grade", PyInt 4);
                              ("middle_name", PyStr "Ann")];
         matches := [{| match_field := "name"; match_value := PyStr "Jane" |}];
         anomalies := [{| anomaly_field := "grade"; mongodb_value := PyInt 3;
                          certificate_value := PyInt 4 |}];
         additional_info := [("middle_name", PyStr "Ann")];
         total_anomalies := 1 |}.
Proof. reflexivity. Qed.

(** * Further properties *)

(** ** The in-memory repository under sequences of calls *)

Lemma same_identity_refl (p : ValidationProcess) : same_identity p p.
Proof. repeat split. Qed.

Lemma same_identity_trans (p q r : ValidationProcess) :
  same_identity p q -> same_identity q r -> same_identity p r.
Proof.
  intros (A1 & A2 & A3 & A4) (B1 & B2 & B3 & B4).
  repeat split; congruence.
Qed.

Lemma string_eqb_false_ne (a b : string) : String.eqb a b = false -> a <> b.
Proof. intros E ->. rewrite String.eqb_refl in E. discriminate. Qed.

(** One call: a stored process stays stored, with the fields fixed at
    creation, unless the call creates it anew. *)
Lemma in_memory_run_call_identity (st : gmap string ValidationProcess)
      (c : RepoCall) (pid : string) (p : ValidationProcess) :
  st !! pid = Some p -> creates pid c = false ->
  exists p', snd (run_call st c) !! pid = Some p' /\ same_identity p' p.
Proof.
  intros Hp Hc. destruct c as [u e id now | q | q s err res now]; cbn in *.
  - apply string_eqb_false_ne in Hc. rewrite lookup_insert_ne by assumption.
    exists p. split; [exact Hp | apply same_identity_refl].
  - exists p. split; [exact Hp | apply same_identity_refl].
  - unfold InMemoryValidationProcessRepository.update_status,
      InMemoryValidationProcessRepository.get_by_id.
    destruct (st !! q) as [old|] eqn:Hq; cbn.
    + destruct (String.eqb q pid) eqn:E.
      * apply String.eqb_eq in E. subst q. rewrite lookup_insert_eq.
        eexists. split; [reflexivity|]. rewrite Hp in Hq. injection Hq as <-.
        repeat split.
      * apply string_eqb_false_ne in E. rewrite lookup_insert_ne by assumption.
        exists p. split; [exact Hp | apply same_identity_refl].
    + exists p. split; [exact Hp | apply same_identity_refl].
Qed.

(** X1: whatever calls follow, short of creating the same identifier
    anew, a stored process stays stored and keeps its identifier, its
    subject, its e-mail and its creation time. *)
Theorem in_memory_identity_is_kept (st : gmap string ValidationProcess)
        (cs : list RepoCall) (pid : string) (p : ValidationProcess) :
  st !! pid = Some p ->
  never_creates pid cs = true ->
  exists p' : ValidationProcess,
    InMemoryValidationProcessRepository.get_by_id (snd (run_calls st cs)) pid = Some p'
    /\ same_identity p' p.
Proof.
  unfold InMemoryValidationProcessRepository.get_by_id.
  revert st p. induction cs as [|c cs IH]; intros st p Hp Hn.
  - exists p. split; [exact Hp | apply same_identity_refl].
  - cbn in Hn. apply andb_prop in Hn as [Hc Hn].
    apply negb_true_iff in Hc.
    destruct (in_memory_run_call_identity st c pid p Hp Hc) as (p1 & Hp1 & Hs1).
    destruct (IH _ _ Hp1 Hn) as (p' & Hp' & Hs').
    exists p'. rewrite run_calls_cons. cbn [snd].
    split; [exact Hp' | now apply same_identity_trans with p1].
Qed.

Lemma in_memory_identity_is_kept_witness :
  exists p' : ValidationProcess,
    InMemoryValidationProcessRepository.get_by_id
      (snd (run_calls ({["p1" := pending_process]} : gmap string ValidationProcess)
                      later_calls)) "p1" = Some p'
    /\ same_identity p' pending_process.
Proof.
  apply (in_memory_identity_is_kept {["p1" := pending_process]} later_calls
                                    "p1" pending_process).
  - vm_compute. reflexivity.
  - vm_compute. reflexivity.
Defined.

Lemma keyed_run_call (st : gmap string ValidationProcess) (c : RepoCall) :
  keyed st -> keyed (snd (run_call st c)).
Proof.
  intros Hk. destruct c as [u e id now | q | q s err res now]; cbn.
  - apply map_Forall_insert_2; [reflexivity | exact Hk].
  - exact Hk.
  - unfold InMemoryValidationProcessRepository.update_status,
      InMemoryValidationProcessRepository.get_by_id.
    destruct (st !! q) as [old|] eqn:Hq; cbn; [|exact Hk].
    apply map_Forall_insert_2; [|exact Hk]. cbn. exact (Hk q old Hq).
Qed.

(** X2: in a repository that started empty, whatever calls were made,
    the process found under an identifier carries that identifier. *)
Theorem in_memory_processes_are_keyed (cs : list RepoCall) (pid : string)
        (p : ValidationProcess) :
  InMemoryValidationProcessRepository.get_by_id
    (snd (run_calls InMemoryValidationProcessRepository.init cs)) pid = Some p ->
  process_id p = pid.
Proof.
  assert (H : forall st : gmap string ValidationProcess,
             keyed st -> keyed (snd (run_calls st cs))).
  { induction cs as [|c cs IH]; intros st Hk; [exact Hk|].
    rewrite run_calls_cons. cbn [snd]. apply IH. now apply keyed_run_call. }
  intros Hp. apply (H InMemoryValidationProcessRepository.init); [|exact Hp].
  apply map_Forall_empty.
Qed.

Lemma in_memory_processes_are_keyed_witness :
  process_id
    {| process_id := "p1"; uuid_str := "12345678-1234-5678-9012-123456789abc";
       email := Some "a@b.c"; status := COMPLETED; created_at := utc 1;
       updated_at := Some (utc 3); error_message := None;
       result_data := Some [("enrollment_validated", PyBool true)] |} = "p1".
Proof.
  apply (in_memory_processes_are_keyed orchestrated_calls "p1").
  vm_compute. reflexivity.
Defined.

(** [create] followed by [get_by_id] gives back the process created,
    Pending and without update time, message or payload; the processes
    stored under other identifiers are not touched. *)
Lemma in_memory_create_then_get (st : gmap string ValidationProcess)
        (u : string) (e : option string) (id : string) (now : timestamp) :
  exists p : ValidationProcess,
    fst (InMemoryValidationProcessRepository.create st u e id now) = Ok p
    /\ InMemoryValidationProcessRepository.get_by_id
         (snd (InMemoryValidationProcessRepository.create st u e id now)) id = Some p
    /\ p = {| process_id := id; uuid_str := u; email := e; status := PENDING;
              created_at := now; updated_at := None; error_message := None;
              result_data := None |}
    /\ forall q : string,
        q <> id ->
        InMemoryValidationProcessRepository.get_by_id
          (snd (InMemoryValidationProcessRepository.create st u e id now)) q
        = InMemoryValidationProcessRepository.get_by_id st q.
Proof.
  eexists. split; [reflexivity|].
  unfold InMemoryValidationProcessRepository.get_by_id. cbn.
  split; [apply lookup_insert_eq|]. split; [reflexivity|].
  intros q Hq. now apply lookup_insert_ne.
Qed.

(** ** The MongoDB repository *)

Lemma update_one_length (pid : string)
      (f : MongoValidationProcessRepository.document ->
           MongoValidationProcessRepository.document)
      (c : list MongoValidationProcessRepository.document) :
  length (MongoValidationProcessRepository.update_one pid f c) = length c.
Proof.
  induction c as [|d c IH]; cbn; [reflexivity|].
  destruct (String.eqb (MongoValidationProcessRepository.doc_process_id d) pid);
    cbn; congruence.
Qed.

(** What [update_status] does to a collection in which the identifier
    has a document. *)
Lemma mongo_update_status_found
      (c : list MongoValidationProcessRepository.document) (pid : string)
      (d : MongoValidationProcessRepository.document)
      (new_status : ValidationStatus) (err : option string) (res : option dict)
      (now : timestamp) :
  MongoValidationProcessRepository.find_one pid c = Some d ->
  let set := MongoValidationProcessRepository.update_data new_status now err res in
  let c' := MongoValidationProcessRepository.update_one pid set c in
  MongoValidationProcessRepository.find_one pid c' = Some (set d)
  /\ MongoValidationProcessRepository.update_status c pid new_status err res now
     = (match MongoValidationProcessRepository.process_of_document (set d) with
        | Some p => Ok p
        | None => Raise (OtherException
                           ("'" +:+ MongoValidationProcessRepository.doc_status (set d)
                            +:+ "' is not a valid ValidationStatus"))
        end, c').
Proof.
  intros Hd set c'.
  assert (Hf : MongoValidationProcessRepository.find_one pid c' = Some (set d)).
  { unfold c'. rewrite find_one_update_one by (intros; apply update_data_id).
    now rewrite String.eqb_refl, Hd. }
  split; [exact Hf|].
  unfold MongoValidationProcessRepository.update_status.
  rewrite Hd. cbn beta iota zeta. fold set. fold c'. rewrite Hf.
  now destruct (MongoValidationProcessRepository.process_of_document (set d)).
Qed.

(** X3: [update_status] of the MongoDB repository is a partial update.
    The document found keeps its identifier, subject, e-mail and creation
    time; the status is set, and the update time is the reading of the
    clock as the driver keeps it, cut to the millisecond and without zone;
    the message and the payload are replaced when given and kept when left
    out.  The process returned is the one [get_by_id] reads afterwards; no
    document is added or removed, and the documents of other identifiers
    are not touched. *)
Theorem mongo_update_status_is_partial
        (c : list MongoValidationProcessRepository.document) (pid : string)
        (d : MongoValidationProcessRepository.document)
        (new_status : ValidationStatus) (err : option string) (res : option dict)
        (now : timestamp) :
  MongoValidationProcessRepository.find_one pid c = Some d ->
  exists (p' : ValidationProcess)
         (c' : list MongoValidationProcessRepository.document),
    MongoValidationProcessRepository.update_status c pid new_status err res now
    = (Ok p', c')
    /\ MongoValidationProcessRepository.get_by_id c' pid = Some p'
    /\ process_id p' = pid
    /\ uuid_str p' = MongoValidationProcessRepository.doc_uuid_str d
    /\ email p' = MongoValidationProcessRepository.doc_email d
    /\ created_at p' = MongoValidationProcessRepository.doc_created_at d
    /\ status p' = new_status
    /\ updated_at p'
       = Some {| microseconds := (microseconds now / 1000) * 1000;
                 tz_aware := false |}
    /\ error_message p'
       = match err with
         | Some m => Some m
         | None => MongoValidationProcessRepository.doc_error_message d
         end
    /\ result_data p'
       = match res with
         | Some r => Some r
         | None => MongoValidationProcessRepository.doc_result_data d
         end
    /\ length c' = length c
    /\ forall q : string,
        q <> pid ->
        MongoValidationProcessRepository.find_one q c'
        = MongoValidationProcessRepository.find_one q c.
Proof.
  intros Hd. pose proof (find_one_id pid c d Hd) as Hid.
  destruct (mongo_update_status_found c pid d new_status err res now Hd)
    as [Hf Hrun].
  cbn zeta in Hf, Hrun. rewrite Hrun.
  unfold MongoValidationProcessRepository.process_of_document. cbn.
  rewrite status_of_value_value.
  eexists _, _. split; [reflexivity|]. cbn.
  split; [|repeat split; try assumption; try reflexivity].
  - unfold MongoValidationProcessRepository.get_by_id. rewrite Hf.
    unfold MongoValidationProcessRepository.process_of_document. cbn.
    now rewrite status_of_value_value.
  - apply update_one_length.
  - intros q Hq. rewrite find_one_update_one by (intros; apply update_data_id).
    destruct (String.eqb pid q) eqn:E; [|reflexivity].
    apply String.eqb_eq in E. congruence.
Qed.

Lemma mongo_update_status_is_partial_witness :
  exists (p' : ValidationProcess)
         (c' : list MongoValidationProcessRepository.document),
    MongoValidationProcessRepository.update_status
      [stored_failed_process] "p1" IN_PROGRESS None None (utc 3999)
    = (Ok p', c')
    /\ MongoValidationProcessRepository.get_by_id c' "p1" = Some p'
    /\ process_id p' = "p1"
    /\ uuid_str p'
       = MongoValidationProcessRepository.doc_uuid_str stored_failed_process
    /\ email p'
       = MongoValidationProcessRepository.doc_email stored_failed_process
    /\ created_at p'
       = MongoValidationProcessRepository.doc_created_at
           stored_failed_process
    /\ status p' = IN_PROGRESS
    /\ updated_at p' = Some {| microseconds := 3000; tz_aware := false |}
    /\ error_message p'
       = MongoValidationProcessRepository.doc_error_message
           stored_failed_process
    /\ result_data p'
       = MongoValidationProcessRepository.doc_result_data
           stored_failed_process
    /\ length c' = length [stored_failed_process]
    /\ forall q : string,
        q <> "p1" ->
        MongoValidationProcessRepository.find_one q c'
        = MongoValidationProcessRepository.find_one
            q [stored_failed_process].
Proof.
  apply (mongo_update_status_is_partial
           [stored_failed_process] "p1"
           stored_failed_process IN_PROGRESS None None (utc 3999)).
  reflexivity.
Defined.

(** X4: with an identifier that has no document yet, [create] of the
    MongoDB repository returns the process it built, Pending and without
    message or payload, and [get_by_id] then reads that process with its
    creation time as the driver keeps it, cut to the millisecond and
    without zone; what is read under other identifiers does not change. *)
Theorem mongo_create_then_get
        (c : list MongoValidationProcessRepository.document)
        (u : string) (e : option string) (id : string) (now : timestamp) :
  MongoValidationProcessRepository.find_one id c = None ->
  fst (MongoValidationProcessRepository.create c u e id now)
  = Ok {| process_id := id; uuid_str := u; email := e; status := PENDING;
          created_at := now; updated_at := None; error_message := None;
          result_data := None |}
  /\ MongoValidationProcessRepository.get_by_id
       (snd (MongoValidationProcessRepository.create c u e id now)) id
     = Some {| process_id := id; uuid_str := u; email := e; status := PENDING;
               created_at := {| microseconds := (microseconds now / 1000) * 1000;
                                tz_aware := false |};
               updated_at := None; error_message := None; result_data := None |}
  /\ forall q : string,
      q <> id ->
      MongoValidationProcessRepository.get_by_id
        (snd (MongoValidationProcessRepository.create c u e id now)) q
      = MongoValidationProcessRepository.get_by_id c q.
Proof.
  intros Hfresh. split; [reflexivity|].
  unfold MongoValidationProcessRepository.get_by_id. cbn. split.
  - rewrite find_one_insert_one, Hfresh. cbn. rewrite String.eqb_refl. reflexivity.
  - intros q Hq. rewrite find_one_insert_one. cbn.
    destruct (MongoValidationProcessRepository.find_one q c); [reflexivity|].
    destruct (String.eqb id q) eqn:E; [|reflexivity].
    apply String.eqb_eq in E. congruence.
Qed.

Lemma mongo_create_then_get_witness :
  fst (MongoValidationProcessRepository.create
         [stored_failed_process]
         "87654321-4321-8765-2109-cba987654321" None "p2" (utc 7999))
  = Ok {| process_id := "p2"; uuid_str := "87654321-4321-8765-2109-cba987654321";
          email := None; status := PENDING; created_at := utc 7999;
          updated_at := None; error_message := None; result_data := None |}
  /\ MongoValidationProcessRepository.get_by_id
       (snd (MongoValidationProcessRepository.create
               [stored_failed_process]
               "87654321-4321-8765-2109-cba987654321" None "p2" (utc 7999))) "p2"
     = Some {| process_id := "p2";
               uuid_str := "87654321-4321-8765-2109-cba987654321";
               email := None; status := PENDING;
               created_at := {| microseconds := 7000; tz_aware := false |};
               updated_at := None; error_message := None; result_data := None |}
  /\ forall q : string,
      q <> "p2" ->
      MongoValidationProcessRepository.get_by_id
        (snd (MongoValidationProcessRepository.create
                [stored_failed_process]
                "87654321-4321-8765-2109-cba987654321" None "p2" (utc 7999))) q
      = MongoValidationProcessRepository.get_by_id [stored_failed_process] q.
Proof.
  apply (mongo_create_then_get [stored_failed_process]
           "87654321-4321-8765-2109-cba987654321" None "p2" (utc 7999)).
  reflexivity.
Defined.

(** X5: a document whose status is none of the four values cannot be
    read: [get_by_id] answers [None] for it, as for a missing one, and does
    not raise.  [update_status] still finds the document, and once it has
    set the status the process can be read again. *)
Theorem mongo_unreadable_document_is_absent
        (c : list MongoValidationProcessRepository.document) (pid : string)
        (d : MongoValidationProcessRepository.document)
        (new_status : ValidationStatus) (err : option string) (res : option dict)
        (now : timestamp) :
  MongoValidationProcessRepository.find_one pid c = Some d ->
  status_of_value (MongoValidationProcessRepository.doc_status d) = None ->
  MongoValidationProcessRepository.get_by_id c pid = None
  /\ exists (p' : ValidationProcess)
            (c' : list MongoValidationProcessRepository.document),
      MongoValidationProcessRepository.update_status c pid new_status err res now
      = (Ok p', c')
      /\ status p' = new_status
      /\ MongoValidationProcessRepository.get_by_id c' pid = Some p'.
Proof.
  intros Hd Hbad. split.
  - unfold MongoValidationProcessRepository.get_by_id,
      MongoValidationProcessRepository.process_of_document.
    now rewrite Hd, Hbad.
  - destruct (mongo_update_status_found c pid d new_status err res now Hd)
      as [Hf Hrun].
    cbn zeta in Hf, Hrun.
    unfold MongoValidationProcessRepository.process_of_document in Hrun.
    cbn in Hrun. rewrite status_of_value_value in Hrun.
    eexists _, _. split; [exact Hrun|]. split; [reflexivity|].
    unfold MongoValidationProcessRepository.get_by_id. rewrite Hf.
    unfold MongoValidationProcessRepository.process_of_document. cbn.
    now rewrite status_of_value_value.
Qed.

Lemma mongo_unreadable_document_is_absent_witness :
  MongoValidationProcessRepository.get_by_id [stray_document] "p1" = None
  /\ exists (p' : ValidationProcess)
            (c' : list MongoValidationProcessRepository.document),
      MongoValidationProcessRepository.update_status
        [stray_document] "p1" FAILED (Some "boom") None (utc 9) = (Ok p', c')
      /\ status p' = FAILED
      /\ MongoValidationProcessRepository.get_by_id c' "p1" = Some p'.
Proof.
  apply (mongo_unreadable_document_is_absent
           [stray_document] "p1" stray_document FAILED (Some "boom") None (utc 9)).
  - reflexivity.
  - reflexivity.
Defined.

(** ** [initiate_validation], further *)

Section InitiateValidationFurther.

Context {S : Type} {process_repository : ValidationProcessRepository S}.
Variable enrollment_repository : EnrollmentRepository.
Variable uuid4 : nat -> string.
Variable utcnow : nat -> timestamp.
Variable str_error : pyval -> string.

(** What happens once the predicate has accepted the string. *)
Lemma initiate_validation_accepted (s : string) (w : Sys (S := S)) :
  _validate_uuid_format (PyStr s) = Ok true ->
  initiate_validation enrollment_repository uuid4 utcnow str_error (PyStr s) w =
  let w1 := {| processes := processes w;
               calls := calls w ++ [EnrollmentGetByUuid s];
               drawn := drawn w; ticks := ticks w |} in
  match truthy (enrollment_repository.(get_by_uuid) s) with
  | None => (Raise (EnrollmentNotFoundError s), w1)
  | Some d =>
      let w2 := {| processes := processes w;
                   calls := (calls w ++ [EnrollmentGetByUuid s])
                            ++ [ProcessCreate s (dict_get d "email")];
                   drawn := Datatypes.S (drawn w);
                   ticks := Datatypes.S (ticks w) |} in
      match email_field str_error (dict_get d "email") with
      | Raise e =>
          (Raise (ValidationServiceError
                    ("Failed to initiate validation: " +:+ exn_str e)), w2)
      | Ok em =>
          match create (processes w) s em (uuid4 (drawn w)) (utcnow (ticks w)) with
          | (Ok p, st) =>
              (Ok p, {| processes := st;
                        calls := calls w2 ++ [CreateTask (process_id p)];
                        drawn := drawn w2; ticks := ticks w2 |})
          | (Raise e, st) =>
              (Raise (ValidationServiceError
                        ("Failed to initiate validation: " +:+ exn_str e)),
               {| processes := st; calls := calls w2;
                  drawn := drawn w2; ticks := ticks w2 |})
          end
      end
  end.
Proof.
  intros Hv.
  unfold initiate_validation, lift, enrollment_get_by_uuid, process_create,
    record_call, uuid_uuid4, datetime_now, on_repository, try_except, raise.
  unfold mbind, se_bind, mret, se_ret. rewrite Hv. cbn.
  destruct (truthy (get_by_uuid enrollment_repository s)) as [d|]; [|reflexivity].
  cbn. destruct (email_field str_error (dict_get d "email")) as [em|e]; [|reflexivity].
  cbn. destruct (create (processes w) s em (uuid4 (drawn w)) (utcnow (ticks w)))
    as [[p|e] st]; reflexivity.
Qed.

End InitiateValidationFurther.

(** X6: for a string argument, [initiate_validation] returns a process
    or raises one of three exceptions: [InvalidUuidFormatError],
    [EnrollmentNotFoundError], or [ValidationServiceError], which wraps
    whatever the creation of the process raised.  This holds for every
    implementation of the process repository. *)
Theorem initiate_validation_raises_named_errors
        {S : Type} {process_repository : ValidationProcessRepository S}
        (er : EnrollmentRepository) (uuid4 : nat -> string)
        (utcnow : nat -> timestamp)
        (str_error : pyval -> string) (s : string) (w : Sys (S := S)) :
  match fst (initiate_validation er uuid4 utcnow str_error (PyStr s) w) with
  | Ok p => _validate_uuid_format (PyStr s) = Ok true
  | Raise e =>
      is_initiation_error s e
      /\ (e = InvalidUuidFormatError s <-> _validate_uuid_format (PyStr s) = Ok false)
  end.
Proof.
  destruct (validate_uuid_format_str_total s) as [[|] Hv].
  - rewrite (initiate_validation_accepted er uuid4 utcnow str_error s w Hv), Hv. cbn zeta.
    destruct (truthy (get_by_uuid er s)) as [d|]; cbn [fst].
    + destruct (email_field str_error (dict_get d "email")) as [em|e]; cbn [fst].
      * destruct (create (processes w) s em (uuid4 (drawn w)) (utcnow (ticks w)))
          as [[p|e] st]; cbn [fst]; [reflexivity|].
        split; [right; right; eauto|]. split; discriminate.
      * split; [right; right; eauto|]. split; discriminate.
    + split; [right; now left|]. split; discriminate.
  - rewrite (initiate_validation_refused er uuid4 utcnow str_error s w Hv), Hv. cbn [fst].
    split; [now left|]. split; reflexivity.
Qed.

(** X7: for a canonical identifier, [EnrollmentNotFoundError] is raised
    exactly when the enrollment repository answers [None] or an empty
    document; this holds for every implementation of the process
    repository. *)
Theorem initiate_validation_not_found_iff
        {S : Type} {process_repository : ValidationProcessRepository S}
        (er : EnrollmentRepository) (uuid4 : nat -> string)
        (utcnow : nat -> timestamp)
        (str_error : pyval -> string) (s : string) (w : Sys (S := S)) :
  canonical_identifier s ->
  fst (initiate_validation er uuid4 utcnow str_error (PyStr s) w)
  = Raise (EnrollmentNotFoundError s)
  <-> (er.(get_by_uuid) s = None \/ er.(get_by_uuid) s = Some []).
Proof.
  intros Hs.
  assert (Hv : _validate_uuid_format (PyStr s) = Ok true)
    by (apply validate_uuid_format_accepts; now left).
  rewrite (initiate_validation_accepted er uuid4 utcnow str_error s w Hv). cbn zeta.
  destruct (get_by_uuid er s) as [[|kv d]|]; cbn.
  - split; auto.
  - split; [|intros [|]; discriminate].
    destruct (email_field str_error (dict_get (kv :: d) "email")) as [em|e]; cbn;
      [|discriminate].
    destruct (create (processes w) s em (uuid4 (drawn w)) (utcnow (ticks w)))
      as [[p|e] st]; cbn; discriminate.
  - split; auto.
Qed.

Lemma initiate_validation_not_found_iff_witness :
  fst (initiate_validation
         (one_enrollment "12345678-1234-5678-9012-123456789abc" [])
         (fun _ => "p1") sample_clock sample_str_error
         (PyStr "12345678-1234-5678-9012-123456789abc")
         (sys_of InMemoryValidationProcessRepository.init))
  = Raise (EnrollmentNotFoundError "12345678-1234-5678-9012-123456789abc")
  <-> (get_by_uuid (one_enrollment "12345678-1234-5678-9012-123456789abc" [])
                   "12345678-1234-5678-9012-123456789abc" = None
       \/ get_by_uuid (one_enrollment "12345678-1234-5678-9012-123456789abc" [])
                      "12345678-1234-5678-9012-123456789abc" = Some []).
Proof.
  apply (initiate_validation_not_found_iff
           (one_enrollment "12345678-1234-5678-9012-123456789abc" [])
           (fun _ => "p1") sample_clock sample_str_error "12345678-1234-5678-9012-123456789abc"
           (sys_of InMemoryValidationProcessRepository.init)).
  exists "12345678", "1234", "5678", "9012", "123456789abc".
  repeat split; reflexivity.
Defined.

(** X8: when the e-mail of the enrollment document is neither a string
    nor null, the building of the process fails: [ValidationServiceError]
    is raised, its message being "Failed to initiate validation: " followed
    by [str] of the error of the process model for that value; nothing is
    stored and no background task is scheduled.  This holds for every
    implementation of the process repository. *)
Theorem initiate_validation_rejects_email
        {S : Type} {process_repository : ValidationProcessRepository S}
        (er : EnrollmentRepository) (uuid4 : nat -> string)
        (utcnow : nat -> timestamp)
        (str_error : pyval -> string) (s : string) (w : Sys (S := S))
        (d : dict) :
  canonical_identifier s ->
  truthy (er.(get_by_uuid) s) = Some d ->
  dict_get d "email" <> PyNone ->
  (forall m : string, dict_get d "email" <> PyStr m) ->
  fst (initiate_validation er uuid4 utcnow str_error (PyStr s) w)
  = Raise (ValidationServiceError
             ("Failed to initiate validation: "
              +:+ str_error (dict_get d "email")))
  /\ processes (snd (initiate_validation er uuid4 utcnow str_error
                       (PyStr s) w)) = processes w
  /\ calls (snd (initiate_validation er uuid4 utcnow str_error (PyStr s) w))
     = calls w ++ [EnrollmentGetByUuid s; ProcessCreate s (dict_get d "email")]
  /\ existsb is_create_task
       (calls (snd (initiate_validation er uuid4 utcnow str_error
                      (PyStr s) w)))
     = existsb is_create_task (calls w).
Proof.
  intros Hs Hd Hnone Hstr.
  assert (Hv : _validate_uuid_format (PyStr s) = Ok true)
    by (apply validate_uuid_format_accepts; now left).
  assert (He : email_field str_error (dict_get d "email")
               = Raise (PydanticValidationError
                          (str_error (dict_get d "email")))).
  { destruct (dict_get d "email") as [| | |m| |]; try reflexivity;
      [contradiction | now destruct (Hstr m)]. }
  rewrite (initiate_validation_accepted er uuid4 utcnow str_error s w Hv).
  cbn zeta. rewrite Hd, He. cbn. rewrite <- app_assoc.
  split; [reflexivity|]. split; [reflexivity|]. split; [reflexivity|].
  rewrite existsb_app. cbn. apply orb_false_r.
Qed.

Lemma initiate_validation_rejects_email_witness :
  fst (initiate_validation
         (one_enrollment "12345678-1234-5678-9012-123456789abc" numeric_email_enrollment)
         (fun _ => "p1") sample_clock sample_str_error
         (PyStr "12345678-1234-5678-9012-123456789abc")
         (sys_of InMemoryValidationProcessRepository.init))
  = Raise (ValidationServiceError
             ("Failed to initiate validation: "
              +:+ sample_str_error (PyInt 42)))
  /\ processes (snd (initiate_validation
                       (one_enrollment "12345678-1234-5678-9012-123456789abc"
                                       numeric_email_enrollment)
                       (fun _ => "p1") sample_clock sample_str_error
                       (PyStr "12345678-1234-5678-9012-123456789abc")
                       (sys_of InMemoryValidationProcessRepository.init)))
     = InMemoryValidationProcessRepository.init
  /\ calls (snd (initiate_validation
                   (one_enrollment "12345678-1234-5678-9012-123456789abc"
                                   numeric_email_enrollment)
                   (fun _ => "p1") sample_clock sample_str_error
                   (PyStr "12345678-1234-5678-9012-123456789abc")
                   (sys_of InMemoryValidationProcessRepository.init)))
     = [EnrollmentGetByUuid "12345678-1234-5678-9012-123456789abc";
        ProcessCreate "12345678-1234-5678-9012-123456789abc" (PyInt 42)]
  /\ existsb is_create_task
       (calls (snd (initiate_validation
                      (one_enrollment "12345678-1234-5678-9012-123456789abc"
                                      numeric_email_enrollment)
                      (fun _ => "p1") sample_clock sample_str_error
                      (PyStr "12345678-1234-5678-9012-123456789abc")
                      (sys_of InMemoryValidationProcessRepository.init))))
     = false.
Proof.
  apply (initiate_validation_rejects_email
           (one_enrollment "12345678-1234-5678-9012-123456789abc"
                           numeric_email_enrollment)
           (fun _ => "p1") sample_clock sample_str_error
           "12345678-1234-5678-9012-123456789abc"
           (sys_of InMemoryValidationProcessRepository.init)
           numeric_email_enrollment).
  - exists "12345678", "1234", "5678", "9012", "123456789abc".
    repeat split; reflexivity.
  - reflexivity.
  - discriminate.
  - intros m. discriminate.
Defined.

(** ** The background step, further *)

Section InMemoryStepFurther.

Variable er : EnrollmentRepository.
Variable utcnow : nat -> timestamp.
Variable isoformat : timestamp -> string.

(** The process read after the step, with the way the body ended. *)
Lemma step_known_final (w : Sys (S := gmap string ValidationProcess))
      (pid : string) (p : ValidationProcess) :
  processes w !! pid = Some p ->
  exists (t1 t2 : timestamp) (e : StepEnd),
    fst (_perform_validation er utcnow isoformat pid w) = Ok tt
    /\ processes (snd (_perform_validation er utcnow isoformat pid w)) !! pid
       = Some (final_snapshot (updated p IN_PROGRESS t1 None None) t2 e)
    /\ match e with
       | EndMissingRecord => truthy (er.(get_by_uuid) p.(uuid_str)) = None
       | EndException e =>
           exists d, truthy (er.(get_by_uuid) p.(uuid_str)) = Some d
             /\ (py_len (dict_get_default d "students_info" (PyList [])) = Raise e
                 \/ (exists n, py_len (dict_get_default d "students_info" (PyList []))
                               = Ok n)
                    /\ py_get (dict_get_default d "verification" (PyDict []))
                              "verified" (PyBool false) = Raise e)
       | EndPayload payload =>
           exists d n v t,
             truthy (er.(get_by_uuid) p.(uuid_str)) = Some d
             /\ py_len (dict_get_default d "students_info" (PyList [])) = Ok n
             /\ py_get (dict_get_default d "verification" (PyDict []))
                       "verified" (PyBool false) = Ok v
             /\ payload = make_result_data isoformat
                            (updated p IN_PROGRESS t1 None None) d n v t
       end.
Proof.
  intros Hp.
  destruct (step_known er utcnow isoformat w pid p Hp)
    as (t1 & t2 & e & evs & Hrun & Hst & _ & _ & He).
  cbn zeta in Hst, He. exists t1, t2, e.
  split; [now rewrite Hrun|]. split; [|exact He].
  rewrite Hst. apply lookup_insert_eq.
Qed.

End InMemoryStepFurther.

(** X9: the background step touches no other process: what is stored
    under any other identifier is the same before and after, and the
    process it works on keeps its identifier, subject, e-mail and creation
    time. *)
Theorem background_step_frame
        (er : EnrollmentRepository) (utcnow : nat -> timestamp)
        (isoformat : timestamp -> string)
        (w : Sys (S := gmap string ValidationProcess)) (pid : string) :
  (forall q : string,
      q <> pid ->
      processes (snd (_perform_validation er utcnow isoformat pid w)) !! q
      = processes w !! q)
  /\ match processes w !! pid with
     | Some p =>
         exists p', processes (snd (_perform_validation er utcnow isoformat pid w)) !! pid
                    = Some p'
                    /\ same_identity p' p
     | None =>
         processes (snd (_perform_validation er utcnow isoformat pid w)) !! pid = None
     end.
Proof.
  destruct (processes w !! pid) as [p|] eqn:Hp.
  - destruct (step_known er utcnow isoformat w pid p Hp)
      as (t1 & t2 & e & evs & _ & Hst & _).
    cbn zeta in Hst. rewrite Hst. split.
    + intros q Hq. now rewrite !lookup_insert_ne by congruence.
    + eexists. split; [apply lookup_insert_eq|]. destruct e; repeat split.
  - destruct (step_unknown er utcnow isoformat w pid Hp) as (evs & _ & Hst & _).
    rewrite Hst. split; [reflexivity | exact Hp].
Qed.

(** X10: when the enrollment document has a [students_info] that has no
    length (null, a number, a flag), the step fails the process with the
    text of the [TypeError]; the default [[]] serves only when the key is
    missing. *)
Theorem background_step_unsized_students
        (er : EnrollmentRepository) (utcnow : nat -> timestamp)
        (isoformat : timestamp -> string)
        (w : Sys (S := gmap string ValidationProcess)) (pid : string)
        (p : ValidationProcess) (d : dict) (v : pyval) (e : exn) :
  processes w !! pid = Some p ->
  truthy (er.(get_by_uuid) p.(uuid_str)) = Some d ->
  dict_lookup "students_info" d = Some v ->
  py_len v = Raise e ->
  e = TypeError ("object of type '" +:+ type_name v +:+ "' has no len()")
  /\ fst (_perform_validation er utcnow isoformat pid w) = Ok tt
  /\ exists p' : ValidationProcess,
      processes (snd (_perform_validation er utcnow isoformat pid w)) !! pid = Some p'
      /\ status p' = FAILED
      /\ error_message p' = Some (exn_str e)
      /\ result_data p' = None.
Proof.
  intros Hp Hd Hv He.
  assert (Hlen : py_len (dict_get_default d "students_info" (PyList [])) = Raise e)
    by (unfold dict_get_default; now rewrite Hv).
  split.
  { destruct v; cbn in He; try discriminate He; now injection He as <-. }
  destruct (step_known_final er utcnow isoformat w pid p Hp)
    as (t1 & t2 & end_ & Hrun & Hst & Hend).
  split; [exact Hrun|]. eexists. split; [exact Hst|].
  destruct end_ as [|e'|payload].
  - congruence.
  - destruct Hend as (d' & Hd' & [Hl | [[n Hn] _]]).
    + assert (d' = d) by congruence. subst d'.
      assert (e' = e) by congruence. subst e'. repeat split.
    + assert (d' = d) by congruence. subst d'. congruence.
  - destruct Hend as (d' & n & v' & t & Hd' & Hn & _).
    assert (d' = d) by congruence. subst d'. congruence.
Qed.

Lemma background_step_unsized_students_witness :
  TypeError "object of type 'NoneType' has no len()"
  = TypeError ("object of type '" +:+ type_name PyNone +:+ "' has no len()")
  /\ fst (_perform_validation
            (one_enrollment "12345678-1234-5678-9012-123456789abc"
                            null_students_enrollment)
            sample_clock sample_isoformat "p1"
            (sys_of {["p1" := pending_process]})) = Ok tt
  /\ exists p' : ValidationProcess,
      processes (snd (_perform_validation
                        (one_enrollment "12345678-1234-5678-9012-123456789abc"
                                        null_students_enrollment)
                        sample_clock sample_isoformat "p1"
                        (sys_of {["p1" := pending_process]}))) !! "p1" = Some p'
      /\ status p' = FAILED
      /\ error_message p'
         = Some (exn_str (TypeError "object of type 'NoneType' has no len()"))
      /\ result_data p' = None.
Proof.
  apply (background_step_unsized_students
           (one_enrollment "12345678-1234-5678-9012-123456789abc"
                           null_students_enrollment)
           sample_clock sample_isoformat (sys_of {["p1" := pending_process]})
           "p1" pending_process null_students_enrollment PyNone).
  - vm_compute. reflexivity.
  - reflexivity.
  - reflexivity.
  - reflexivity.
Defined.

(** X11: when [students_info] has a length but [verification] is present
    and is not a dictionary, the step fails the process with the text of
    the [AttributeError]. *)
Theorem background_step_verification_not_dict
        (er : EnrollmentRepository) (utcnow : nat -> timestamp)
        (isoformat : timestamp -> string)
        (w : Sys (S := gmap string ValidationProcess)) (pid : string)
        (p : ValidationProcess) (d : dict) (n : Z) (v : pyval) (e : exn) :
  processes w !! pid = Some p ->
  truthy (er.(get_by_uuid) p.(uuid_str)) = Some d ->
  py_len (dict_get_default d "students_info" (PyList [])) = Ok n ->
  dict_lookup "verification" d = Some v ->
  py_get v "verified" (PyBool false) = Raise e ->
  e = AttributeError ("'" +:+ type_name v +:+ "' object has no attribute 'get'")
  /\ fst (_perform_validation er utcnow isoformat pid w) = Ok tt
  /\ exists p' : ValidationProcess,
      processes (snd (_perform_validation er utcnow isoformat pid w)) !! pid = Some p'
      /\ status p' = FAILED
      /\ error_message p' = Some (exn_str e)
      /\ result_data p' = None.
Proof.
  intros Hp Hd Hn Hv He.
  assert (Hget : py_get (dict_get_default d "verification" (PyDict []))
                        "verified" (PyBool false) = Raise e)
    by (unfold dict_get_default; now rewrite Hv).
  split.
  { destruct v; cbn in He; try discriminate He; now injection He as <-. }
  destruct (step_known_final er utcnow isoformat w pid p Hp)
    as (t1 & t2 & end_ & Hrun & Hst & Hend).
  split; [exact Hrun|]. eexists. split; [exact Hst|].
  destruct end_ as [|e'|payload].
  - congruence.
  - destruct Hend as (d' & Hd' & [Hl | [_ Hg]]).
    + assert (d' = d) by congruence. subst d'. congruence.
    + assert (d' = d) by congruence. subst d'.
      assert (e' = e) by congruence. subst e'. repeat split.
  - destruct Hend as (d' & n' & v' & t & Hd' & _ & Hg & _).
    assert (d' = d) by congruence. subst d'. congruence.
Qed.

Lemma background_step_verification_not_dict_witness :
  AttributeError "'bool' object has no attribute 'get'"
  = AttributeError ("'" +:+ type_name (PyBool true) +:+ "' object has no attribute 'get'")
  /\ fst (_perform_validation
            (one_enrollment "12345678-1234-5678-9012-123456789abc"
                            flag_verification_enrollment)
            sample_clock sample_isoformat "p1"
            (sys_of {["p1" := pending_process]})) = Ok tt
  /\ exists p' : ValidationProcess,
      processes (snd (_perform_validation
                        (one_enrollment "12345678-1234-5678-9012-123456789abc"
                                        flag_verification_enrollment)
                        sample_clock sample_isoformat "p1"
                        (sys_of {["p1" := pending_process]}))) !! "p1" = Some p'
      /\ status p' = FAILED
      /\ error_message p'
         = Some (exn_str (AttributeError "'bool' object has no attribute 'get'"))
      /\ result_data p' = None.
Proof.
  apply (background_step_verification_not_dict
           (one_enrollment "12345678-1234-5678-9012-123456789abc"
                           flag_verification_enrollment)
           sample_clock sample_isoformat (sys_of {["p1" := pending_process]})
           "p1" pending_process flag_verification_enrollment 0 (PyBool true)).
  - vm_compute. reflexivity.
  - reflexivity.
  - reflexivity.
  - reflexivity.
  - reflexivity.
Defined.

(** X12: when the enrollment document has neither [students_info] nor
    [verification], the step completes the process: the payload counts no
    student, reports the verification as [False], names the subject, and
    carries the e-mail and the phone of the document, null when missing. *)
Theorem background_step_defaults
        (er : EnrollmentRepository) (utcnow : nat -> timestamp)
        (isoformat : timestamp -> string)
        (w : Sys (S := gmap string ValidationProcess)) (pid : string)
        (p : ValidationProcess) (d : dict) :
  processes w !! pid = Some p ->
  truthy (er.(get_by_uuid) p.(uuid_str)) = Some d ->
  dict_lookup "students_info" d = None ->
  dict_lookup "verification" d = None ->
  fst (_perform_validation er utcnow isoformat pid w) = Ok tt
  /\ exists (p' : ValidationProcess) (payload : dict),
      processes (snd (_perform_validation er utcnow isoformat pid w)) !! pid = Some p'
      /\ status p' = COMPLETED
      /\ error_message p' = None
      /\ result_data p' = Some payload
      /\ dict_lookup "enrollment_validated" payload = Some (PyBool true)
      /\ dict_lookup "enrollment_uuid" payload = Some (PyStr p.(uuid_str))
      /\ dict_lookup "email" payload = Some (dict_get d "email")
      /\ dict_lookup "phone" payload = Some (dict_get d "phone")
      /\ dict_lookup "students_count" payload = Some (PyInt 0)
      /\ dict_lookup "verification_status" payload = Some (PyBool false).
Proof.
  intros Hp Hd Hs Hv.
  assert (Hlen : py_len (dict_get_default d "students_info" (PyList [])) = Ok 0)
    by (unfold dict_get_default; now rewrite Hs).
  assert (Hget : py_get (dict_get_default d "verification" (PyDict []))
                        "verified" (PyBool false) = Ok (PyBool false))
    by (unfold dict_get_default; now rewrite Hv).
  destruct (step_known_final er utcnow isoformat w pid p Hp)
    as (t1 & t2 & end_ & Hrun & Hst & Hend).
  split; [exact Hrun|].
  destruct end_ as [|e'|payload].
  - congruence.
  - destruct Hend as (d' & Hd' & [Hl | [_ Hg]]);
      assert (d' = d) by congruence; subst d'; congruence.
  - destruct Hend as (d' & n & v & t & Hd' & Hn & Hg & ->).
    assert (d' = d) by congruence. subst d'.
    assert (n = 0) by congruence. assert (v = PyBool false) by congruence. subst n v.
    eexists _, _. split; [exact Hst|]. cbn. repeat split.
Qed.

Lemma background_step_defaults_witness :
  fst (_perform_validation
         (one_enrollment "12345678-1234-5678-9012-123456789abc" bare_enrollment)
         sample_clock sample_isoformat "p1"
         (sys_of {["p1" := pending_process]})) = Ok tt
  /\ exists (p' : ValidationProcess) (payload : dict),
      processes (snd (_perform_validation
                        (one_enrollment "12345678-1234-5678-9012-123456789abc"
                                        bare_enrollment)
                        sample_clock sample_isoformat "p1"
                        (sys_of {["p1" := pending_process]}))) !! "p1" = Some p'
      /\ status p' = COMPLETED
      /\ error_message p' = None
      /\ result_data p' = Some payload
      /\ dict_lookup "enrollment_validated" payload = Some (PyBool true)
      /\ dict_lookup "enrollment_uuid" payload = Some (PyStr pending_process.(uuid_str))
      /\ dict_lookup "email" payload = Some (dict_get bare_enrollment "email")
      /\ dict_lookup "phone" payload = Some (dict_get bare_enrollment "phone")
      /\ dict_lookup "students_count" payload = Some (PyInt 0)
      /\ dict_lookup "verification_status" payload = Some (PyBool false).
Proof.
  apply (background_step_defaults
           (one_enrollment "12345678-1234-5678-9012-123456789abc" bare_enrollment)
           sample_clock sample_isoformat (sys_of {["p1" := pending_process]})
           "p1" pending_process bare_enrollment).
  - vm_compute. reflexivity.
  - reflexivity.
  - reflexivity.
  - reflexivity.
Defined.

(** ** From the request to the final status *)

(** X13: for a canonical identifier with a non-empty enrollment document
    whose e-mail is a string or null, [initiate_validation] on the
    in-memory repository returns a Pending process for that subject, with
    the identifier just drawn and the e-mail of the document, stores it
    under that identifier, and schedules one background task, for it. *)
Theorem initiate_validation_creates_pending
        (er : EnrollmentRepository) (uuid4 : nat -> string)
        (utcnow : nat -> timestamp)
        (str_error : pyval -> string) (s : string)
        (w : Sys (S := gmap string ValidationProcess)) (d : dict)
        (em : option string) :
  canonical_identifier s ->
  truthy (er.(get_by_uuid) s) = Some d ->
  email_field str_error (dict_get d "email") = Ok em ->
  exists p : ValidationProcess,
    fst (initiate_validation er uuid4 utcnow str_error (PyStr s) w) = Ok p
    /\ p = {| process_id := uuid4 (drawn w); uuid_str := s; email := em;
              status := PENDING; created_at := utcnow (ticks w);
              updated_at := None; error_message := None; result_data := None |}
    /\ processes (snd (initiate_validation er uuid4 utcnow str_error (PyStr s) w))
       = <[uuid4 (drawn w) := p]> (processes w)
    /\ calls (snd (initiate_validation er uuid4 utcnow str_error (PyStr s) w))
       = calls w ++ [EnrollmentGetByUuid s; ProcessCreate s (dict_get d "email");
                     CreateTask (uuid4 (drawn w))].
Proof.
  intros Hs Hd He.
  assert (Hv : _validate_uuid_format (PyStr s) = Ok true)
    by (apply validate_uuid_format_accepts; now left).
  rewrite (initiate_validation_accepted er uuid4 utcnow str_error s w Hv). cbn zeta.
  rewrite Hd, He. cbn. eexists. split; [reflexivity|]. split; [reflexivity|].
  split; [reflexivity|]. now rewrite <- !app_assoc.
Qed.

Lemma initiate_validation_creates_pending_witness :
  exists p : ValidationProcess,
    fst (initiate_validation
           (one_enrollment "12345678-1234-5678-9012-123456789abc" sample_enrollment)
           (fun _ => "p1") sample_clock sample_str_error
           (PyStr "12345678-1234-5678-9012-123456789abc")
           (sys_of InMemoryValidationProcessRepository.init)) = Ok p
    /\ p = {| process_id := "p1";
              uuid_str := "12345678-1234-5678-9012-123456789abc";
              email := Some "a@b.c"; status := PENDING;
              created_at := sample_clock 0;
              updated_at := None; error_message := None; result_data := None |}
    /\ processes (snd (initiate_validation
                         (one_enrollment "12345678-1234-5678-9012-123456789abc"
                                         sample_enrollment)
                         (fun _ => "p1") sample_clock sample_str_error
                         (PyStr "12345678-1234-5678-9012-123456789abc")
                         (sys_of InMemoryValidationProcessRepository.init)))
       = <["p1" := p]> (processes (sys_of InMemoryValidationProcessRepository.init))
    /\ calls (snd (initiate_validation
                     (one_enrollment "12345678-1234-5678-9012-123456789abc"
                                     sample_enrollment)
                     (fun _ => "p1") sample_clock sample_str_error
                     (PyStr "12345678-1234-5678-9012-123456789abc")
                     (sys_of InMemoryValidationProcessRepository.init)))
       = calls (sys_of InMemoryValidationProcessRepository.init)
         ++ [EnrollmentGetByUuid "12345678-1234-5678-9012-123456789abc";
             ProcessCreate "12345678-1234-5678-9012-123456789abc"
                           (dict_get sample_enrollment "email");
             CreateTask "p1"].
Proof.
  apply (initiate_validation_creates_pending
           (one_enrollment "12345678-1234-5678-9012-123456789abc" sample_enrollment)
           (fun _ => "p1") sample_clock sample_str_error "12345678-1234-5678-9012-123456789abc"
           (sys_of InMemoryValidationProcessRepository.init)
           sample_enrollment (Some "a@b.c")).
  - exists "12345678", "1234", "5678", "9012", "123456789abc".
    repeat split; reflexivity.
  - reflexivity.
  - reflexivity.
Defined.

(** X14: the whole course on the in-memory repository.  After
    [initiate_validation] has succeeded, the background step run for the
    identifier it returned ends normally, whatever the enrollment
    repository answers by then, and [get_validation_status] then reads a
    process in a terminal state that satisfies the snapshot invariant and
    still has the identifier, subject, e-mail and creation time of the
    process first returned. *)
Theorem validation_runs_to_terminal_status
        (er er' : EnrollmentRepository) (uuid4 : nat -> string)
        (utcnow : nat -> timestamp)
        (str_error : pyval -> string) (isoformat : timestamp -> string) (s : string)
        (w : Sys (S := gmap string ValidationProcess)) (d : dict)
        (em : option string) :
  canonical_identifier s ->
  truthy (er.(get_by_uuid) s) = Some d ->
  email_field str_error (dict_get d "email") = Ok em ->
  exists (p p' : ValidationProcess),
    fst (initiate_validation er uuid4 utcnow str_error (PyStr s) w) = Ok p
    /\ fst (_perform_validation er' utcnow isoformat (process_id p)
              (snd (initiate_validation er uuid4 utcnow str_error (PyStr s) w))) = Ok tt
    /\ fst (get_validation_status (process_id p)
              (snd (_perform_validation er' utcnow isoformat (process_id p)
                      (snd (initiate_validation er uuid4 utcnow str_error (PyStr s) w)))))
       = Ok (Some p')
    /\ is_terminal (status p') = true
    /\ snapshot_ok p' = true
    /\ same_identity p' p
    /\ uuid_str p' = s.
Proof.
  intros Hs Hd He.
  assert (Hv : _validate_uuid_format (PyStr s) = Ok true)
    by (apply validate_uuid_format_accepts; now left).
  rewrite (initiate_validation_accepted er uuid4 utcnow str_error s w Hv). cbn zeta.
  rewrite Hd, He. cbn [create in_memory_repository
                        InMemoryValidationProcessRepository.create fst snd].
  set (p := {| process_id := uuid4 (drawn w); uuid_str := s; email := em;
               status := PENDING; created_at := utcnow (ticks w);
               updated_at := None; error_message := None; result_data := None |}).
  set (w1 := Build_Sys _ _ _ _).
  assert (Hp : processes w1 !! process_id p = Some p) by apply lookup_insert_eq.
  destruct (step_known_final er' utcnow isoformat w1 (process_id p) p Hp)
    as (t1 & t2 & e & Hrun & Hst & _).
  eexists p, _. split; [reflexivity|]. split; [exact Hrun|].
  unfold get_validation_status, process_get_by_id, record_call, on_repository,
    mbind, se_bind. cbn [fst snd processes get_by_id in_memory_repository].
  unfold InMemoryValidationProcessRepository.get_by_id.
  split; [now rewrite Hst|].
  destruct e; repeat split.
Qed.

Lemma validation_runs_to_terminal_status_witness :
  exists (p p' : ValidationProcess),
    fst (initiate_validation
           (one_enrollment "12345678-1234-5678-9012-123456789abc" sample_enrollment)
           (fun _ => "p1") sample_clock sample_str_error
           (PyStr "12345678-1234-5678-9012-123456789abc")
           (sys_of InMemoryValidationProcessRepository.init)) = Ok p
    /\ fst (_perform_validation no_enrollment sample_clock sample_isoformat
              (process_id p)
              (snd (initiate_validation
                      (one_enrollment "12345678-1234-5678-9012-123456789abc"
                                      sample_enrollment)
                      (fun _ => "p1") sample_clock sample_str_error
                      (PyStr "12345678-1234-5678-9012-123456789abc")
                      (sys_of InMemoryValidationProcessRepository.init)))) = Ok tt
    /\ fst (get_validation_status (process_id p)
              (snd (_perform_validation no_enrollment sample_clock sample_isoformat
                      (process_id p)
                      (snd (initiate_validation
                              (one_enrollment "12345678-1234-5678-9012-123456789abc"
                                              sample_enrollment)
                              (fun _ => "p1") sample_clock sample_str_error
                              (PyStr "12345678-1234-5678-9012-123456789abc")
                              (sys_of InMemoryValidationProcessRepository.init))))))
       = Ok (Some p')
    /\ is_terminal (status p') = true
    /\ snapshot_ok p' = true
    /\ same_identity p' p
    /\ uuid_str p' = "12345678-1234-5678-9012-123456789abc".
Proof.
  apply (validation_runs_to_terminal_status
           (one_enrollment "12345678-1234-5678-9012-123456789abc" sample_enrollment)
           no_enrollment (fun _ => "p1") sample_clock sample_str_error sample_isoformat
           "12345678-1234-5678-9012-123456789abc"
           (sys_of InMemoryValidationProcessRepository.init)
           sample_enrollment (Some "a@b.c")).
  - exists "12345678", "1234", "5678", "9012", "123456789abc".
    repeat split; reflexivity.
  - reflexivity.
  - reflexivity.
Defined.

(** ** The endpoints *)

(** Dropping [IGNORECASE] only loses matches. *)
Lemma take_set_ignorecase (ranges : list (ascii * ascii)) (n : nat) (s s' : string) :
  Re.take_set false ranges n s = Some s' -> Re.take_set true ranges n s = Some s'.
Proof.
  revert s. induction n as [|n IH]; intros s; cbn; [trivial|].
  destruct s as [|c s]; [discriminate|].
  unfold Re.in_set. cbn [andb orb]. rewrite orb_false_r.
  destruct (existsb (Re.in_range c) ranges); [|discriminate]. cbn. apply IH.
Qed.

Lemma match_here_ignorecase (p : list Re.item) (pos : nat) (s : string) :
  Re.match_here false p pos s = true -> Re.match_here true p pos s = true.
Proof.
  revert pos s. induction p as [|it p IH]; intros pos s; [trivial|].
  destruct it as [| |c|ranges n]; cbn [Re.match_here].
  - intros H. apply andb_prop in H as [-> H]. now apply IH.
  - intros H. apply andb_prop in H as [-> H]. now apply IH.
  - destruct s as [|d s]; [discriminate|].
    intros H. apply andb_prop in H as [Hc H].
    unfold Re.lit_eq in *. cbn [andb] in Hc. rewrite orb_false_r in Hc.
    rewrite Hc. cbn. now apply IH.
  - destruct (Re.take_set false ranges n s) as [s'|] eqn:E; [|discriminate].
    rewrite (take_set_ignorecase _ _ _ _ E). apply IH.
Qed.

(** What the request model lets through, the format check of the service
    accepts; the converse fails on upper-case digits. *)
Lemma request_uuid_ok_accepted (s : string) :
  request_uuid_ok s = true -> _validate_uuid_format (PyStr s) = Ok true.
Proof.
  unfold request_uuid_ok, _validate_uuid_format, Re.re_match. intros H.
  apply andb_prop in H as [_ H]. now rewrite (match_here_ignorecase _ _ _ H).
Qed.

(** The identifiers are plain ASCII: their length in characters is their
    length in bytes. *)
Lemma hex_digit_is_not_continuation (c : ascii) :
  is_hex_digit c = true -> is_continuation c = false.
Proof.
  destruct c as [b0 b1 b2 b3 b4 b5 b6 b7].
  destruct b7; [|reflexivity].
  destruct b0, b1, b2, b3, b4, b5, b6; cbn; discriminate.
Qed.

Lemma str_len_append (a b : string) :
  str_len (a +:+ b) = (str_len a + str_len b)%nat.
Proof.
  induction a as [|x a IH]; [reflexivity|].
  rewrite append_cons. cbn [str_len]. rewrite IH.
  now destruct (is_continuation x).
Qed.

Lemma all_hex_str_len (g : string) :
  all_hex g = true -> str_len g = String.length g.
Proof.
  induction g as [|c g IH]; [reflexivity|]. cbn [all_hex str_len String.length].
  intros H. apply andb_prop in H as [Hc Hg].
  now rewrite (hex_digit_is_not_continuation c Hc), (IH Hg).
Qed.

Lemma canonical_identifier_str_len (s : string) :
  canonical_identifier s -> str_len s = 36%nat.
Proof.
  intros (g1 & g2 & g3 & g4 & g5 & -> & [L1 H1] & [L2 H2] & [L3 H3] & [L4 H4]
          & [L5 H5]).
  rewrite !str_len_append.
  rewrite (all_hex_str_len g1 H1), (all_hex_str_len g2 H2), (all_hex_str_len g3 H3),
    (all_hex_str_len g4 H4), (all_hex_str_len g5 H5), L1, L2, L3, L4, L5.
  reflexivity.
Qed.

(** With 36 characters asked for, the request model accepts canonical
    identifiers only: the string that ends in a newline, which [$] lets
    the pattern match, is too long. *)
Lemma request_uuid_ok_canonical (s : string) :
  request_uuid_ok s = true -> canonical_identifier s.
Proof.
  unfold request_uuid_ok. intros H.
  apply andb_prop in H as [H Hm]. apply andb_prop in H as [_ Hmax].
  apply Nat.leb_le in Hmax.
  assert (Hv : _validate_uuid_format (PyStr s) = Ok true).
  { unfold _validate_uuid_format, Re.re_match in *.
    now rewrite (match_here_ignorecase _ _ _ Hm). }
  apply validate_uuid_format_accepts in Hv as [Hs | (u & Hu & ->)]; [exact Hs|].
  rewrite str_len_append, (canonical_identifier_str_len u Hu) in Hmax.
  cbn in Hmax. lia.
Qed.

Lemma request_refuses_upper_case :
  request_uuid_ok "12345678-1234-5678-9012-123456789ABC" = false
  /\ _validate_uuid_format (PyStr "12345678-1234-5678-9012-123456789ABC") = Ok true.
Proof. split; reflexivity. Qed.

Lemma parse_request_some (s : string) :
  request_uuid_ok s = true ->
  exists request, parse_request s = Some request /\ request_uuid_str request = s.
Proof.
  intros H. unfold parse_request.
  destruct (bool_dec (request_uuid_ok s) true) as [valid|Hno]; [|contradiction].
  eexists. split; reflexivity.
Qed.

Lemma parse_request_none (s : string) :
  request_uuid_ok s = false -> parse_request s = None.
Proof.
  intros H. unfold parse_request.
  destruct (bool_dec (request_uuid_ok s) true) as [valid|Hno]; [congruence | reflexivity].
Qed.

(** X15: what [POST /api/validate] answers for a JSON body whose
    [uuid_str] is a string, when the service is available, with every
    implementation of the process repository.  A string that the request
    model refuses is answered with 422 and nothing else happens.  A string
    it lets through also passes the format check of the service, so that
    400 [INVALID_UUID_FORMAT] is never the answer: the service runs, and
    the answer is 200 with the process returned, or the JSON of 404
    [ENROLLMENT_NOT_FOUND] or of 500 [SERVICE_ERROR].  The generic 500 of
    the endpoint is never sent. *)
Theorem validate_enrollment_answers
        {S : Type} {process_repository : ValidationProcessRepository S}
        (er : EnrollmentRepository) (uuid4 : nat -> string)
        (utcnow : nat -> timestamp)
        (str_error : pyval -> string) (s : string) (w : Sys (S := S)) :
  if request_uuid_ok s
  then
    _validate_uuid_format (PyStr s) = Ok true
    /\ snd (post_api_validate er uuid4 utcnow str_error true s w)
       = snd (initiate_validation er uuid4 utcnow str_error (PyStr s) w)
    /\ match fst (initiate_validation er uuid4 utcnow str_error
                    (PyStr s) w) with
       | Ok p =>
           fst (post_api_validate er uuid4 utcnow str_error true s w)
           = {| http_status_code := 200;
                http_body :=
                  BodyProcess
                    {| response_process_id := process_id p;
                       response_uuid_str := uuid_str p;
                       response_email := email p;
                       response_status := status p;
                       response_created_at := created_at p;
                       response_message :=
                         "Validation process initiated successfully" |} |}
       | Raise e =>
           fst (post_api_validate er uuid4 utcnow str_error true s w)
           = {| http_status_code := status_code e;
                http_body := BodyJson [("error", PyStr (exn_str e));
                                       ("code", match error_code e with
                                                | Some c => PyStr c
                                                | None => PyNone
                                                end);
                                       ("detail", PyNone)] |}
           /\ ((status_code e = 404 /\ error_code e = Some "ENROLLMENT_NOT_FOUND")
               \/ (status_code e = 500 /\ error_code e = Some "SERVICE_ERROR"))
       end
  else
    post_api_validate er uuid4 utcnow str_error true s w
    = ({| http_status_code := 422; http_body := BodyRequestErrors |}, w).
Proof.
  destruct (request_uuid_ok s) eqn:Hreq.
  - pose proof (request_uuid_ok_accepted s Hreq) as Hv.
    destruct (parse_request_some s Hreq) as (request & Hparse & Hstr).
    split; [exact Hv|].
    unfold post_api_validate, validate_enrollment. rewrite Hparse, Hstr. cbn [negb].
    rewrite (initiate_validation_accepted er uuid4 utcnow str_error s w Hv).
    cbn zeta.
    destruct (truthy (get_by_uuid er s)) as [d|]; cbn [fst snd].
    + destruct (email_field str_error (dict_get d "email")) as [em|e];
        cbn [fst snd].
      * destruct (create (processes w) s em (uuid4 (drawn w)) (utcnow (ticks w)))
          as [[p|e] st]; cbn [fst snd]; split; try reflexivity.
        split; [reflexivity|]. right. split; reflexivity.
      * split; [reflexivity|]. split; [reflexivity|]. right. split; reflexivity.
    + split; [reflexivity|]. split; [reflexivity|]. left. split; reflexivity.
  - unfold post_api_validate. now rewrite (parse_request_none s Hreq).
Qed.

(** Without a service, both endpoint functions raise 503 and touch
    nothing. *)
Lemma endpoints_unavailable
      {S : Type} {process_repository : ValidationProcessRepository S}
      (er : EnrollmentRepository) (uuid4 : nat -> string)
      (utcnow : nat -> timestamp) (str_error : pyval -> string)
      (request : ValidateStudentRequest) (s : string) (w : Sys (S := S)) :
  validate_enrollment er uuid4 utcnow str_error false request w
  = (RaiseHTTP 503 "Validation service not available", w)
  /\ get_validation_status_endpoint false s w
     = (RaiseHTTP 503 "Validation service not available", w).
Proof. split; reflexivity. Qed.

(** The text of the exceptions the body of the step can raise is not
    empty. *)
Lemma py_len_error_text (v : pyval) (e : exn) :
  py_len v = Raise e -> exn_str e <> "".
Proof. destruct v; cbn; intros [= <-]; discriminate. Qed.

Lemma py_get_error_text (v : pyval) (k : string) (dflt : pyval) (e : exn) :
  py_get v k dflt = Raise e -> exn_str e <> "".
Proof. destruct v; cbn; intros [= <-]; discriminate. Qed.

(** X16: polling after the background step, on the in-memory repository.
    For a stored identifier, [GET /api/validate/{process_id}] then answers
    200 with the status of the process, and the message is either the one
    of completion or "Validation process failed: " followed by the stored
    message, which is never replaced by "Unknown error". *)
Theorem status_endpoint_after_step
        (er : EnrollmentRepository) (utcnow : nat -> timestamp)
        (isoformat : timestamp -> string)
        (w : Sys (S := gmap string ValidationProcess)) (pid : string)
        (p : ValidationProcess) :
  processes w !! pid = Some p ->
  exists (r : ValidationProcessResponse) (p' : ValidationProcess),
    send (fst (get_validation_status_endpoint true pid
                 (snd (_perform_validation er utcnow isoformat pid w))))
    = {| http_status_code := 200; http_body := BodyProcess r |}
    /\ processes (snd (_perform_validation er utcnow isoformat pid w)) !! pid = Some p'
    /\ response_process_id r = process_id p
    /\ response_uuid_str r = uuid_str p
    /\ response_status r = status p'
    /\ ((status p' = COMPLETED
         /\ response_message r = "Validation process completed successfully")
        \/ (status p' = FAILED
            /\ exists m, error_message p' = Some m /\ m <> ""
                         /\ response_message r = "Validation process failed: " +:+ m)).
Proof.
  intros Hp.
  destruct (step_known_final er utcnow isoformat w pid p Hp)
    as (t1 & t2 & e & _ & Hst & He).
  unfold get_validation_status_endpoint, get_validation_status, process_get_by_id,
    record_call, on_repository, mbind, se_bind.
  cbn [negb fst snd processes get_by_id in_memory_repository].
  unfold InMemoryValidationProcessRepository.get_by_id. rewrite Hst.
  cbn [fst send]. eexists _, _. split; [reflexivity|]. split; [reflexivity|].
  cbn [response_process_id response_uuid_str response_status response_message].
  destruct e as [|e|payload]; cbn.
  - repeat split. right. split; [reflexivity|]. eexists. repeat split. discriminate.
  - repeat split. right. split; [reflexivity|].
    assert (Hne : exn_str e <> "").
    { destruct He as (d & _ & [Hl | [_ Hg]]);
        [eapply py_len_error_text | eapply py_get_error_text]; eassumption. }
    exists (exn_str e). repeat split; [exact Hne|].
    unfold status_message, message_or_unknown. cbn.
    destruct (exn_str e); [contradiction | reflexivity].
  - repeat split. now left.
Qed.

Lemma status_endpoint_after_step_witness :
  exists (r : ValidationProcessResponse) (p' : ValidationProcess),
    send (fst (get_validation_status_endpoint true "p1"
                 (snd (_perform_validation no_enrollment sample_clock sample_isoformat
                         "p1" (sys_of {["p1" := pending_process]})))))
    = {| http_status_code := 200; http_body := BodyProcess r |}
    /\ processes (snd (_perform_validation no_enrollment sample_clock sample_isoformat
                         "p1" (sys_of {["p1" := pending_process]}))) !! "p1" = Some p'
    /\ response_process_id r = process_id pending_process
    /\ response_uuid_str r = uuid_str pending_process
    /\ response_status r = status p'
    /\ ((status p' = COMPLETED
         /\ response_message r = "Validation process completed successfully")
        \/ (status p' = FAILED
            /\ exists m, error_message p' = Some m /\ m <> ""
                         /\ response_message r = "Validation process failed: " +:+ m)).
Proof.
  apply (status_endpoint_after_step no_enrollment sample_clock sample_isoformat
           (sys_of {["p1" := pending_process]}) "p1" pending_process).
  vm_compute. reflexivity.
Defined.

(** [GET /api/validate/{process_id}] on the in-memory repository:
    404 with the name of the identifier when nothing is stored under it,
    otherwise 200 with the fields of the stored process; neither the
    payload nor the update time is part of the answer, and a Failed
    process without message, or with the empty one, is reported with
    "Unknown error".  The store is not changed. *)
Lemma status_endpoint_answers
        (w : Sys (S := gmap string ValidationProcess)) (pid : string) :
  processes (snd (get_validation_status_endpoint true pid w)) = processes w
  /\ match processes w !! pid with
     | None =>
         send (fst (get_validation_status_endpoint true pid w))
         = {| http_status_code := 404;
              http_body :=
                BodyJson [("detail",
                           PyStr ("Validation process " +:+ pid +:+ " not found"))] |}
     | Some p =>
         send (fst (get_validation_status_endpoint true pid w))
         = {| http_status_code := 200;
              http_body :=
                BodyProcess
                  {| response_process_id := process_id p;
                     response_uuid_str := uuid_str p;
                     response_email := email p;
                     response_status := status p;
                     response_created_at := created_at p;
                     response_message := status_message p |} |}
         /\ (status p = FAILED ->
             (error_message p = None \/ error_message p = Some "") ->
             status_message p = "Validation process failed: Unknown error")
     end.
Proof.
  unfold get_validation_status_endpoint, get_validation_status, process_get_by_id,
    record_call, on_repository, mbind, se_bind.
  cbn [negb fst snd processes get_by_id in_memory_repository].
  unfold InMemoryValidationProcessRepository.get_by_id.
  destruct (processes w !! pid) as [p|]; cbn; [|split; reflexivity].
  split; [reflexivity|]. split; [reflexivity|].
  intros Hs [Hm | Hm]; unfold status_message; now rewrite Hs, Hm.
Qed.

(** ** The enrollment repository on MongoDB *)

Lemma dict_del_lookup_eq (d : dict) (key : string) :
  dict_lookup key (MongoEnrollmentRepository.dict_del d key) = None.
Proof.
  induction d as [|[k v] d IH]; cbn; [reflexivity|].
  destruct (String.eqb k key) eqn:E; [exact IH|]. cbn. now rewrite E.
Qed.

Lemma dict_del_lookup_ne (d : dict) (key k : string) :
  k <> key ->
  dict_lookup k (MongoEnrollmentRepository.dict_del d key) = dict_lookup k d.
Proof.
  intros Hne. induction d as [|[k' v] d IH]; cbn; [reflexivity|].
  destruct (String.eqb k' key) eqn:E; cbn.
  - apply String.eqb_eq in E. subst k'.
    destruct (String.eqb key k) eqn:E'; [|exact IH].
    apply String.eqb_eq in E'. congruence.
  - destruct (String.eqb k' k); [reflexivity | exact IH].
Qed.

Lemma find_one_matches (u : string) (c : MongoEnrollmentRepository.collection)
      (doc : dict) :
  MongoEnrollmentRepository.find_one u c = Some doc ->
  In doc c /\ MongoEnrollmentRepository.document_matches doc u = true.
Proof.
  induction c as [|x c IH]; cbn; [discriminate|].
  destruct (MongoEnrollmentRepository.document_matches x u) eqn:E.
  - intros [= <-]. auto.
  - intros H. destruct (IH H). auto.
Qed.

Lemma find_one_none (u : string) (c : MongoEnrollmentRepository.collection) :
  MongoEnrollmentRepository.find_one u c = None <->
  forall doc, In doc c -> MongoEnrollmentRepository.document_matches doc u = false.
Proof.
  induction c as [|x c IH]; cbn.
  - split; [intros _ doc [] | reflexivity].
  - destruct (MongoEnrollmentRepository.document_matches x u) eqn:E.
    + split; [discriminate|]. intros H. specialize (H x (or_introl eq_refl)). congruence.
    + rewrite IH. split.
      * intros H doc [<- | Hin]; auto.
      * intros H doc Hin. apply H. now right.
Qed.

(** A document returned by [get_by_uuid] has at least its [uuid_str]. *)
Lemma mongo_get_by_uuid_document_nonempty
      (c : result MongoEnrollmentRepository.collection) (u : string) (d : dict) :
  MongoEnrollmentRepository.get_by_uuid c u = Some d ->
  exists kv d', d = kv :: d'.
Proof.
  unfold MongoEnrollmentRepository.get_by_uuid.
  destruct c as [docs|e]; [|discriminate].
  destruct (MongoEnrollmentRepository.find_one u docs) as [[|kv doc]|] eqn:Hf;
    [discriminate | | discriminate].
  intros Hd.
  assert (d = MongoEnrollmentRepository.dict_del (kv :: doc) "_id") by congruence.
  subst d. clear Hd. apply find_one_matches in Hf as [_ Hm].
  assert (Hm' : MongoEnrollmentRepository.document_matches
                  (MongoEnrollmentRepository.dict_del (kv :: doc) "_id") u = true).
  { unfold MongoEnrollmentRepository.document_matches in *.
    rewrite dict_del_lookup_ne by discriminate. exact Hm. }
  destruct (MongoEnrollmentRepository.dict_del (kv :: doc) "_id") as [|kv' d'];
    [discriminate Hm' | eauto].
Qed.

(** X17: what [get_by_uuid] returns is a stored document that matches
    the identifier, without its [_id] and with every other field as
    stored; it is never empty, so that for the service "not found" means
    exactly that [get_by_uuid] answered [None]. *)
Theorem mongo_get_by_uuid_returns_document
        (c : result MongoEnrollmentRepository.collection) (u : string) (d : dict) :
  MongoEnrollmentRepository.get_by_uuid c u = Some d ->
  (exists docs doc,
      c = Ok docs /\ In doc docs
      /\ MongoEnrollmentRepository.document_matches doc u = true
      /\ d = MongoEnrollmentRepository.dict_del doc "_id")
  /\ dict_lookup "_id" d = None
  /\ MongoEnrollmentRepository.document_matches d u = true
  /\ d <> []
  /\ truthy (MongoEnrollmentRepository.get_by_uuid c u) = Some d.
Proof.
  unfold MongoEnrollmentRepository.get_by_uuid.
  destruct c as [docs|e]; [|discriminate].
  destruct (MongoEnrollmentRepository.find_one u docs) as [[|kv doc]|] eqn:Hf;
    [discriminate | | discriminate].
  intros Hd.
  assert (d = MongoEnrollmentRepository.dict_del (kv :: doc) "_id") by congruence.
  subst d. clear Hd. apply find_one_matches in Hf as [Hin Hm].
  assert (Hm' : MongoEnrollmentRepository.document_matches
                  (MongoEnrollmentRepository.dict_del (kv :: doc) "_id") u = true).
  { unfold MongoEnrollmentRepository.document_matches in *.
    rewrite dict_del_lookup_ne by discriminate. exact Hm. }
  assert (Hne : MongoEnrollmentRepository.dict_del (kv :: doc) "_id" <> []).
  { intros Hnil. rewrite Hnil in Hm'. discriminate Hm'. }
  split; [now exists docs, (kv :: doc)|].
  split; [apply dict_del_lookup_eq|]. split; [exact Hm'|]. split; [exact Hne|].
  destruct (MongoEnrollmentRepository.dict_del (kv :: doc) "_id");
    [contradiction | reflexivity].
Qed.

Lemma mongo_get_by_uuid_returns_document_witness :
  (exists docs doc,
      Ok sample_enrollments = Ok docs /\ In doc docs
      /\ MongoEnrollmentRepository.document_matches
           doc "87654321-4321-8765-2109-cba987654321" = true
      /\ [("uuid_str", PyStr "87654321-4321-8765-2109-cba987654321");
          ("phone", PyStr "555-0100")]
         = MongoEnrollmentRepository.dict_del doc "_id")
  /\ dict_lookup "_id" [("uuid_str", PyStr "87654321-4321-8765-2109-cba987654321");
                        ("phone", PyStr "555-0100")] = None
  /\ MongoEnrollmentRepository.document_matches
       [("uuid_str", PyStr "87654321-4321-8765-2109-cba987654321");
        ("phone", PyStr "555-0100")]
       "87654321-4321-8765-2109-cba987654321" = true
  /\ [("uuid_str", PyStr "87654321-4321-8765-2109-cba987654321");
      ("phone", PyStr "555-0100")] <> []
  /\ truthy (MongoEnrollmentRepository.get_by_uuid
               (Ok sample_enrollments) "87654321-4321-8765-2109-cba987654321")
     = Some [("uuid_str", PyStr "87654321-4321-8765-2109-cba987654321");
             ("phone", PyStr "555-0100")].
Proof.
  apply (mongo_get_by_uuid_returns_document
           (Ok sample_enrollments) "87654321-4321-8765-2109-cba987654321").
  reflexivity.
Defined.

(** X18: [exists] answers [True] exactly when the collection is reached
    and holds a document that matches the identifier; every string that
    [get_all_uuids] lists exists; and when the collection is not reached,
    [exists] answers [False] and [get_all_uuids] the empty list, as for an
    empty collection. *)
Theorem mongo_exists_and_listing
        (c : result MongoEnrollmentRepository.collection) (u : string) :
  (MongoEnrollmentRepository.exists_ c u = true <->
   exists docs doc, c = Ok docs /\ In doc docs
                    /\ MongoEnrollmentRepository.document_matches doc u = true)
  /\ (In (PyStr u) (MongoEnrollmentRepository.get_all_uuids c) ->
      MongoEnrollmentRepository.exists_ c u = true)
  /\ (forall e, c = Raise e ->
        MongoEnrollmentRepository.exists_ c u = false
        /\ MongoEnrollmentRepository.get_all_uuids c = []
        /\ MongoEnrollmentRepository.exists_ (Ok []) u = false
        /\ MongoEnrollmentRepository.get_all_uuids (Ok []) = []).
Proof.
  assert (Hex : MongoEnrollmentRepository.exists_ c u = true <->
                exists docs doc, c = Ok docs /\ In doc docs
                  /\ MongoEnrollmentRepository.document_matches doc u = true).
  { unfold MongoEnrollmentRepository.exists_, MongoEnrollmentRepository.get_by_uuid.
    destruct c as [docs|e].
    - destruct (MongoEnrollmentRepository.find_one u docs) as [doc|] eqn:Hf.
      + apply find_one_matches in Hf as [Hin Hm].
        destruct doc as [|kv doc]; [discriminate Hm|].
        split; [|reflexivity]. intros _. now exists docs, (kv :: doc).
      + split; [discriminate|]. intros (docs' & doc & [= <-] & Hin & Hm).
        rewrite find_one_none in Hf. rewrite (Hf doc Hin) in Hm. discriminate.
    - split; [discriminate|]. intros (docs & doc & [=] & _). }
  split; [exact Hex|]. split.
  - intros Hin. apply Hex. destruct c as [docs|e]; [|destruct Hin].
    cbn in Hin. apply in_flat_map in Hin as (doc & Hdoc & Hv).
    exists docs, doc. split; [reflexivity|]. split; [exact Hdoc|].
    unfold MongoEnrollmentRepository.document_matches.
    destruct (dict_lookup "uuid_str" doc) as [v|]; [|destruct Hv].
    destruct Hv as [-> | []]. cbn. apply String.eqb_refl.
  - intros e ->. repeat split.
Qed.

(** X19: the service on this repository, with any process repository:
    for a canonical identifier, [EnrollmentNotFoundError] is raised
    exactly when [exists] answers [False], be it that no document matches
    or that the collection could not be reached. *)
Theorem initiate_validation_not_found_iff_not_exists
        {S : Type} {process_repository : ValidationProcessRepository S}
        (c : result MongoEnrollmentRepository.collection) (uuid4 : nat -> string)
        (utcnow : nat -> timestamp)
        (str_error : pyval -> string) (s : string) (w : Sys (S := S)) :
  canonical_identifier s ->
  fst (initiate_validation (mongo_enrollment_repository c) uuid4 utcnow str_error (PyStr s) w)
  = Raise (EnrollmentNotFoundError s)
  <-> MongoEnrollmentRepository.exists_ c s = false.
Proof.
  intros Hs.
  assert (Hv : _validate_uuid_format (PyStr s) = Ok true)
    by (apply validate_uuid_format_accepts; now left).
  rewrite (initiate_validation_accepted (mongo_enrollment_repository c)
             uuid4 utcnow str_error s w Hv). cbn zeta.
  unfold MongoEnrollmentRepository.exists_. cbn [get_by_uuid mongo_enrollment_repository].
  destruct (MongoEnrollmentRepository.get_by_uuid c s) as [d|] eqn:Hg.
  - destruct (mongo_get_by_uuid_document_nonempty c s d Hg) as [kv [d' ->]].
    cbn [truthy].
    split; [|discriminate].
    destruct (email_field str_error (dict_get (kv :: d') "email")) as [em|e]; cbn;
      [|discriminate].
    destruct (create (processes w) s em (uuid4 (drawn w)) (utcnow (ticks w)))
      as [[p|e] st]; cbn; discriminate.
  - cbn. split; reflexivity.
Qed.

Lemma initiate_validation_not_found_iff_not_exists_witness :
  fst (initiate_validation (mongo_enrollment_repository (Ok sample_enrollments))
         (fun _ => "p1") sample_clock sample_str_error
         (PyStr "00000000-0000-0000-0000-000000000000")
         (sys_of InMemoryValidationProcessRepository.init))
  = Raise (EnrollmentNotFoundError "00000000-0000-0000-0000-000000000000")
  <-> MongoEnrollmentRepository.exists_
        (Ok sample_enrollments) "00000000-0000-0000-0000-000000000000" = false.
Proof.
  apply (initiate_validation_not_found_iff_not_exists
           (Ok sample_enrollments) (fun _ => "p1") sample_clock sample_str_error
           "00000000-0000-0000-0000-000000000000"
           (sys_of InMemoryValidationProcessRepository.init)).
  exists "00000000", "0000", "0000", "0000", "000000000000".
  repeat split; reflexivity.
Defined.

(** ** The comparator, further *)

Lemma dict_set_length_new (d : dict) (k : string) (v : pyval) :
  dict_lookup k d = None -> length (dict_set d k v) = Datatypes.S (length d).
Proof.
  induction d as [|[k' w] d IH]; cbn; [reflexivity|].
  destruct (String.eqb k' k); [discriminate|]. intros H. cbn. now rewrite IH.
Qed.

Section ComparatorCounting.

Variable str_strip : string -> string.
Variable str_lower : string -> string.
Variable record : dict.

Lemma partition_lengths (extracted info : dict) :
  List.NoDup (map fst extracted) ->
  (forall k, In k (map fst extracted) -> dict_lookup k info = None) ->
  (length (matches_of str_strip str_lower record extracted)
   + length (anomalies_of str_strip str_lower record extracted)
   + length (additional_of str_strip str_lower record extracted info))%nat
  = (length info + length extracted)%nat.
Proof.
  revert info. induction extracted as [|[k v] rest IH]; intros info Hnd Hfresh.
  - cbn. lia.
  - cbn in Hnd. apply NoDup_cons_iff in Hnd as [Hk Hnd].
    cbn [matches_of anomalies_of additional_of].
    destruct (classify str_strip str_lower record k v) eqn:E.
    + assert (Hfresh' : forall k', In k' (map fst rest) ->
                          dict_lookup k' (dict_set info k v) = None).
      { intros k' Hk'. rewrite dict_lookup_set_ne.
        - apply Hfresh. now right.
        - intros ->. contradiction. }
      pose proof (IH (dict_set info k v) Hnd Hfresh') as H.
      rewrite dict_set_length_new in H by (apply Hfresh; now left).
      cbn [length map]. lia.
    + assert (Hfresh' : forall k', In k' (map fst rest) -> dict_lookup k' info = None)
        by (intros k' Hk'; apply Hfresh; now right).
      pose proof (IH info Hnd Hfresh') as H. cbn [length map]. lia.
    + assert (Hfresh' : forall k', In k' (map fst rest) -> dict_lookup k' info = None)
        by (intros k' Hk'; apply Hfresh; now right).
      pose proof (IH info Hnd Hfresh') as H. cbn [length map]. lia.
Qed.

End ComparatorCounting.

(** X20: the three lists of the result divide the extracted fields:
    with the distinct keys of a dictionary, the numbers of matches, of
    anomalies and of additional fields add up to the number of extracted
    fields, and [total_anomalies] is the second of them. *)
Theorem compare_student_data_partitions
        (get_student_by_id : string -> option dict)
        (str_strip str_lower : string -> string)
        (student_id : string) (record extracted : dict) :
  get_student_by_id student_id = Some record ->
  List.NoDup (map fst extracted) ->
  exists c : Comparison,
    compare_student_data get_student_by_id str_strip str_lower student_id extracted
    = CompareSuccess c
    /\ (length c.(matches) + c.(total_anomalies) + length c.(additional_info))%nat
       = length extracted
    /\ c.(total_anomalies) = length c.(anomalies).
Proof.
  intros Hrec Hnd.
  rewrite (compare_student_data_success _ str_strip str_lower _ _ extracted Hrec).
  eexists. split; [reflexivity|]. cbn. split; [|reflexivity].
  now rewrite (partition_lengths str_strip str_lower record extracted []).
Qed.

Lemma compare_student_data_partitions_witness :
  exists c : Comparison,
    compare_with [("name", PyStr "Jane"); ("grade", PyInt 3)]
                 [("name", PyStr " jane "); ("grade", PyInt 4);
                  ("middle_name", PyStr "Ann")]
    = CompareSuccess c
    /\ (length c.(matches) + c.(total_anomalies) + length c.(additional_info))%nat
       = length [("name", PyStr " jane "); ("grade", PyInt 4);
                 ("middle_name", PyStr "Ann")]
    /\ c.(total_anomalies) = length c.(anomalies).
Proof.
  apply (compare_student_data_partitions
           (fun _ => Some [("name", PyStr "Jane"); ("grade", PyInt 3)])
           ascii_strip ascii_lower "12345678-1234-5678-9012-123456789abc"
           [("name", PyStr "Jane"); ("grade", PyInt 3)]
           [("name", PyStr " jane "); ("grade", PyInt 4);
            ("middle_name", PyStr "Ann")]).
  - reflexivity.
  - repeat constructor; cbn; intuition discriminate.
Defined.

(** *** Python's [==] is reflexive on these values *)

Lemma py_eq_list (xs ys : list pyval) :
  py_eq (PyList xs) (PyList ys) = list_all2 py_eq xs ys.
Proof.
  cbn. revert ys. induction xs as [|x xs IH]; intros [|y ys]; cbn; try reflexivity.
  now rewrite IH.
Qed.

Lemma py_eq_dict (d e : dict) :
  py_eq (PyDict d) (PyDict e)
  = Nat.eqb (length d) (length e) && dict_all_in py_eq e d.
Proof.
  cbn. f_equal. induction d as [|[k v] d IH]; cbn; [reflexivity|].
  now rewrite IH.
Qed.

Lemma pyval_nested_ind (P : pyval -> Prop) :
  P PyNone ->
  (forall b, P (PyBool b)) ->
  (forall n, P (PyInt n)) ->
  (forall s, P (PyStr s)) ->
  (forall xs, Forall P xs -> P (PyList xs)) ->
  (forall kvs, Forall (fun kv => P (snd kv)) kvs -> P (PyDict kvs)) ->
  forall v, P v.
Proof.
  intros HNone HBool HInt HStr HList HDict.
  fix IH 1. intros [| b | n | s | xs | kvs].
  - exact HNone.
  - apply HBool.
  - apply HInt.
  - apply HStr.
  - apply HList. induction xs as [|x xs IHxs]; constructor; [apply IH | exact IHxs].
  - apply HDict. induction kvs as [|[k x] kvs IHkvs]; constructor;
      [apply IH | exact IHkvs].
Qed.

Lemma unique_keys_dict (k : string) (x : pyval) (kvs : dict) :
  unique_keys (PyDict ((k, x) :: kvs))
  = negb (is_some (dict_lookup k kvs)) && unique_keys x && unique_keys (PyDict kvs).
Proof. reflexivity. Qed.

Lemma unique_keys_list (x : pyval) (xs : list pyval) :
  unique_keys (PyList (x :: xs)) = unique_keys x && unique_keys (PyList xs).
Proof. reflexivity. Qed.

Lemma py_eq_refl (v : pyval) : unique_keys v = true -> py_eq v v = true.
Proof.
  induction v as [| b | n | s | xs IHxs | kvs IHkvs] using pyval_nested_ind; intros Hu.
  - reflexivity.
  - now destruct b.
  - apply Z.eqb_refl.
  - apply String.eqb_refl.
  - rewrite py_eq_list. induction IHxs as [|x xs Hx _ IH]; [reflexivity|].
    rewrite unique_keys_list in Hu. apply andb_prop in Hu as [Hux Huxs].
    cbn. now rewrite (Hx Hux), (IH Huxs).
  - rewrite py_eq_dict, Nat.eqb_refl. cbn [andb].
    assert (G : forall e, (forall k x, In (k, x) kvs -> dict_lookup k e = Some x) ->
                          dict_all_in py_eq e kvs = true).
    { induction IHkvs as [|[k x] kvs Hx _ IH]; intros e He; [reflexivity|].
      cbn [snd] in Hx. rewrite unique_keys_dict in Hu.
      apply andb_prop in Hu as [Hu Hukvs]. apply andb_prop in Hu as [_ Hux].
      cbn. rewrite (He k x (or_introl eq_refl)), (Hx Hux). cbn.
      apply (IH Hukvs). intros k' x' Hin. apply He. now right. }
    apply G. clear G IHkvs.
    induction kvs as [|[k x] kvs IH]; intros k' x' Hin; [destruct Hin|].
    rewrite unique_keys_dict in Hu.
    apply andb_prop in Hu as [Hu Hukvs]. apply andb_prop in Hu as [Hk _].
    cbn. destruct Hin as [[= <- <-] | Hin].
    + now rewrite String.eqb_refl.
    + destruct (String.eqb k k') eqn:E; [|now apply IH].
      apply String.eqb_eq in E. subst k'.
      rewrite (IH Hukvs k x' Hin) in Hk. discriminate Hk.
Qed.

Lemma dict_lookup_In (d : dict) (k : string) (v : pyval) :
  List.NoDup (map fst d) -> In (k, v) d -> dict_lookup k d = Some v.
Proof.
  induction d as [|[k' v'] d IH]; intros Hnd Hin; [destruct Hin|].
  cbn in Hnd. apply NoDup_cons_iff in Hnd as [Hk Hnd]. cbn.
  destruct Hin as [[= -> ->] | Hin].
  - now rewrite String.eqb_refl.
  - destruct (String.eqb k' k) eqn:E; [|now apply IH].
    apply String.eqb_eq in E. subst k'. destruct Hk.
    apply (in_map fst) in Hin. exact Hin.
Qed.

Section ComparatorSelf.

Variable str_strip : string -> string.
Variable str_lower : string -> string.

Lemma equal_values_refl (v : pyval) :
  unique_keys v = true -> equal_values str_strip str_lower v v = true.
Proof.
  intros Hu. destruct v; try (now apply py_eq_refl).
  cbn. apply String.eqb_refl.
Qed.

Lemma anomalies_of_none (record extracted : dict) :
  (forall k v db, In (k, v) extracted ->
                  classify str_strip str_lower record k v <> IsAnomaly db) ->
  anomalies_of str_strip str_lower record extracted = [].
Proof.
  induction extracted as [|[k v] rest IH]; intros H; [reflexivity|]. cbn.
  destruct (classify str_strip str_lower record k v) as [|db|db] eqn:E.
  - apply IH. intros k' v' db' Hin. apply H. now right.
  - apply IH. intros k' v' db' Hin. apply H. now right.
  - destruct (H k v db (or_introl eq_refl) E).
Qed.

End ComparatorSelf.

(** X21: extracted data that repeats the record raises no anomaly.
    When the record (with distinct keys, in it and in its nested
    dictionaries) is compared with itself, every field with a value is a
    match, the null ones are additional information, and the count of
    anomalies is zero. *)
Theorem compare_record_with_itself
        (get_student_by_id : string -> option dict)
        (str_strip str_lower : string -> string)
        (student_id : string) (record : dict) :
  get_student_by_id student_id = Some record ->
  List.NoDup (map fst record) ->
  unique_keys (PyDict record) = true ->
  exists c : Comparison,
    compare_student_data get_student_by_id str_strip str_lower student_id record
    = CompareSuccess c
    /\ c.(anomalies) = []
    /\ c.(total_anomalies) = 0%nat
    /\ (forall k v, In (k, v) record -> v <> PyNone ->
                    In {| match_field := k; match_value := v |} c.(matches))
    /\ (forall k, In (k, PyNone) record ->
                  dict_lookup k c.(additional_info) = Some PyNone).
Proof.
  intros Hrec Hnd Hu.
  assert (Hvals : forall k v, In (k, v) record -> unique_keys v = true).
  { clear Hrec Hnd. induction record as [|[k' v'] d IH]; intros k v Hin;
      [destruct Hin|].
    rewrite unique_keys_dict in Hu.
    apply andb_prop in Hu as [Hu Hud]. apply andb_prop in Hu as [_ Huv].
    destruct Hin as [[= <- <-] | Hin]; [exact Huv | now apply (IH Hud k v)]. }
  assert (Hclass : forall k v, In (k, v) record ->
             classify str_strip str_lower record k v
             = match v with PyNone => AdditionalInfo | _ => IsMatch v end).
  { intros k v Hin. unfold classify.
    rewrite (dict_lookup_In record k v Hnd Hin).
    pose proof (equal_values_refl str_strip str_lower v (Hvals k v Hin)) as He.
    destruct v; try reflexivity; now rewrite He. }
  rewrite (compare_student_data_success _ str_strip str_lower _ _ record Hrec).
  eexists. split; [reflexivity|]. cbn.
  assert (Hanom : anomalies_of str_strip str_lower record record = []).
  { apply anomalies_of_none. intros k v db Hin. rewrite (Hclass k v Hin).
    destruct v; discriminate. }
  rewrite Hanom. split; [reflexivity|]. split; [reflexivity|]. split.
  - intros k v Hin Hv. apply matches_of_In. exists v. cbn. split; [exact Hin|].
    rewrite (Hclass k v Hin). destruct v; try reflexivity. contradiction.
  - intros k Hin. apply additional_of_In; [exact Hnd | exact Hin|].
    now rewrite (Hclass k PyNone Hin).
Qed.

Lemma compare_record_with_itself_witness :
  exists c : Comparison,
    compare_student_data (fun _ => Some sample_student) ascii_strip ascii_lower
                         "12345678-1234-5678-9012-123456789abc" sample_student
    = CompareSuccess c
    /\ c.(anomalies) = []
    /\ c.(total_anomalies) = 0%nat
    /\ (forall k v, In (k, v) sample_student -> v <> PyNone ->
                    In {| match_field := k; match_value := v |} c.(matches))
    /\ (forall k, In (k, PyNone) sample_student ->
                  dict_lookup k c.(additional_info) = Some PyNone).
Proof.
  apply (compare_record_with_itself
           (fun _ => Some sample_student) ascii_strip ascii_lower
           "12345678-1234-5678-9012-123456789abc" sample_student).
  - reflexivity.
  - repeat constructor; cbn; intuition discriminate.
  - reflexivity.
Defined.

(** ** The connection to the database *)

(** X22: a ping that fails is reported once.  When no client is set,
    the client can be built and the server refuses the ping, [connect]
    raises the exception of the ping but has already kept the client; the
    next [connect] hands out that client without pinging, and so does
    every later one. *)
Theorem connect_keeps_unverified_client
        (new_client : option string -> result Database.MongoClient)
        (ping : nat -> result unit) (self : DatabaseConnection)
        (st : Database.State) (c : Database.MongoClient) (e : exn) :
  Database._client st = None ->
  new_client self.(mongodb_uri) = Ok c ->
  ping (Database.pings st) = Raise e ->
  fst (Database.connect new_client ping self st) = Raise e
  /\ Database._client (snd (Database.connect new_client ping self st)) = Some c
  /\ Database.connect new_client ping self
       (snd (Database.connect new_client ping self st))
     = (Ok c, snd (Database.connect new_client ping self st))
  /\ Database.pings (snd (Database.connect new_client ping self st))
     = Datatypes.S (Database.pings st).
Proof.
  intros Hnone Hnew Hping. unfold Database.connect, Database.send_ping.
  rewrite Hnone, Hnew. cbn. rewrite Hping. cbn. repeat split.
Qed.

Lemma connect_keeps_unverified_client_witness :
  fst (Database.connect (fun uri => Ok {| Database.client_uri := uri |})
         (refusing_pings 1) sample_connection fresh_database)
  = Raise (OtherException "ServerSelectionTimeoutError")
  /\ Database._client
       (snd (Database.connect (fun uri => Ok {| Database.client_uri := uri |})
               (refusing_pings 1) sample_connection fresh_database))
     = Some {| Database.client_uri := Some "mongodb://localhost" |}
  /\ Database.connect (fun uri => Ok {| Database.client_uri := uri |})
       (refusing_pings 1) sample_connection
       (snd (Database.connect (fun uri => Ok {| Database.client_uri := uri |})
               (refusing_pings 1) sample_connection fresh_database))
     = (Ok {| Database.client_uri := Some "mongodb://localhost" |},
        snd (Database.connect (fun uri => Ok {| Database.client_uri := uri |})
               (refusing_pings 1) sample_connection fresh_database))
  /\ Database.pings
       (snd (Database.connect (fun uri => Ok {| Database.client_uri := uri |})
               (refusing_pings 1) sample_connection fresh_database))
     = Datatypes.S (Database.pings fresh_database).
Proof.
  apply (connect_keeps_unverified_client
           (fun uri => Ok {| Database.client_uri := uri |})
           (refusing_pings 1) sample_connection fresh_database
           {| Database.client_uri := Some "mongodb://localhost" |}
           (OtherException "ServerSelectionTimeoutError")).
  - reflexivity.
  - reflexivity.
  - reflexivity.
Defined.

(** X23: [is_connected] never raises; it answers [True] only when a
    client is set and the ping it sends succeeds.  After
    [close_connection] no client is set: [is_connected] answers [False]
    without a ping, and [connect] builds a client and pings anew. *)
Theorem is_connected_and_close
        (new_client : option string -> result Database.MongoClient)
        (ping : nat -> result unit) (self : DatabaseConnection)
        (st : Database.State) :
  (exists b, fst (Database.is_connected ping st) = Ok b
             /\ (b = true <->
                 (exists c, Database._client st = Some c)
                 /\ ping (Database.pings st) = Ok tt))
  /\ Database._client (snd (Database.close_connection st)) = None
  /\ Database.is_connected ping (snd (Database.close_connection st))
     = (Ok false, snd (Database.close_connection st))
  /\ (forall c, new_client self.(mongodb_uri) = Ok c ->
        fst (Database.connect new_client ping self (snd (Database.close_connection st)))
        = match ping (Database.pings st) with
          | Ok _ => Ok c
          | Raise e => Raise e
          end
        /\ Database.pings
             (snd (Database.connect new_client ping self
                     (snd (Database.close_connection st))))
           = Datatypes.S (Database.pings st)).
Proof.
  split; [|split; [|split]].
  - unfold Database.is_connected, Database.send_ping. cbn beta.
    destruct (Database._client st) as [c|]; cbn.
    + destruct (ping (Database.pings st)) as [[]|e]; cbn; eexists; split;
        try reflexivity.
      * split; [intros _; split; [now exists c | reflexivity] | reflexivity].
      * split; [discriminate | intros [_ H]; discriminate H].
    + exists false. split; [reflexivity|].
      split; [discriminate | intros [[c H] _]; discriminate H].
  - unfold Database.close_connection. cbn beta.
    destruct (Database._client st) eqn:E; cbn; [reflexivity | exact E].
  - unfold Database.close_connection, Database.is_connected. cbn beta.
    destruct (Database._client st) eqn:E; cbn; [reflexivity | now rewrite E].
  - intros c Hnew.
    unfold Database.close_connection, Database.connect, Database.send_ping.
    cbn beta.
    destruct (Database._client st) eqn:E; cbn; rewrite ?E, Hnew; cbn;
      destruct (ping (Database.pings st)) as [[]|e]; cbn; split; reflexivity.
Qed.

(** ** The local certificate *)

Section LocalCertificateProperties.

Variable module_dir : string.
Variable path_exists : string -> bool.
Variable abspath : string -> string.



End LocalCertificateProperties.



(** ** The service on the two backends *)

Section TwoBackends.

Variable utcnow : nat -> timestamp.

(** One [update_status] through the service, on mirrored states: the
    MongoDB side returns what the in-memory side returns, read back. *)
Lemma sim_update_status (wc : SysC) (wm : SysM) (pid : string)
      (s : ValidationStatus) (err : option string) (res : option dict) :
  sys_mirrors wc wm ->
  alike (processes wm) (CallUpdateStatus pid s err res (utcnow (ticks wm))) = true ->
  fst (process_update_status utcnow pid s err res wc)
  = match fst (process_update_status utcnow pid s err res wm) with
    | Ok p => Ok (read_back p)
    | Raise e => Raise e
    end
  /\ sys_mirrors (snd (process_update_status utcnow pid s err res wc))
                 (snd (process_update_status utcnow pid s err res wm)).
Proof.
  intros (Hm & Hc & Hd & Ht) Ha.
  destruct (mirrors_update_status (processes wc) (processes wm) pid s err res
              (utcnow (ticks wm)) Hm Ha) as [Hr Hs].
  unfold process_update_status.
  cbn [update_status mongo_repository in_memory_repository]. rewrite Ht.
  destruct (MongoValidationProcessRepository.update_status (processes wc) pid s
              err res (utcnow (ticks wm))) as [rc c'].
  destruct (InMemoryValidationProcessRepository.update_status (processes wm) pid s
              err res (utcnow (ticks wm))) as [rm st'].
  cbn [fst snd] in *. subst rc. split; [reflexivity|].
  destruct rm as [p|e]; (split; [exact Hs|]);
    cbn [calls drawn ticks]; rewrite Hc, map_app; repeat split; congruence.
Qed.

(** One [get_by_id] through the service, on mirrored states. *)
Lemma sim_get_by_id (wc : SysC) (wm : SysM) (pid : string) :
  sys_mirrors wc wm ->
  fst (process_get_by_id pid wc)
  = Ok (read_back <$> InMemoryValidationProcessRepository.get_by_id (processes wm) pid)
  /\ fst (process_get_by_id pid wm)
     = Ok (InMemoryValidationProcessRepository.get_by_id (processes wm) pid)
  /\ sys_mirrors (snd (process_get_by_id pid wc)) (snd (process_get_by_id pid wm)).
Proof.
  intros (Hm & Hc & Hd & Ht).
  unfold process_get_by_id, record_call, on_repository, mbind, se_bind.
  cbn [get_by_id mongo_repository in_memory_repository processes calls
       drawn ticks fst snd].
  rewrite (mirrors_get_by_id _ _ pid Hm). split; [reflexivity|].
  split; [reflexivity|].
  split; [exact Hm|]. cbn [calls drawn ticks]. rewrite Hc, map_app.
  repeat split; congruence.
Qed.

Lemma alike_clean (st : gmap string ValidationProcess) (pid : string)
      (s : ValidationStatus) (err : option string) (res : option dict)
      (now : timestamp) :
  clean st pid -> alike st (CallUpdateStatus pid s err res now) = true.
Proof.
  unfold clean. cbn. destruct (st !! pid) as [p|]; [|reflexivity].
  intros [-> ->]. now destruct err, res.
Qed.

(** On the in-memory repository, an update that raises changes nothing,
    and one that leaves out message and payload leaves the process clean. *)
Lemma in_memory_update_raise_unchanged (wm : SysM) (pid : string)
      (s : ValidationStatus) (err : option string) (res : option dict) (e : exn) :
  fst (process_update_status utcnow pid s err res wm) = Raise e ->
  processes (snd (process_update_status utcnow pid s err res wm)) = processes wm.
Proof.
  unfold process_update_status.
  cbn [update_status in_memory_repository].
  unfold InMemoryValidationProcessRepository.update_status,
    InMemoryValidationProcessRepository.get_by_id.
  destruct (processes wm !! pid); cbn; [discriminate | reflexivity].
Qed.

Lemma in_memory_update_clean (wm : SysM) (pid : string) (s : ValidationStatus) :
  clean (processes wm) pid ->
  clean (processes (snd (process_update_status utcnow pid s None None wm))) pid.
Proof.
  unfold process_update_status, clean.
  cbn [update_status in_memory_repository].
  unfold InMemoryValidationProcessRepository.update_status,
    InMemoryValidationProcessRepository.get_by_id.
  destruct (processes wm !! pid) as [p|] eqn:Hp; cbn.
  - rewrite lookup_insert_eq. now cbn.
  - now rewrite Hp.
Qed.

Lemma sys_mirrors_recorded (ev : Event) (wc : SysC) (wm : SysM) :
  event_read_back ev = ev ->
  sys_mirrors wc wm -> sys_mirrors (recorded ev wc) (recorded ev wm).
Proof.
  intros Hev (Hm & Hc & Hd & Ht). split; [exact Hm|]. cbn [recorded calls drawn ticks].
  rewrite Hc, map_app. cbn. rewrite Hev. repeat split; congruence.
Qed.

Lemma sys_mirrors_ticked (wc : SysC) (wm : SysM) :
  sys_mirrors wc wm -> sys_mirrors (ticked wc) (ticked wm).
Proof.
  intros (Hm & Hc & Hd & Ht). repeat split; cbn; congruence.
Qed.

(** An update whose answer is dropped, on mirrored states: the same
    outcome, mirrored states after it, and a clean process where the
    in-memory side raised. *)
Lemma sim_finish_with (wc : SysC) (wm : SysM) (pid : string)
      (s : ValidationStatus) (err : option string) (res : option dict) :
  sys_mirrors wc wm ->
  clean (processes wm) pid ->
  fst (finish_with utcnow pid s err res wc) = fst (finish_with utcnow pid s err res wm)
  /\ sys_mirrors (snd (finish_with utcnow pid s err res wc))
                 (snd (finish_with utcnow pid s err res wm))
  /\ (forall e, fst (finish_with utcnow pid s err res wm) = Raise e ->
                clean (processes (snd (finish_with utcnow pid s err res wm))) pid).
Proof.
  intros Hsys Hclean.
  destruct (sim_update_status wc wm pid s err res Hsys
              (alike_clean _ _ _ _ _ _ Hclean)) as [Hr Hs].
  pose proof (in_memory_update_raise_unchanged wm pid s err res) as Hun.
  unfold finish_with.
  destruct (process_update_status utcnow pid s err res wc) as [rc wc1].
  destruct (process_update_status utcnow pid s err res wm) as [rm wm1].
  cbn [fst snd] in *. subst rc. destruct rm as [p|e]; cbn [fst snd].
  - split; [reflexivity|]. split; [exact Hs | discriminate].
  - split; [reflexivity|]. split; [exact Hs|].
    intros e' _. now rewrite (Hun e eq_refl).
Qed.

(** The [except] clause on two bodies that ended alike. *)
Lemma sim_handled (pid : string)
      (rc : result unit * SysC) (rm : result unit * SysM) :
  fst rc = fst rm ->
  sys_mirrors (snd rc) (snd rm) ->
  (forall e, fst rm = Raise e -> clean (processes (snd rm)) pid) ->
  fst (handled utcnow pid rc) = fst (handled utcnow pid rm)
  /\ sys_mirrors (snd (handled utcnow pid rc)) (snd (handled utcnow pid rm)).
Proof.
  destruct rc as [rc wc], rm as [rm wm]. cbn [fst snd]. intros -> Hs Hc.
  destruct rm as [a|e]; cbn [handled].
  - split; [reflexivity | exact Hs].
  - destruct (sim_finish_with wc wm pid FAILED (Some (exn_str e)) None Hs
                (Hc e eq_refl)) as (H1 & H2 & _).
    split; assumption.
Qed.

End TwoBackends.

(** The background step, call by call, for every process repository. *)
Lemma perform_validation_in_parts
      {S : Type} {process_repository : ValidationProcessRepository S}
      (er : EnrollmentRepository) (utcnow : nat -> timestamp)
      (isoformat : timestamp -> string) (pid : string) (w : Sys (S := S)) :
  _perform_validation er utcnow isoformat pid w =
  handled utcnow pid
    (match process_update_status utcnow pid IN_PROGRESS None None w with
     | (Raise e, w1) => (Raise e, w1)
     | (Ok _, w1) =>
         let w2 := recorded (ProcessGetById pid) w1 in
         match get_by_id (processes w1) pid with
         | None => (Ok tt, w2)
         | Some process =>
             let w3 := recorded (EnrollmentGetByUuid process.(uuid_str)) w2 in
             match truthy (er.(get_by_uuid) process.(uuid_str)) with
             | None =>
                 finish_with utcnow pid FAILED
                   (Some "Enrollment not found during validation") None w3
             | Some d =>
                 match py_len (dict_get_default d "students_info" (PyList [])) with
                 | Raise e => (Raise e, w3)
                 | Ok n =>
                     match py_get (dict_get_default d "verification" (PyDict []))
                                  "verified" (PyBool false) with
                     | Raise e => (Raise e, w3)
                     | Ok v =>
                         finish_with utcnow pid COMPLETED None
                           (Some (make_result_data isoformat process d n v
                                    (utcnow (ticks w3))))
                           (ticked w3)
                     end
                 end
             end
         end
     end).
Proof.
  unfold _perform_validation, try_except, handled, finish_with, recorded, ticked,
    process_get_by_id, record_call, on_repository, enrollment_get_by_uuid,
    lift, datetime_now.
  unfold mbind, se_bind, mret, se_ret.
  destruct (process_update_status utcnow pid IN_PROGRESS None None w) as [[p1|e1] w1];
    [|reflexivity].
  cbn. destruct (get_by_id (processes w1) pid) as [process|]; [|reflexivity].
  destruct (truthy (get_by_uuid er (uuid_str process))) as [d|]; [|reflexivity].
  destruct (py_len (dict_get_default d "students_info" (PyList []))) as [n|e];
    [|reflexivity].
  destruct (py_get (dict_get_default d "verification" (PyDict []))
                   "verified" (PyBool false)) as [v|e]; reflexivity.
Qed.

(** The background step on mirrored states. *)
Lemma sim_perform_validation
      (er : EnrollmentRepository) (utcnow : nat -> timestamp)
      (isoformat : timestamp -> string)
      (wc : SysC) (wm : SysM) (pid : string) :
  sys_mirrors wc wm ->
  clean (processes wm) pid ->
  fst (_perform_validation er utcnow isoformat pid wc)
  = fst (_perform_validation er utcnow isoformat pid wm)
  /\ sys_mirrors (snd (_perform_validation er utcnow isoformat pid wc))
                 (snd (_perform_validation er utcnow isoformat pid wm)).
Proof.
  intros Hsys Hclean.
  rewrite !perform_validation_in_parts.
  destruct (sim_update_status utcnow wc wm pid IN_PROGRESS None None Hsys
              (alike_clean _ _ _ _ _ _ Hclean)) as [Hr Hs].
  pose proof (in_memory_update_clean utcnow wm pid IN_PROGRESS Hclean) as Hc1.
  destruct (process_update_status utcnow pid IN_PROGRESS None None wc) as [rc wc1].
  destruct (process_update_status utcnow pid IN_PROGRESS None None wm) as [rm wm1].
  cbn [fst snd] in Hr, Hs, Hc1. subst rc.
  destruct rm as [p1|e1].
  2:{ apply sim_handled; cbn [fst snd];
      [reflexivity | exact Hs | intros e _; exact Hc1]. }
  pose proof Hs as (Hm & _ & _ & Ht).
  cbn zeta. cbn [get_by_id mongo_repository in_memory_repository].
  rewrite (mirrors_get_by_id _ _ pid Hm).
  destruct (InMemoryValidationProcessRepository.get_by_id (processes wm1) pid)
    as [process|]; cbn [fmap option_fmap option_map].
  2:{ apply sim_handled; cbn [fst snd];
      [reflexivity | now apply sys_mirrors_recorded | discriminate]. }
  change (uuid_str (read_back process)) with (uuid_str process).
  pose proof (sys_mirrors_recorded (EnrollmentGetByUuid (uuid_str process)) _ _
                eq_refl
                (sys_mirrors_recorded (ProcessGetById pid) _ _ eq_refl Hs)) as Hs3.
  assert (Hc3 : clean (processes
                         (recorded (EnrollmentGetByUuid (uuid_str process))
                            (recorded (ProcessGetById pid) wm1))) pid)
    by exact Hc1.
  destruct (truthy (get_by_uuid er (uuid_str process))) as [d|].
  2:{ destruct (sim_finish_with utcnow _ _ pid FAILED
                  (Some "Enrollment not found during validation") None Hs3 Hc3)
        as (H1 & H2 & H3).
      apply sim_handled; assumption. }
  destruct (py_len (dict_get_default d "students_info" (PyList []))) as [n|e].
  2:{ apply sim_handled; cbn [fst snd];
      [reflexivity | exact Hs3 | intros e' _; exact Hc3]. }
  destruct (py_get (dict_get_default d "verification" (PyDict []))
                   "verified" (PyBool false)) as [v|e].
  2:{ apply sim_handled; cbn [fst snd];
      [reflexivity | exact Hs3 | intros e' _; exact Hc3]. }
  cbn [ticks recorded]. rewrite Ht.
  change (make_result_data isoformat (read_back process) d n v (utcnow (ticks wm1)))
    with (make_result_data isoformat process d n v (utcnow (ticks wm1))).
  destruct (sim_finish_with utcnow _ _ pid COMPLETED None
              (Some (make_result_data isoformat process d n v (utcnow (ticks wm1))))
              (sys_mirrors_ticked _ _ Hs3) Hc3) as (H1 & H2 & H3).
  apply sim_handled; assumption.
Qed.

(** [initiate_validation] on mirrored states, when the identifier drawn
    next is not yet stored. *)
Lemma sim_initiate_validation
      (er : EnrollmentRepository) (uuid4 : nat -> string)
      (utcnow : nat -> timestamp) (str_error : pyval -> string)
      (s : string) (wc : SysC) (wm : SysM) :
  sys_mirrors wc wm ->
  processes wm !! uuid4 (drawn wm) = None ->
  fst (initiate_validation er uuid4 utcnow str_error (PyStr s) wc)
  = fst (initiate_validation er uuid4 utcnow str_error (PyStr s) wm)
  /\ sys_mirrors
       (snd (initiate_validation er uuid4 utcnow str_error (PyStr s) wc))
       (snd (initiate_validation er uuid4 utcnow str_error (PyStr s) wm))
  /\ forall p : ValidationProcess,
      fst (initiate_validation er uuid4 utcnow str_error (PyStr s) wm)
      = Ok p ->
      clean (processes
               (snd (initiate_validation er uuid4 utcnow str_error
                       (PyStr s) wm)))
            (process_id p).
Proof.
  intros (Hm & Hc & Hd & Ht) Hfresh.
  destruct (validate_uuid_format_str_total s) as [[|] Hv].
  - rewrite !(initiate_validation_accepted er uuid4 utcnow str_error s _ Hv).
    cbn zeta. rewrite Hc, Hd, Ht.
    destruct (truthy (get_by_uuid er s)) as [d|]; cbn [fst snd].
    + destruct (email_field str_error (dict_get d "email")) as [em|e];
        cbn [fst snd].
      * destruct (mirrors_create (processes wc) (processes wm) s em
                    (uuid4 (drawn wm)) (utcnow (ticks wm)) Hm Hfresh) as [Hr Hs].
        cbn [create mongo_repository in_memory_repository].
        cbn in Hs |- *. split; [reflexivity|]. split.
        -- split; [exact Hs|]. cbn [calls drawn ticks]. rewrite !map_app.
           repeat split.
        -- intros p [= <-]. unfold clean. cbn. now rewrite lookup_insert_eq.
      * split; [reflexivity|]. split; [|discriminate].
        split; [exact Hm|]. cbn [calls drawn ticks]. rewrite !map_app. repeat split.
    + split; [reflexivity|]. split; [|discriminate].
      split; [exact Hm|]. cbn [calls drawn ticks]. rewrite !map_app. repeat split.
  - rewrite !(initiate_validation_refused er uuid4 utcnow str_error s _ Hv).
    cbn [fst snd].
    split; [reflexivity|]. split; [|discriminate]. repeat split; assumption.
Qed.

(** X25: started from mirrored states in which the process named carries
    neither message nor payload, the background step ends alike on the
    MongoDB and on the in-memory repository, up to the datetimes that the
    MongoDB repository reads back cut to the millisecond and without
    zone: the same outcome, the same calls recorded (the processes that
    [update_status] returned being read back on the MongoDB side), the
    same clock readings, and stores in which [get_by_id] on the MongoDB
    side reads the process of the in-memory side, read back. *)
Theorem background_step_same_on_both_backends
        (er : EnrollmentRepository) (utcnow : nat -> timestamp)
        (isoformat : timestamp -> string)
        (wc : SysC) (wm : SysM) (pid : string) :
  sys_mirrors wc wm ->
  clean (processes wm) pid ->
  fst (_perform_validation er utcnow isoformat pid wc)
  = fst (_perform_validation er utcnow isoformat pid wm)
  /\ sys_mirrors (snd (_perform_validation er utcnow isoformat pid wc))
                 (snd (_perform_validation er utcnow isoformat pid wm))
  /\ forall q : string,
      MongoValidationProcessRepository.get_by_id
        (processes (snd (_perform_validation er utcnow isoformat pid wc))) q
      = read_back <$>
          InMemoryValidationProcessRepository.get_by_id
            (processes (snd (_perform_validation er utcnow isoformat pid wm))) q.
Proof.
  intros Hsys Hclean.
  destruct (sim_perform_validation er utcnow isoformat wc wm pid Hsys Hclean)
    as [Hr Hs].
  split; [exact Hr|]. split; [exact Hs|].
  intros q. apply mirrors_get_by_id. exact (proj1 Hs).
Qed.

Lemma background_step_same_on_both_backends_witness :
  sys_mirrors (sys_of_collection [document_of_process (read_back pending_process)])
              (sys_of {["p1" := pending_process]})
  /\ clean (processes (sys_of {["p1" := pending_process]})) "p1"
  /\ fst (_perform_validation
            (one_enrollment "12345678-1234-5678-9012-123456789abc" sample_enrollment)
            sample_clock sample_isoformat "p1"
            (sys_of_collection [document_of_process (read_back pending_process)]))
     = fst (_perform_validation
              (one_enrollment "12345678-1234-5678-9012-123456789abc" sample_enrollment)
              sample_clock sample_isoformat "p1"
              (sys_of {["p1" := pending_process]}))
  /\ MongoValidationProcessRepository.get_by_id
       (processes
          (snd (_perform_validation
                  (one_enrollment "12345678-1234-5678-9012-123456789abc"
                                  sample_enrollment)
                  sample_clock sample_isoformat "p1"
                  (sys_of_collection
                     [document_of_process (read_back pending_process)])))) "p1"
     = read_back <$>
         InMemoryValidationProcessRepository.get_by_id
           (processes
              (snd (_perform_validation
                      (one_enrollment "12345678-1234-5678-9012-123456789abc"
                                      sample_enrollment)
                      sample_clock sample_isoformat "p1"
                      (sys_of {["p1" := pending_process]})))) "p1".
Proof.
  assert (Hsys : sys_mirrors
                   (sys_of_collection [document_of_process (read_back pending_process)])
                   (sys_of {["p1" := pending_process]})).
  { split; [|repeat split]. intros pid. unfold sys_of_collection, sys_of.
    cbn [processes].
    change (MongoValidationProcessRepository.find_one pid
              [document_of_process (read_back pending_process)])
      with (if String.eqb "p1" pid
            then Some (document_of_process (read_back pending_process)) else None).
    destruct (String.eqb_spec "p1" pid) as [<-|Hne].
    - reflexivity.
    - now rewrite lookup_singleton_ne. }
  assert (Hclean : clean (processes (sys_of {["p1" := pending_process]})) "p1").
  { vm_compute. split; reflexivity. }
  split; [exact Hsys|]. split; [exact Hclean|].
  destruct (background_step_same_on_both_backends
              (one_enrollment "12345678-1234-5678-9012-123456789abc" sample_enrollment)
              sample_clock sample_isoformat _ _ "p1" Hsys Hclean)
    as (Hr & _ & Hq).
  split; [exact Hr | exact (Hq "p1")].
Defined.

(** X26: the whole course on the two backends.  From mirrored states in
    which the identifier drawn next is not yet stored,
    [initiate_validation] gives the same result on the MongoDB and on the
    in-memory repository (both return the process as it was built) and
    leaves mirrored states; when it returned a process, the background
    step for that process again ends alike and leaves mirrored states, and
    [get_validation_status] then returns on the MongoDB side the process
    of the in-memory side, read back: with its datetimes cut to the
    millisecond and without zone, and equal in every other field. *)
Theorem service_course_same_on_both_backends
        (er er' : EnrollmentRepository) (uuid4 : nat -> string)
        (utcnow : nat -> timestamp) (isoformat : timestamp -> string)
        (str_error : pyval -> string)
        (s : string) (wc : SysC) (wm : SysM) :
  sys_mirrors wc wm ->
  processes wm !! uuid4 (drawn wm) = None ->
  fst (initiate_validation er uuid4 utcnow str_error (PyStr s) wc)
  = fst (initiate_validation er uuid4 utcnow str_error (PyStr s) wm)
  /\ sys_mirrors
       (snd (initiate_validation er uuid4 utcnow str_error (PyStr s) wc))
       (snd (initiate_validation er uuid4 utcnow str_error (PyStr s) wm))
  /\ forall p : ValidationProcess,
      fst (initiate_validation er uuid4 utcnow str_error (PyStr s) wm)
      = Ok p ->
      fst (_perform_validation er' utcnow isoformat (process_id p)
             (snd (initiate_validation er uuid4 utcnow str_error
                     (PyStr s) wc)))
      = fst (_perform_validation er' utcnow isoformat (process_id p)
               (snd (initiate_validation er uuid4 utcnow str_error
                       (PyStr s) wm)))
      /\ sys_mirrors
           (snd (_perform_validation er' utcnow isoformat (process_id p)
                   (snd (initiate_validation er uuid4 utcnow str_error
                           (PyStr s) wc))))
           (snd (_perform_validation er' utcnow isoformat (process_id p)
                   (snd (initiate_validation er uuid4 utcnow str_error
                           (PyStr s) wm))))
      /\ exists o : option ValidationProcess,
          fst (get_validation_status (process_id p)
                 (snd (_perform_validation er' utcnow isoformat (process_id p)
                         (snd (initiate_validation er uuid4 utcnow
                                 str_error (PyStr s) wm)))))
          = Ok o
          /\ fst (get_validation_status (process_id p)
                    (snd (_perform_validation er' utcnow isoformat (process_id p)
                            (snd (initiate_validation er uuid4 utcnow
                                    str_error (PyStr s) wc)))))
             = Ok (read_back <$> o).
Proof.
  intros Hsys Hfresh.
  destruct (sim_initiate_validation er uuid4 utcnow str_error s wc wm
              Hsys Hfresh) as (Hr & Hs & Hc).
  split; [exact Hr|]. split; [exact Hs|].
  intros p Hp.
  destruct (sim_perform_validation er' utcnow isoformat _ _ (process_id p) Hs
              (Hc p Hp)) as [Hr' Hs'].
  split; [exact Hr'|]. split; [exact Hs'|].
  destruct (sim_get_by_id _ _ (process_id p) Hs') as (Hgc & Hgm & _).
  eexists. split; [exact Hgm | exact Hgc].
Qed.

Lemma service_course_same_on_both_backends_witness :
  sys_mirrors (sys_of_collection MongoValidationProcessRepository.init)
              (sys_of InMemoryValidationProcessRepository.init)
  /\ processes (sys_of InMemoryValidationProcessRepository.init)
       !! (fun _ : nat => "p1") (drawn (sys_of InMemoryValidationProcessRepository.init))
     = None
  /\ exists p p' : ValidationProcess,
      fst (initiate_validation
             (one_enrollment "12345678-1234-5678-9012-123456789abc" sample_enrollment)
             (fun _ => "p1") sample_clock sample_str_error
             (PyStr "12345678-1234-5678-9012-123456789abc")
             (sys_of InMemoryValidationProcessRepository.init)) = Ok p
      /\ fst (initiate_validation
                (one_enrollment "12345678-1234-5678-9012-123456789abc" sample_enrollment)
                (fun _ => "p1") sample_clock sample_str_error
                (PyStr "12345678-1234-5678-9012-123456789abc")
                (sys_of_collection MongoValidationProcessRepository.init)) = Ok p
      /\ fst (get_validation_status (process_id p)
                (snd (_perform_validation
                        (one_enrollment "12345678-1234-5678-9012-123456789abc"
                                        sample_enrollment)
                        sample_clock sample_isoformat (process_id p)
                        (snd (initiate_validation
                                (one_enrollment "12345678-1234-5678-9012-123456789abc"
                                                sample_enrollment)
                                (fun _ => "p1") sample_clock
                                sample_str_error
                                (PyStr "12345678-1234-5678-9012-123456789abc")
                                (sys_of InMemoryValidationProcessRepository.init))))))
         = Ok (Some p')
      /\ fst (get_validation_status (process_id p)
                (snd (_perform_validation
                        (one_enrollment "12345678-1234-5678-9012-123456789abc"
                                        sample_enrollment)
                        sample_clock sample_isoformat (process_id p)
                        (snd (initiate_validation
                                (one_enrollment "12345678-1234-5678-9012-123456789abc"
                                                sample_enrollment)
                                (fun _ => "p1") sample_clock
                                sample_str_error
                                (PyStr "12345678-1234-5678-9012-123456789abc")
                                (sys_of_collection
                                   MongoValidationProcessRepository.init))))))
         = Ok (Some (read_back p'))
      /\ created_at p' = utc 10
      /\ created_at (read_back p') = {| microseconds := 0; tz_aware := false |}.
Proof.
  assert (Hsys : sys_mirrors (sys_of_collection MongoValidationProcessRepository.init)
                             (sys_of InMemoryValidationProcessRepository.init)).
  { repeat split. }
  assert (Hfresh : processes (sys_of InMemoryValidationProcessRepository.init)
                     !! (fun _ : nat => "p1")
                          (drawn (sys_of InMemoryValidationProcessRepository.init))
                   = None).
  { reflexivity. }
  split; [exact Hsys|]. split; [exact Hfresh|].
  destruct (service_course_same_on_both_backends
              (one_enrollment "12345678-1234-5678-9012-123456789abc" sample_enrollment)
              (one_enrollment "12345678-1234-5678-9012-123456789abc" sample_enrollment)
              (fun _ => "p1") sample_clock sample_isoformat
              sample_str_error
              "12345678-1234-5678-9012-123456789abc" _ _ Hsys Hfresh)
    as (Hr & _ & Hstep).
  pose (p := {| process_id := "p1";
                uuid_str := "12345678-1234-5678-9012-123456789abc";
                email := Some "a@b.c"; status := PENDING; created_at := utc 10;
                updated_at := None; error_message := None; result_data := None |}).
  assert (Hp : fst (initiate_validation
                      (one_enrollment "12345678-1234-5678-9012-123456789abc"
                                      sample_enrollment)
                      (fun _ => "p1") sample_clock sample_str_error
                      (PyStr "12345678-1234-5678-9012-123456789abc")
                      (sys_of InMemoryValidationProcessRepository.init)) = Ok p)
    by (vm_compute; reflexivity).
  destruct (Hstep p Hp) as (_ & _ & o & Ho & Hoc).
  exists p.
  destruct o as [p'|]; [|vm_compute in Ho; discriminate Ho].
  exists p'. split; [exact Hp|]. split; [rewrite Hr; exact Hp|].
  split; [exact Ho|]. split; [exact Hoc|].
  vm_compute in Ho. injection Ho as <-. split; reflexivity.
Defined.
